(** * ETF holdings tracker: a shallow embedding of [main.py]

    The development follows the program top to bottom: the Python library
    operations the program calls (string methods, the [csv] reader,
    [float], [int], IEEE-754 binary64 arithmetic), then [parse_csv],
    [load_state] / [save_state], [send_discord_alert] and [main]; then the
    notions the properties are stated with and the sample inputs; and
    finally the properties of the parser and of the change detector.

    Conventions of the model.
    - Text is Latin-1: a Python [str] is a [string] of 8-bit characters,
      the code points U+0000 to U+00FF, which is how [requests] decodes a
      [text/csv] answer that declares no charset. [str.strip],
      [str.splitlines], [str.upper] and [float] are modelled as Python
      defines them on these code points.
    - A line is what [str.splitlines] returns, so it holds no line break;
      the [csv] reader is modelled for such lines (dialect [excel],
      non-strict). The reader refuses a line with a field of more than
      131072 characters: [csv_reader] is the reader with this limit, and
      [csv_row] the fields that it returns for a line within the limit,
      which is what the parser is modelled on.
    - A Python [float] is a binary64 number, represented by [spec_float]
      with precision 53 and maximal exponent 1024; every operation rounds
      to nearest, ties to even, as the hardware does.
    - A raised exception is a value [Raise e] of the type [result].
    - The state file is a JSON document whose cells are null, strings,
      integers or floats: what [main] itself writes into a record. *)

From Stdlib Require Import ZArith List String Ascii Bool Lia QArith Qabs Qround.
From Stdlib Require Import SpecFloat.
From stdpp Require Import base option list strings gmap.

Local Open Scope string_scope.
Local Open Scope list_scope.
Local Open Scope Z_scope.

(** ** Exceptions and results *)

Inductive exn :=
| ValueError (msg : string)
| IndexError
| OverflowError
| TypeError
| ZeroDivisionError
| RequestException
| CsvError.

Inductive result (A : Type) :=
| Ok (a : A)
| Raise (e : exn).
Arguments Ok {A} a.
Arguments Raise {A} e.

#[global] Instance result_ret : MRet result := fun _ a => Ok a.
#[global] Instance result_bind : MBind result := fun _ _ k r =>
  match r with
  | Ok a => k a
  | Raise e => Raise e
  end.

(** The diagnostic the parser raises when no header row is found, and the
    ones [float] and [int] raise on an unparsable quantity. *)
Definition HeaderNotFound : exn := ValueError "Could not find header row in CSV".
Definition float_syntax_error : exn := ValueError "could not convert string to float".
Definition nan_to_int_error : exn := ValueError "cannot convert float NaN to integer".

Definition MalformedQuantity (e : exn) : Prop :=
  e = float_syntax_error \/ e = nan_to_int_error \/ e = OverflowError.

(** ** Python strings *)

Definition code (c : ascii) : nat := nat_of_ascii c.

(** [str.isspace] on one character: tab to carriage return, the four
    separators 28..31, the space, next line (U+0085) and the no-break space
    (U+00A0). *)
Definition is_space (c : ascii) : bool :=
  ((9 <=? code c) && (code c <=? 13) || (28 <=? code c) && (code c <=? 32)
   || (code c =? 133) || (code c =? 160))%nat.

(** C's [isspace], which [float] uses to trim its argument. *)
Definition is_cspace (c : ascii) : bool :=
  ((9 <=? code c) && (code c <=? 13) || (code c =? 32))%nat.

(** The blanks that [float] trims: before it trims with [isspace], it
    replaces the blanks outside ASCII (U+0085 and U+00A0) by spaces. *)
Definition is_float_blank (c : ascii) : bool :=
  (is_cspace c || (code c =? 133) || (code c =? 160))%nat.

Definition is_digit (c : ascii) : bool := ((48 <=? code c) && (code c <=? 57))%nat.

(** The upper case of one character. The letters a to z and the Latin-1
    letters U+00E0 to U+00FE (but the division sign U+00F7) move down by
    32; the sharp s (U+00DF) becomes SS. The capitals of the micro sign
    (U+00B5) and of y with diaeresis (U+00FF) lie outside Latin-1, at U+039C
    and U+0178: the two characters are kept, and since no upper-cased text
    holds them otherwise, they stand there for these capitals. *)
Definition upper_char (c : ascii) : list ascii :=
  if ((97 <=? code c) && (code c <=? 122))%nat then [ascii_of_nat (code c - 32)]
  else if ((224 <=? code c) && (code c <=? 254) && negb (code c =? 247))%nat
       then [ascii_of_nat (code c - 32)]
  else if (code c =? 223)%nat then ["S"%char; "S"%char]
  else [c].

Fixpoint drop_while {A} (p : A -> bool) (l : list A) : list A :=
  match l with
  | [] => []
  | x :: l' => if p x then drop_while p l' else l
  end.

Definition trim {A} (p : A -> bool) (l : list A) : list A :=
  rev (drop_while p (rev (drop_while p l))).

Definition chars (s : string) : list ascii := list_ascii_of_string s.
Definition str (l : list ascii) : string := string_of_list_ascii l.

(** [s.strip()] *)
Definition strip (s : string) : string := str (trim is_space (chars s)).

(** [s.upper()] *)
Definition upper (s : string) : string := str (concat (map upper_char (chars s))).

(** [s.replace(c, '')] for a one-character [c] *)
Definition remove_char (c : ascii) (s : string) : string :=
  str (List.filter (fun x => negb (Ascii.eqb x c)) (chars s)).

(** [text.splitlines()]: a line ends at line feed, carriage return (with
    a following line feed), vertical tab, form feed, one of the separators
    28..30 or next line (U+0085); no empty line is added after the last
    break. *)
Definition is_linebreak (c : ascii) : bool :=
  ((10 <=? code c) && (code c <=? 13) || (28 <=? code c) && (code c <=? 30)
   || (code c =? 133))%nat.

Fixpoint split_lines (cur : list ascii) (l : list ascii) : list string :=
  match l with
  | [] => match cur with [] => [] | _ => [str (rev cur)] end
  | c :: l' =>
      if is_linebreak c then
        str (rev cur) ::
          match l' with
          | c' :: l'' =>
              if ((code c =? 13) && (code c' =? 10))%nat
              then split_lines [] l''
              else split_lines [] l'
          | [] => []
          end
      else split_lines (c :: cur) l'
  end.

Definition splitlines (text : string) : list string := split_lines [] (chars text).

(** ** The [csv] reader on one line

    [next(csv.reader([line]))] with the default dialect: comma delimiter,
    double-quote quoting with doubled quotes inside a quoted field. The
    states are those of the reader's automaton; [field] is the current
    field, reversed, and [fields] the fields saved so far, reversed. *)

Inductive reader_state :=
| START_RECORD
| START_FIELD
| IN_FIELD
| IN_QUOTED_FIELD
| QUOTE_IN_QUOTED_FIELD.

Definition delimiter : ascii := ","%char.
Definition quotechar : ascii := ascii_of_nat 34.

Definition save_field (field : list ascii) (fields : list string) : list string :=
  str (rev field) :: fields.

Fixpoint parse_process (st : reader_state) (field : list ascii) (fields : list string)
    (l : list ascii) : list string :=
  match l with
  | [] =>
      (* end of the line, then end of the input *)
      match st with
      | START_RECORD => []
      | _ => rev (save_field field fields)
      end
  | c :: l' =>
      match st with
      | START_RECORD | START_FIELD =>
          if Ascii.eqb c quotechar then parse_process IN_QUOTED_FIELD field fields l'
          else if Ascii.eqb c delimiter then parse_process START_FIELD [] (save_field field fields) l'
          else parse_process IN_FIELD (c :: field) fields l'
      | IN_FIELD =>
          if Ascii.eqb c delimiter then parse_process START_FIELD [] (save_field field fields) l'
          else parse_process IN_FIELD (c :: field) fields l'
      | IN_QUOTED_FIELD =>
          if Ascii.eqb c quotechar then parse_process QUOTE_IN_QUOTED_FIELD field fields l'
          else parse_process IN_QUOTED_FIELD (c :: field) fields l'
      | QUOTE_IN_QUOTED_FIELD =>
          if Ascii.eqb c quotechar then parse_process IN_QUOTED_FIELD (c :: field) fields l'
          else if Ascii.eqb c delimiter then parse_process START_FIELD [] (save_field field fields) l'
          else parse_process IN_FIELD (c :: field) fields l'
      end
  end.

Definition csv_row (line : string) : list string :=
  parse_process START_RECORD [] [] (chars line).

(** The reader's field-size limit. [parse_add_char] refuses a character for
    a field that already holds this many, and the reader then raises
    [_csv.Error]; [parse_limited] is [parse_process] with this check, [None]
    standing for the error. *)
Definition field_size_limit : Z := 131072.

(** A field that the reader accepts. *)
Definition fits (f : string) : bool := Z.of_nat (String.length f) <=? field_size_limit.

Definition add_char (c : ascii) (field : list ascii) : option (list ascii) :=
  if field_size_limit <=? Z.of_nat (length field) then None else Some (c :: field).

Fixpoint parse_limited (st : reader_state) (field : list ascii) (fields : list string)
    (l : list ascii) : option (list string) :=
  match l with
  | [] =>
      match st with
      | START_RECORD => Some []
      | _ => Some (rev (save_field field fields))
      end
  | c :: l' =>
      match st with
      | START_RECORD | START_FIELD =>
          if Ascii.eqb c quotechar then parse_limited IN_QUOTED_FIELD field fields l'
          else if Ascii.eqb c delimiter then parse_limited START_FIELD [] (save_field field fields) l'
          else field' ← add_char c field; parse_limited IN_FIELD field' fields l'
      | IN_FIELD =>
          if Ascii.eqb c delimiter then parse_limited START_FIELD [] (save_field field fields) l'
          else field' ← add_char c field; parse_limited IN_FIELD field' fields l'
      | IN_QUOTED_FIELD =>
          if Ascii.eqb c quotechar then parse_limited QUOTE_IN_QUOTED_FIELD field fields l'
          else field' ← add_char c field; parse_limited IN_QUOTED_FIELD field' fields l'
      | QUOTE_IN_QUOTED_FIELD =>
          if Ascii.eqb c quotechar then
            field' ← add_char c field; parse_limited IN_QUOTED_FIELD field' fields l'
          else if Ascii.eqb c delimiter then parse_limited START_FIELD [] (save_field field fields) l'
          else field' ← add_char c field; parse_limited IN_FIELD field' fields l'
      end
  end.

(** [next(csv.reader([line]))], with the limit. *)
Definition csv_reader (line : string) : result (list string) :=
  match parse_limited START_RECORD [] [] (chars line) with
  | Some fields => Ok fields
  | None => Raise CsvError
  end.

(** A line that the reader accepts: [csv_row] is then what it returns. *)
Definition within_field_limit (line : string) : Prop :=
  csv_reader line = Ok (csv_row line).

(** [[c.strip() for c in next(csv.reader([line]))]] *)
Definition csv_cols (line : string) : list string := map strip (csv_row line).

(** ** Python floats: IEEE-754 binary64 *)

Abbreviation float := spec_float.
Definition prec : Z := 53.
Definition emax : Z := 1024.

Definition fdiv : float -> float -> float := SFdiv prec emax.
Definition fmul : float -> float -> float := SFmul prec emax.
Definition fsub : float -> float -> float := SFsub prec emax.
Definition feqb : float -> float -> bool := SFeqb.
Definition fltb : float -> float -> bool := SFltb.

(** The float nearest to the integer [z]; an infinity when [z] is beyond the
    binary64 range. *)
Definition nearest_float (z : Z) : float := binary_normalize prec emax z 0 false.

Definition fzero : float := S754_zero false.
Definition f100 : float := Eval vm_compute in nearest_float 100.

Definition is_nan (f : float) : bool :=
  match f with S754_nan => true | _ => false end.

Definition is_inf (f : float) : bool :=
  match f with S754_infinity _ => true | _ => false end.

(** The float nearest to [(-1)^neg * m * 10^k], as [strtod] computes it:
    the quotient of two integers, rounded once. *)
Definition decimal_float (neg : bool) (m : Z) (k : Z) : float :=
  match m with
  | Zpos p =>
      fdiv (S754_finite neg (p * Z.to_pos (10 ^ Z.max k 0)) 0)
           (S754_finite false (Z.to_pos (10 ^ Z.max (- k) 0)) 0)
  | _ => S754_zero neg
  end.

(** The exact value of a float, when it is a number. *)
Definition float_value (f : float) : option Q :=
  match f with
  | S754_zero _ => Some 0%Q
  | S754_finite s m e =>
      Some (match e with
            | Zneg k => Qmake (cond_Zopp s (Zpos m)) (2 ^ k)
            | _ => inject_Z (cond_Zopp s (Zpos m * 2 ^ e))
            end)
  | _ => None
  end.

(** [int(x)] for a float [x]: truncation towards zero. *)
Definition float_to_int (f : float) : result Z :=
  match f with
  | S754_zero _ => Ok 0
  | S754_finite s m e =>
      Ok (cond_Zopp s (match e with
                       | Zneg k => Zpos m / 2 ^ Zpos k
                       | _ => Zpos m * 2 ^ e
                       end))
  | S754_infinity _ => Raise OverflowError
  | S754_nan => Raise nan_to_int_error
  end.

(** [float(n)] for an integer [n]. *)
Definition int_to_float (z : Z) : result float :=
  let f := nearest_float z in
  if is_inf f then Raise OverflowError else Ok f.

(** [a / b] for integers: the quotient rounded once. *)
Definition int_truediv (a b : Z) : result float :=
  if b =? 0 then Raise ZeroDivisionError
  else
    let f :=
      match a with
      | Z0 => S754_zero (b <? 0)
      | _ => fdiv (S754_finite (a <? 0) (Z.to_pos (Z.abs a)) 0)
                  (S754_finite (b <? 0) (Z.to_pos (Z.abs b)) 0)
      end in
    if is_inf f then Raise OverflowError else Ok f.

(** [x / y] for floats *)
Definition float_truediv (x y : float) : result float :=
  if feqb y fzero then Raise ZeroDivisionError else Ok (fdiv x y).

(** *** [float(s)] for a string

    The accepted syntax: optional sign, then [inf], [infinity] or [nan] in
    any case, or decimal digits with an optional point and an optional
    exponent; blanks around it are skipped and an underscore may stand
    between two digits. *)

Definition lower_char (c : ascii) : ascii :=
  if ((65 <=? code c) && (code c <=? 90))%nat then ascii_of_nat (code c + 32) else c.

Fixpoint underscores_ok (prev : option ascii) (l : list ascii) : bool :=
  match l with
  | [] => match prev with
          | Some p => negb (Ascii.eqb p "_")
          | None => true
          end
  | c :: l' =>
      let after_digit := match prev with Some p => is_digit p | None => false end in
      let after_underscore := match prev with Some p => Ascii.eqb p "_" | None => false end in
      (if Ascii.eqb c "_" then after_digit
       else negb after_underscore || is_digit c)
      && underscores_ok (Some c) l'
  end.

Definition digit_value (c : ascii) : Z := Z.of_nat (code c - 48).

(** Reads a run of digits: the number read so far, how many digits were
    read, and the rest. *)
Fixpoint read_digits (acc : Z) (n : Z) (l : list ascii) : Z * Z * list ascii :=
  match l with
  | c :: l' =>
      if is_digit c then read_digits (10 * acc + digit_value c) (n + 1) l'
      else (acc, n, l)
  | [] => (acc, n, [])
  end.

Definition read_sign (l : list ascii) : bool * list ascii :=
  match l with
  | c :: l' =>
      if Ascii.eqb c "-" then (true, l')
      else if Ascii.eqb c "+" then (false, l')
      else (false, l)
  | [] => (false, [])
  end.

Definition parse_inf_or_nan (neg : bool) (l : list ascii) : option float :=
  let w := str (map lower_char l) in
  if String.eqb w "inf" || String.eqb w "infinity" then Some (S754_infinity neg)
  else if String.eqb w "nan" then Some S754_nan
  else None.

Definition parse_exponent (l : list ascii) : option Z :=
  match l with
  | [] => Some 0
  | c :: l' =>
      if Ascii.eqb (lower_char c) "e" then
        let '(neg, l1) := read_sign l' in
        let '(e, n, rest) := read_digits 0 0 l1 in
        match rest with
        | [] => if 0 <? n then Some (cond_Zopp neg e) else None
        | _ => None
        end
      else None
  end.

Definition parse_decimal (neg : bool) (l : list ascii) : option float :=
  let '(ip, ni, l1) := read_digits 0 0 l in
  let '(m, nf, l2) :=
    match l1 with
    | c :: l1' => if Ascii.eqb c "." then read_digits ip 0 l1' else (ip, 0, l1)
    | [] => (ip, 0, [])
    end in
  if 0 <? ni + nf then
    match parse_exponent l2 with
    | Some e => Some (decimal_float neg m (e - nf))
    | None => None
    end
  else None.

Definition py_float (s : string) : result float :=
  let l := chars s in
  if underscores_ok None l then
    let l := trim is_float_blank (List.filter (fun c => negb (Ascii.eqb c "_")) l) in
    let '(neg, body) := read_sign l in
    match parse_inf_or_nan neg body with
    | Some f => Ok f
    | None =>
        match parse_decimal neg body with
        | Some f => Ok f
        | None => Raise float_syntax_error
        end
    end
  else Raise float_syntax_error.

(** ** Python lists *)

Definition len {A} (l : list A) : Z := Z.of_nat (length l).

(** [l[i]]: a negative index counts from the end. *)
Definition getitem {A} (l : list A) (i : Z) : result A :=
  let j := if i <? 0 then i + len l else i in
  if j <? 0 then Raise IndexError
  else match l !! Z.to_nat j with
       | Some x => Ok x
       | None => Raise IndexError
       end.

(** [next((i for i, h in enumerate(l) if p(h)), -1)], counting from [i]. *)
Fixpoint find_index {A} (p : A -> bool) (i : Z) (l : list A) : Z :=
  match l with
  | [] => -1
  | x :: l' => if p x then i else find_index p (i + 1) l'
  end.

(** [l.index(x)] *)
Fixpoint index_from (x : string) (i : Z) (l : list string) : result Z :=
  match l with
  | [] => Raise (ValueError "is not in list")
  | y :: l' => if String.eqb y x then Ok i else index_from x (i + 1) l'
  end.

Definition list_index (x : string) (l : list string) : result Z := index_from x 0 l.

(** [x in l] for a list of strings *)
Definition contains (x : string) (l : list string) : bool := existsb (String.eqb x) l.

(** Truth value of a string: non-empty. *)
Definition truthy (s : string) : bool := negb (String.eqb s "").

(** ** Configuration *)

Definition TARGET_TICKERS : list (string * string) :=
  [("MAPS", "WM Technology Inc"); ("GRWG", "GrowGeneration Corp")].

(** [ticker in TARGET_TICKERS] *)
Definition is_target (ticker : string) : bool := contains ticker (map fst TARGET_TICKERS).

(** ** [parse_csv] *)

(** The calls into [datetime]: today's date as [%Y-%m-%d], and the
    conversion of a [%m/%d/%Y] date to [%Y-%m-%d], [None] when [strptime]
    raises [ValueError]. *)
Record datetime_lib := {
  today : string;
  reformat : string -> option string
}.

Record holding := {
  date : string;
  shares : Z;
  weighting : float
}.

Record columns := {
  date_col : Z;
  ticker_col : Z;
  shares_col : Z;
  weight_col : Z
}.

Definition col_upper (line : string) : list string := map upper (csv_cols line).

Definition is_ticker_name (h : string) : bool :=
  contains h ["TICKER"; "STOCKTICKER"].

Definition is_weight_name (h : string) : bool :=
  contains h ["WEIGHTINGS"; "WEIGHTING"].

Definition has_ticker (cu : list string) : bool := existsb is_ticker_name cu.
Definition has_shares (cu : list string) : bool := contains "SHARES" cu.

Definition qualifies (cu : list string) : bool := has_ticker cu && has_shares cu.

(** The header search over the window [lines[:10]], [i] being the index
    of the first line of [window]; [None] stands for [header_index == -1]. *)
Fixpoint scan_header (i : Z) (window : list string) : option (Z * list string) :=
  match window with
  | [] => None
  | line :: rest =>
      if qualifies (col_upper line) then Some (i, col_upper line)
      else scan_header (i + 1) rest
  end.

Definition find_header (lines : list string) : option (Z * list string) :=
  scan_header 0 (take 10 lines).

Definition resolve_columns (header : list string) : result columns :=
  let date_col := find_index (String.eqb "DATE") 0 header in
  let ticker_col := find_index is_ticker_name 0 header in
  shares_col ← list_index "SHARES" header;
  let weight_col := find_index is_weight_name 0 header in
  Ok {| date_col := date_col; ticker_col := ticker_col;
        shares_col := shares_col; weight_col := weight_col |}.

Definition parse_date (dt : datetime_lib) (cs : columns) (cols : list string) : result string :=
  present ← (if date_col cs =? -1 then Ok false
             else c ← getitem cols (date_col cs); Ok (truthy c));
  date_str ← (if present : bool then getitem cols (date_col cs) else Ok (today dt));
  Ok (match reformat dt date_str with
      | Some d => d
      | None => date_str
      end).

(** [int(float(cols[shares_col].replace(',', '')))] *)
Definition parse_shares (cs : columns) (cols : list string) : result Z :=
  field ← getitem cols (shares_col cs);
  f ← py_float (remove_char "," field);
  float_to_int f.

Definition parse_weighting (cs : columns) (cols : list string) : result float :=
  filled ← (if negb (weight_col cs =? -1) && (weight_col cs <? len cols)
            then c ← getitem cols (weight_col cs); Ok (truthy c)
            else Ok false);
  if filled : bool then
    field ← getitem cols (weight_col cs);
    let weight_str := strip (remove_char "%" field) in
    match py_float weight_str with
    | Ok f => Ok (fdiv f f100)
    | Raise (ValueError _) => Ok fzero
    | Raise e => Raise e
    end
  else Ok fzero.

(** The body of the loop over the lines below the header. *)
Definition parse_line (dt : datetime_lib) (cs : columns) (holdings : gmap string holding)
    (line : string) : result (gmap string holding) :=
  if negb (truthy (strip line)) then Ok holdings
  else
    let cols := csv_cols line in
    if len cols <=? ticker_col cs then Ok holdings
    else
      t ← getitem cols (ticker_col cs);
      let ticker := upper t in
      if is_target ticker then
        date_str ← parse_date dt cs cols;
        n ← parse_shares cs cols;
        w ← parse_weighting cs cols;
        Ok (<[ticker := {| date := date_str; shares := n; weighting := w |}]> holdings)
      else Ok holdings.

Fixpoint parse_lines (dt : datetime_lib) (cs : columns) (holdings : gmap string holding)
    (lines : list string) : result (gmap string holding) :=
  match lines with
  | [] => Ok holdings
  | line :: rest =>
      holdings' ← parse_line dt cs holdings line;
      parse_lines dt cs holdings' rest
  end.

Definition parse_csv (dt : datetime_lib) (lines : list string) : result (gmap string holding) :=
  match find_header lines with
  | None => Raise HeaderNotFound
  | Some (header_index, header) =>
      cs ← resolve_columns header;
      parse_lines dt cs ∅ (drop (Z.to_nat (header_index + 1)) lines)
  end.

(** ** The state document *)

(** A cell of a history record, as JSON decodes it. *)
Inductive value :=
| VNone
| VStr (s : string)
| VInt (z : Z)
| VFloat (f : float).

Record document := {
  fields : option (list string);
  data : option (gmap string (list (list value)))
}.

Definition default_fields : list string := ["date"; "shares"; "weighting"].

(** The file [state.json] is [None] while it does not exist; JSON encoding
    and decoding of a document are inverse to each other, so the file holds
    the document itself. *)
Definition load_state (file : option document) : document :=
  match file with
  | None => {| fields := Some default_fields; data := Some ∅ |}
  | Some state => state
  end.

Definition save_state (state : document) : option document := Some state.

(** [current.get(field, None)] *)
Definition holding_get (current : holding) (field : string) : value :=
  if String.eqb field "date" then VStr (date current)
  else if String.eqb field "shares" then VInt (shares current)
  else if String.eqb field "weighting" then VFloat (weighting current)
  else VNone.

(** ** Arithmetic and comparison on cells *)

(** Exact equality of an integer and a float. *)
Definition int_float_eqb (x : Z) (f : float) : bool :=
  match f with
  | S754_zero _ => x =? 0
  | S754_finite s m e =>
      match e with
      | Zneg k => x * 2 ^ Zpos k =? cond_Zopp s (Zpos m)
      | _ => x =? cond_Zopp s (Zpos m * 2 ^ e)
      end
  | _ => false
  end.

(** [a != b] *)
Definition py_ne (a b : value) : bool :=
  match a, b with
  | VNone, VNone => false
  | VStr s, VStr t => negb (String.eqb s t)
  | VInt x, VInt y => negb (x =? y)
  | VInt x, VFloat f | VFloat f, VInt x => negb (int_float_eqb x f)
  | VFloat f, VFloat g => negb (feqb f g)
  | _, _ => true
  end.

(** [a == b] *)
Definition py_eq (a b : value) : bool := negb (py_ne a b).

(** [x - b] for an integer [x] *)
Definition py_sub (x : Z) (b : value) : result value :=
  match b with
  | VInt y => Ok (VInt (x - y))
  | VFloat g => f ← int_to_float x; Ok (VFloat (fsub f g))
  | _ => Raise TypeError
  end.

(** [a / b] *)
Definition py_truediv (a b : value) : result value :=
  match a, b with
  | VInt x, VInt y => q ← int_truediv x y; Ok (VFloat q)
  | VInt x, VFloat g => f ← int_to_float x; q ← float_truediv f g; Ok (VFloat q)
  | VFloat f, VInt y => g ← int_to_float y; q ← float_truediv f g; Ok (VFloat q)
  | VFloat f, VFloat g => q ← float_truediv f g; Ok (VFloat q)
  | _, _ => Raise TypeError
  end.

(** [a > 0] for a number *)
Definition py_positive (a : value) : bool :=
  match a with
  | VInt x => 0 <? x
  | VFloat f => fltb fzero f
  | _ => false
  end.

Fixpoint repeat_string (n : nat) (s : string) : string :=
  match n with
  | O => ""
  | S n' => s +:+ repeat_string n' s
  end.

(** [a * 100] *)
Definition py_mul100 (a : value) : result value :=
  match a with
  | VInt x => Ok (VInt (x * 100))
  | VFloat f => Ok (VFloat (fmul f f100))
  | VStr s => Ok (VStr (repeat_string 100 s))
  | VNone => Raise TypeError
  end.

(** Whether [f"{a:.2f}"] can be formatted: a number that converts to float. *)
Definition format_2f (a : value) : result value :=
  match a with
  | VInt x => _ ← int_to_float x; Ok a
  | VFloat _ => Ok a
  | VStr _ => Raise (ValueError "Unknown format code")
  | VNone => Raise TypeError
  end.

(** ** Output and the outside world *)

(** What the alert message interpolates; the text itself is a rendering of
    these values. [prev_weighting] is [None] where the message says N/A;
    the emoji follows [direction] and [color]. *)
Record alert := {
  alert_ticker : string;
  alert_company : string;
  alert_date : string;
  current_shares : Z;
  prev_shares : value;
  delta : value;
  percent_change : value;
  current_weighting : float;
  prev_weighting : option value;
  direction : string;
  color : Z
}.

Inductive message :=
| FetchingCSV
| ParsingCSV
| LoadingState
| Done
| CouldNotFind (ticker : string)
| DetectedChange (ticker : string) (previous : value) (current : Z)
| FirstTimeTracking (ticker : string)
| NoWebhookWarning (ticker : string)
| FailedToSendWebhook (status_code : Z) (text : string).

Inductive event :=
| Print (m : message)
| Post (url : string) (payload : alert).

Record response := {
  status_code : Z;
  text : string
}.

(** The environment of one run: the clock, the variable
    [DISCORD_WEBHOOK_URL], the answer of [requests.get] (the body, once
    [raise_for_status] passed) and the answers of [requests.post]. *)
Record environment := {
  clock : datetime_lib;
  WEBHOOK_URL : option string;
  http_get : result string;
  http_post : string -> alert -> result response
}.

(** A computation that prints or posts, then returns or raises. *)
Record action (A : Type) := Act {
  trace : list event;
  outcome : result A
}.
Arguments Act {A} trace outcome.
Arguments trace {A} a.
Arguments outcome {A} a.

#[global] Instance action_ret : MRet action := fun _ a => Act [] (Ok a).
#[global] Instance action_bind : MBind action := fun _ _ k m =>
  match outcome m with
  | Ok a => Act (trace m ++ trace (k a)) (outcome (k a))
  | Raise e => Act (trace m) (Raise e)
  end.

Definition lift {A} (r : result A) : action A := Act [] r.
Definition print (m : message) : action unit := Act [Print m] (Ok tt).

Fixpoint for_each {A B} (body : A -> B -> action A) (a : A) (l : list B) : action A :=
  match l with
  | [] => mret a
  | x :: l' => a' ← body a x; for_each body a' l'
  end.

(** [requests.post(url, json=payload)]: the event records a request that
    was answered. *)
Definition post (env : environment) (url : string) (payload : alert) : action response :=
  match http_post env url payload with
  | Ok r => Act [Post url payload] (Ok r)
  | Raise e => Act [] (Raise e)
  end.

Definition fetch_csv (env : environment) : result (list string) :=
  text ← http_get env;
  Ok (splitlines text).

(** ** [send_discord_alert] *)

Record previous := {
  previous_date : value;
  previous_shares : value;
  previous_weighting : value
}.

Definition url_of (webhook : option string) : option string :=
  match webhook with
  | Some url => if truthy url then Some url else None
  | None => None
  end.

(** [status in [200, 204]] *)
Definition accepted (status : Z) : bool := existsb (Z.eqb status) [200; 204].

Definition send_discord_alert (env : environment) (ticker company : string)
    (current_data : holding) (previous_data : option previous) : action unit :=
  match url_of (WEBHOOK_URL env) with
  | None => print (NoWebhookWarning ticker)
  | Some url =>
      let current_shares := shares current_data in
      let prev_shares := match previous_data with
                         | Some p => previous_shares p
                         | None => VInt 0
                         end in
      delta ← lift (py_sub current_shares prev_shares);
      if py_eq delta (VInt 0) then mret tt
      else
        percent_change ← lift (if py_ne prev_shares (VInt 0)
                               then py_truediv delta prev_shares
                               else Ok (VInt 0));
        let direction := if py_positive delta then "increased" else "decreased" in
        let current_weighting := fmul (weighting current_data) f100 in
        prev_weighting ← lift (match previous_data with
                               | Some p => w ← py_mul100 (previous_weighting p);
                                           w' ← format_2f w; Ok (Some w')
                               | None => Ok None
                               end);
        let payload :=
          {| alert_ticker := ticker; alert_company := company;
             alert_date := date current_data;
             current_shares := current_shares; prev_shares := prev_shares;
             delta := delta; percent_change := percent_change;
             current_weighting := current_weighting;
             prev_weighting := prev_weighting;
             direction := direction;
             color := if py_positive delta then 1398564 else 7478308 |} in
        r ← post env url payload;
        if negb (accepted (status_code r)) then
          print (FailedToSendWebhook (status_code r) (text r))
        else mret tt
  end.

(** ** [main] *)

(** The record [previous_data] decoded from the last entry of a history,
    [None] for an empty history. *)
Definition decode_previous (fs : list string) (shares_idx weight_idx : Z)
    (history : list (list value)) : result (option previous) :=
  match last history with
  | None => Ok None
  | Some last_entry =>
      d ← (if contains "date" fs
           then i ← list_index "date" fs; getitem last_entry i
           else Ok (VStr ""));
      n ← getitem last_entry shares_idx;
      w ← getitem last_entry weight_idx;
      Ok (Some {| previous_date := d; previous_shares := n; previous_weighting := w |})
  end.

(** The test guarding the update of the state. *)
Definition changed (current : holding) (previous_data : option previous) : bool :=
  match previous_data with
  | None => true
  | Some p =>
      py_ne (VInt (shares current)) (previous_shares p)
      || py_ne (VFloat (weighting current)) (previous_weighting p)
  end.

(** The body of the loop over [TARGET_TICKERS]; [d] is the dictionary
    [state["data"]]. *)
Definition process_ticker (env : environment) (fs : list string) (shares_idx weight_idx : Z)
    (current_holdings : gmap string holding)
    (d : gmap string (list (list value))) (target : string * string)
    : action (gmap string (list (list value))) :=
  let '(ticker, company) := target in
  match current_holdings !! ticker with
  | None => _ ← print (CouldNotFind ticker); mret d
  | Some current =>
      let history := default [] (d !! ticker) in
      previous_data ← lift (decode_previous fs shares_idx weight_idx history);
      _ ← match previous_data with
          | Some p =>
              if py_ne (VInt (shares current)) (previous_shares p) then
                _ ← print (DetectedChange ticker (previous_shares p) (shares current));
                send_discord_alert env ticker company current previous_data
              else mret tt
          | None => print (FirstTimeTracking ticker)
          end;
      if changed current previous_data then
        let record := map (holding_get current) fs in
        mret (<[ticker := history ++ [record]]> d)
      else mret d
  end.

(** Everything [main] does before [save_state]: the result is the state to
    save. *)
Definition main_body (env : environment) (file : option document) : action document :=
  _ ← print FetchingCSV;
  lines ← lift (fetch_csv env);
  _ ← print ParsingCSV;
  current_holdings ← lift (parse_csv (clock env) lines);
  _ ← print LoadingState;
  let state := load_state file in
  let d := default ∅ (data state) in
  let fs := default default_fields (fields state) in
  shares_idx ← lift (list_index "shares" fs);
  weight_idx ← lift (list_index "weighting" fs);
  d' ← for_each (process_ticker env fs shares_idx weight_idx current_holdings) d TARGET_TICKERS;
  mret {| fields := fields state; data := Some d' |}.

(** One run: what was printed and posted, the state file afterwards, and
    how the process ended. *)
Record run := {
  output : list event;
  state_file : option document;
  exit_status : result unit
}.

Definition main (env : environment) (file : option document) : run :=
  let body := main_body env file in
  match outcome body with
  | Ok state =>
      {| output := trace body ++ [Print Done];
         state_file := save_state state;
         exit_status := Ok tt |}
  | Raise e =>
      {| output := trace body; state_file := file; exit_status := Raise e |}
  end.

(** ** Notions the properties are stated with *)

(** The history stored for a ticker in the state file. *)
Definition stored_history (file : option document) (ticker : string) : list (list value) :=
  default [] (default ∅ (data (load_state file)) !! ticker).

Definition schema (file : option document) : list string :=
  default default_fields (fields (load_state file)).

(** The latest stored record of a ticker, decoded through the schema of
    the document: [None] when the ticker has no history. *)
Definition latest (file : option document) (ticker : string) : result (option previous) :=
  shares_idx ← list_index "shares" (schema file);
  weight_idx ← list_index "weighting" (schema file);
  decode_previous (schema file) shares_idx weight_idx (stored_history file ticker).

(** An event that notifies a change of [ticker]: the alert posted to the
    webhook or, when no webhook is configured, the local report that stands
    for it. *)
Definition notifies (ticker : string) (e : event) : Prop :=
  match e with
  | Post _ payload => alert_ticker payload = ticker
  | Print (NoWebhookWarning t) => t = ticker
  | _ => False
  end.

Definition notified (ticker : string) (r : run) : Prop :=
  exists e, e ∈ output r /\ notifies ticker e.

Definition is_delivery_log (e : event) : bool :=
  match e with
  | Print (FailedToSendWebhook _ _) => true
  | _ => false
  end.

(** The step of [process_ticker] that reports a change of the share count
    or a first observation. *)
Definition announce (env : environment) (ticker company : string) (current : holding)
    (previous_data : option previous) : action unit :=
  match previous_data with
  | Some p =>
      if py_ne (VInt (shares current)) (previous_shares p) then
        _ ← print (DetectedChange ticker (previous_shares p) (shares current));
        send_discord_alert env ticker company current previous_data
      else mret tt
  | None => print (FirstTimeTracking ticker)
  end.

(** The same environment with a webhook that accepts every alert. *)
Definition delivering (env : environment) : environment :=
  {| clock := clock env;
     WEBHOOK_URL := WEBHOOK_URL env;
     http_get := http_get env;
     http_post := fun _ _ => Ok {| status_code := 204; text := "" |} |}.

(** Both answer every request: the transport rejects or accepts, it does
    not fail to answer. *)
Definition answers (env : environment) : Prop :=
  forall (url : string) (payload : alert), exists r, http_post env url payload = Ok r.

(** Two environments that differ at most in what the webhook answers. *)
Definition same_but_post (env1 env2 : environment) : Prop :=
  clock env1 = clock env2 /\
  WEBHOOK_URL env1 = WEBHOOK_URL env2 /\
  http_get env1 = http_get env2.

(** A log line about a failed delivery is justified when the webhook
    answered an alert with the status it reports, one that is not
    accepted. *)
Definition justified (env : environment) (e : event) : Prop :=
  match e with
  | Print (FailedToSendWebhook status body) =>
      exists (url : string) (payload : alert),
        http_post env url payload = Ok {| status_code := status; text := body |} /\
        accepted status = false
  | _ => True
  end.

Definition without_delivery_logs (l : list event) : list event :=
  List.filter (fun e => negb (is_delivery_log e)) l.

(** Two parses of the same feed under different clocks agree on this. *)
Definition same_quantities (h1 h2 : gmap string holding) : Prop :=
  forall ticker : string,
    match h1 !! ticker, h2 !! ticker with
    | Some a, Some b => shares a = shares b /\ weighting a = weighting b
    | None, None => True
    | _, _ => False
    end.

(** An event of a run that had nothing to report about any ticker found in
    the table. *)
Definition idle_event (e : event) : Prop :=
  match e with
  | Print (CouldNotFind _) => True
  | _ => False
  end.

(** The weighting read from a filled weight field: every percent sign
    removed, then the blanks around, then [float] and the division by 100;
    zero when [float] rejects the text. *)
Definition weighting_of_field (field : string) : float :=
  match py_float (strip (remove_char "%" field)) with
  | Ok f => fdiv f f100
  | Raise _ => fzero
  end.

(** Truncation of a rational towards zero. *)
Definition truncate (x : Q) : Z :=
  if Qle_bool 0 x then Qfloor x else Qceiling x.

(** A run that ends on the exception [e] before anything was posted or
    saved. *)
Definition aborts_unchanged (env : environment) (file : option document) (e : exn) : Prop :=
  exit_status (main env file) = Raise e /\
  state_file (main env file) = file /\
  forall (url : string) (payload : alert), Post url payload ∉ output (main env file).

(** The facts that hold of a run that completed. *)
Record completed (env : environment) (file : option document)
    (current_holdings : gmap string holding) (shares_idx weight_idx : Z)
    (d' : gmap string (list (list value))) : Prop := {
  completed_shares_idx : list_index "shares" (schema file) = Ok shares_idx;
  completed_weight_idx : list_index "weighting" (schema file) = Ok weight_idx;
  completed_loop :
    outcome (for_each (process_ticker env (schema file) shares_idx weight_idx current_holdings)
               (default ∅ (data (load_state file))) TARGET_TICKERS) = Ok d';
  completed_state :
    state_file (main env file) = Some {| fields := fields (load_state file); data := Some d' |};
  completed_output :
    output (main env file) =
      [Print FetchingCSV; Print ParsingCSV; Print LoadingState]
      ++ concat (map (fun target =>
                        trace (process_ticker env (schema file) shares_idx weight_idx
                                 current_holdings (default ∅ (data (load_state file))) target))
                   TARGET_TICKERS)
      ++ [Print Done]
}.

(** A data line that the loop of [parse_csv] turns into a record for
    [ticker]: not blank, long enough to hold the ticker column, and holding
    a tracked ticker there. *)
Definition tracked_row (cs : columns) (line : string) (ticker : string) : Prop :=
  truthy (strip line) = true /\
  ticker_col cs < len (csv_cols line) /\
  exists t, getitem (csv_cols line) (ticker_col cs) = Ok t /\
            upper t = ticker /\ is_target ticker = true.

(** The weight text as the specification words it: surrounding blanks and
    one trailing percent sign taken off. *)
Definition strip_trailing_percent (s : string) : string :=
  match rev (chars (strip s)) with
  | c :: l => if Ascii.eqb c "%" then strip (str (rev l)) else strip s
  | [] => ""
  end.

Definition weighting_by_trailing_percent (field : string) : float :=
  match py_float (strip_trailing_percent field) with
  | Ok f => fdiv f f100
  | Raise _ => fzero
  end.

(** ** A [datetime] for the examples

    [strptime] with [%m/%d/%Y] reads a month [1[0-2]|0[1-9]|[1-9]], a day
    [3[0-1]|[1-2]\d|0[1-9]|[1-9]| [1-9]] and a four-digit year, each
    alternative tried in this order, and rejects a date that does not exist
    or text that remains; [strftime] prints the year without padding, as
    glibc does. *)

Definition two_digits (n : Z) : list ascii :=
  [ascii_of_nat (48 + Z.to_nat (n / 10)); ascii_of_nat (48 + Z.to_nat (n mod 10))].

Definition two_digit_prefix (lo hi : Z) (l : list ascii) : list (Z * list ascii) :=
  match l with
  | a :: b :: rest =>
      let v := 10 * digit_value a + digit_value b in
      if is_digit a && is_digit b && (lo <=? v) && (v <=? hi) then [(v, rest)] else []
  | _ => []
  end.

Definition one_digit_prefix (l : list ascii) : list (Z * list ascii) :=
  match l with
  | a :: rest => if is_digit a && (1 <=? digit_value a) then [(digit_value a, rest)] else []
  | [] => []
  end.

Definition month_prefix (l : list ascii) : list (Z * list ascii) :=
  two_digit_prefix 1 12 l ++ one_digit_prefix l.

Definition day_prefix (l : list ascii) : list (Z * list ascii) :=
  two_digit_prefix 1 31 l ++ one_digit_prefix l ++
  match l with
  | c :: rest => if Ascii.eqb c " " then one_digit_prefix rest else []
  | [] => []
  end.

Definition year_prefix (l : list ascii) : option (Z * list ascii) :=
  match l with
  | a :: b :: c :: d :: rest =>
      if is_digit a && is_digit b && is_digit c && is_digit d
      then Some (1000 * digit_value a + 100 * digit_value b + 10 * digit_value c + digit_value d, rest)
      else None
  | _ => None
  end.

Fixpoint first_match {A B} (k : A -> option B) (l : list A) : option B :=
  match l with
  | [] => None
  | x :: l' => match k x with
               | Some b => Some b
               | None => first_match k l'
               end
  end.

Definition after_slash {B} (k : list ascii -> option B) (l : list ascii) : option B :=
  match l with
  | c :: rest => if Ascii.eqb c "/" then k rest else None
  | [] => None
  end.

Definition match_mdy (l : list ascii) : option (Z * Z * Z * list ascii) :=
  first_match (fun m =>
    after_slash (fun l1 =>
      first_match (fun d =>
        after_slash (fun l2 =>
          match year_prefix l2 with
          | Some (y, rest) => Some (fst m, fst d, y, rest)
          | None => None
          end) (snd d)) (day_prefix l1)) (snd m)) (month_prefix l).

Definition leap (y : Z) : bool :=
  ((y mod 4 =? 0) && negb (y mod 100 =? 0)) || (y mod 400 =? 0).

Definition days_in_month (y m : Z) : Z :=
  if m =? 2 then (if leap y then 29 else 28)
  else if (m =? 4) || (m =? 6) || (m =? 9) || (m =? 11) then 30
  else 31.

Definition mdy_to_ymd (s : string) : option string :=
  match match_mdy (chars s) with
  | Some (m, d, y, []) =>
      if (1 <=? y) && (d <=? days_in_month y m) then
        Some (str (drop_while (Ascii.eqb "0") (two_digits (y / 100) ++ two_digits (y mod 100))
                   ++ "-"%char :: two_digits m ++ "-"%char :: two_digits d))
      else None
  | _ => None
  end.

Definition datetime_on (day : string) : datetime_lib :=
  {| today := day; reformat := mdy_to_ymd |}.

(** ** Sample inputs *)

Definition newline : string := String (ascii_of_nat 10) "".

Fixpoint unlines (lines : list string) : string :=
  match lines with
  | [] => ""
  | line :: rest => line +:+ newline +:+ unlines rest
  end.

(** An environment whose feed is the given lines and whose webhook answers
    every alert with the same status. *)
Definition sample_env (csv : list string) (webhook : option string) (status : Z) : environment :=
  {| clock := datetime_on "2026-11-04";
     WEBHOOK_URL := webhook;
     http_get := Ok (unlines csv);
     http_post := fun _ _ => Ok {| status_code := status; text := "" |} |}.

(** A field in double quotes, as the feed writes numbers with commas. *)
Definition quoted (s : string) : string :=
  String quotechar (s +:+ String quotechar "").

Definition ticker_shares : columns :=
  {| date_col := -1; ticker_col := 0; shares_col := 1; weight_col := -1 |}.

(** A stored record under the default schema, and a state file holding the
    given histories. *)
Definition sample_record (day : string) (n : Z) (weight : string) : list value :=
  [VStr day; VInt n; VFloat (weighting_of_field weight)].

Definition sample_state (histories : list (string * list (list value))) : option document :=
  Some {| fields := Some default_fields; data := Some (list_to_map histories) |}.

Definition sample_holding (day : string) (n : Z) (weight : string) : holding :=
  {| date := day; shares := n; weighting := weighting_of_field weight |}.

Definition sample_webhook : option string := Some "https://discord.example/api/webhooks/1".

(** The state before the sample runs: one record for MAPS. *)
Definition sample_file : option document :=
  sample_state [("MAPS", [sample_record "2026-11-03" 1000000 "1.00%"])].

Definition sample_previous : previous :=
  {| previous_date := VStr "2026-11-03";
     previous_shares := VInt 1000000;
     previous_weighting := VFloat (weighting_of_field "1.00%") |}.

(** A feed where the share count of MAPS changed, and one where only its
    weighting did. *)
Definition shares_changed_csv : list string :=
  ["Ticker,Shares,Weightings"; "MAPS,1200000,1.20%"].

Definition weighting_changed_csv : list string :=
  ["Ticker,Shares,Weightings"; "MAPS," +:+ quoted "1,000,000" +:+ ",1.20%"].

(** A feed with both tracked tickers, and an environment whose webhook
    cannot be reached: [requests.post] raises instead of answering. *)
Definition both_tickers_csv : list string :=
  ["Ticker,Shares,Weightings"; "MAPS,1200000,1.20%"; "GRWG,500,0.10%"].

Definition unreachable_env (csv : list string) : environment :=
  {| clock := datetime_on "2026-11-04";
     WEBHOOK_URL := sample_webhook;
     http_get := Ok (unlines csv);
     http_post := fun _ _ => Raise RequestException |}.

(** A feed whose weighting for MAPS is the text nan, which [float] reads
    as the not-a-number value. *)
Definition nan_csv : list string :=
  ["Ticker,Shares,Weighting"; "MAPS,100,nan"].

Definition nan_record : list value := [VStr "2026-11-04"; VInt 100; VFloat S754_nan].

(** A feed whose header is its fourth line, and feeds of eleven lines whose
    header comes too late or not at all. *)
Definition late_header_csv : list string :=
  ["Amplify ETFs"; ""; "Holdings as of 11/03/2026"; "Date,Account,StockTicker,Shares";
   "11/03/2026,CNBS,MAPS,1000000"].

Definition eleventh_line_header_csv : list string :=
  replicate 10 "Amplify ETFs" ++ ["StockTicker,Shares"; "MAPS,1000000"].

Definition first_observation_csv : list string :=
  ["Ticker,Shares"; "MAPS,1000000"].

Definition unchanged_csv : list string :=
  ["Ticker,Shares,Weightings"; "MAPS,1000000,1.00%"].


(** A state with two records for MAPS, the older with another share count,
    and one with a record for each tracked ticker. *)
Definition two_records_file : option document :=
  sample_state [("MAPS", [sample_record "2026-11-02" 900000 "0.90%";
                          sample_record "2026-11-03" 1000000 "1.00%"])].

Definition both_stored_file : option document :=
  sample_state [("MAPS", [sample_record "2026-11-03" 1000000 "1.00%"]);
                ("GRWG", [sample_record "2026-11-03" 400 "0.08%"])].

(** ** Notions for the further properties *)

(** A line that holds no line break. *)
Definition break_free (line : string) : Prop :=
  Forall (fun c => is_linebreak c = false) (chars line).

(** The text whose lines are the given ones, each ended by [eol]. *)
Fixpoint terminated (eol : string) (lines : list string) : string :=
  match lines with
  | [] => ""
  | line :: rest => line +:+ eol +:+ terminated eol rest
  end.

Definition crlf : string := String (ascii_of_nat 13) (String (ascii_of_nat 10) "").

(** A field as a csv writer quotes it: between double quotes, every double
    quote inside written twice; and a row of such fields. *)
Fixpoint escape_quotes (l : list ascii) : list ascii :=
  match l with
  | [] => []
  | c :: l' =>
      if Ascii.eqb c quotechar then quotechar :: quotechar :: escape_quotes l'
      else c :: escape_quotes l'
  end.

Definition quote_field (s : string) : list ascii :=
  quotechar :: escape_quotes (chars s) ++ [quotechar].

Fixpoint join_fields (fields : list (list ascii)) : list ascii :=
  match fields with
  | [] => []
  | [f] => f
  | f :: rest => f ++ delimiter :: join_fields rest
  end.

Definition quoted_row (fields : list string) : string :=
  str (join_fields (map quote_field fields)).

(** [i] is the index of the leftmost element of [l] that satisfies [p]. *)
Definition leftmost {A} (p : A -> bool) (l : list A) (i : Z) : Prop :=
  0 <= i /\
  (exists x : A, l !! Z.to_nat i = Some x /\ p x = true) /\
  forall (j : nat) (y : A), (j < Z.to_nat i)%nat -> l !! j = Some y -> p y = false.

(** The same, with -1 for a list in which no element satisfies [p]. *)
Definition leftmost_or_absent {A} (p : A -> bool) (l : list A) (i : Z) : Prop :=
  (i = -1 /\ Forall (fun x => p x = false) l) \/ leftmost p l i.

(** The record that the loop of [parse_csv] stores for a tracked row with
    the fields [cols]. *)
Definition row_record (dt : datetime_lib) (cs : columns) (cols : list string) : result holding :=
  date_str ← parse_date dt cs cols;
  n ← parse_shares cs cols;
  w ← parse_weighting cs cols;
  Ok {| date := date_str; shares := n; weighting := w |}.

(** The date text that a row is stamped with before it is reformatted: the
    DATE field, or today's date when the header has no DATE column or the
    field is empty. *)
Definition date_text (dt : datetime_lib) (cs : columns) (cols : list string) : string :=
  if date_col cs =? -1 then today dt
  else match cols !! Z.to_nat (date_col cs) with
       | Some c => if truthy c then c else today dt
       | None => today dt
       end.



(** The ticker that an event reports on, if any. *)
Definition subject (e : event) : option string :=
  match e with
  | Print (CouldNotFind t) | Print (DetectedChange t _ _)
  | Print (FirstTimeTracking t) | Print (NoWebhookWarning t) => Some t
  | Post _ payload => Some (alert_ticker payload)
  | Print _ => None
  end.

(** The events of a log that report on [ticker]. *)
Definition log_of (ticker : string) (l : list event) : list event :=
  List.filter (fun e => bool_decide (subject e = Some ticker)) l.

(** The alerts that were posted, in order. *)
Definition posted (l : list event) : list alert :=
  omap (fun e => match e with Post _ payload => Some payload | Print _ => None end) l.

(** What holds of every alert that a run posts. *)
Definition sound_alert (env : environment) (e : event) : Prop :=
  match e with
  | Post url payload =>
      url_of (WEBHOOK_URL env) = Some url /\
      (alert_ticker payload, alert_company payload) ∈ TARGET_TICKERS /\
      py_sub (current_shares payload) (prev_shares payload) = Ok (delta payload) /\
      py_eq (delta payload) (VInt 0) = false /\
      is_Some (prev_weighting payload) /\
      (direction payload, color payload) =
        (if py_positive (delta payload) then ("increased", 1398564) else ("decreased", 7478308))
  | Print _ => True
  end.

(** The record that [main] appends for a holding under the default
    schema. *)
Definition default_record (current : holding) : list value :=
  [VStr (date current); VInt (shares current); VFloat (weighting current)].

(** The states that runs of the program lead to, from no state file. *)
Inductive reachable : option document -> Prop :=
| reachable_start : reachable None
| reachable_run (env : environment) (file : option document) :
    reachable file -> reachable (state_file (main env file)).

(** * Properties *)

#[local] Arguments String.eqb : simpl never.
#[local] Arguments Ascii.eqb : simpl never.
#[local] Arguments process_ticker : simpl never.
#[local] Arguments send_discord_alert : simpl never.
#[local] Arguments announce : simpl never.
#[local] Arguments parse_csv : simpl never.
#[local] Arguments fetch_csv : simpl never.
#[local] Arguments decode_previous : simpl never.

(** ** The library model on sample inputs *)

Example strip_upper_samples :
  map strip ["  a b  "; ""; "   "; "x"] = ["a b"; ""; ""; "x"] /\
  map upper ["StockTicker"; "shares"; "a1z{"] = ["STOCKTICKER"; "SHARES"; "A1Z{"].
Proof. split; vm_compute; reflexivity. Qed.

Example csv_row_samples :
  map csv_row [""; "a,b"; "a,"; ","; quoted "a,b" +:+ ",c"; quoted "abc"; "a," +:+ quoted "1,000"]
  = [[]; ["a"; "b"]; ["a"; ""]; [""; ""]; ["a,b"; "c"]; ["abc"]; ["a"; "1,000"]].
Proof. vm_compute. reflexivity. Qed.

Example splitlines_samples :
  map splitlines [""; newline; "a" +:+ newline; "a" +:+ newline +:+ newline +:+ "b"]
  = [[]; [""]; ["a"]; ["a"; ""; "b"]] /\
  splitlines (unlines shares_changed_csv) = shares_changed_csv.
Proof. split; vm_compute; reflexivity. Qed.

Example py_float_samples :
  map py_float ["1.50"; "1_000"; "1e5"; ".5"; " 12.5 "; "-0"; "1e400"; "4.9e-324"; "NaN"; "-inf"]
  = [Ok (S754_finite false 6755399441055744 (-52));
     Ok (S754_finite false 8796093022208000 (-43));
     Ok (S754_finite false 6871947673600000 (-36));
     Ok (S754_finite false 4503599627370496 (-53));
     Ok (S754_finite false 7036874417766400 (-49));
     Ok (S754_zero true);
     Ok (S754_infinity false);
     Ok (S754_finite false 1 (-1074));
     Ok S754_nan;
     Ok (S754_infinity true)] /\
  map py_float [""; "."; "1__0"; "_1"; "1e"; "1,5"; "0x10"; "n/a"; "1 2"]
  = replicate 9 (Raise float_syntax_error).
Proof. split; vm_compute; reflexivity. Qed.

Example int_of_float_samples :
  map (fun s => py_float s ≫= float_to_int)
    ["9007199254740993"; "1e23"; "-2.7"; "2.7"; "0.5"; "nan"; "inf"]
  = [Ok 9007199254740992; Ok 99999999999999991611392; Ok (-2); Ok 2; Ok 0;
     Raise nan_to_int_error; Raise OverflowError].
Proof. vm_compute. reflexivity. Qed.

Example int_truediv_samples :
  map (fun ab => int_truediv (fst ab) (snd ab)) [(200000, 1000000); (0, -5); (7, 0); (10 ^ 400, 1)]
  = [Ok (S754_finite false 7205759403792794 (-55)); Ok (S754_zero true);
     Raise ZeroDivisionError; Raise OverflowError].
Proof. vm_compute. reflexivity. Qed.

Example mdy_to_ymd_samples :
  map mdy_to_ymd ["11/03/2026"; "1/5/2024"; "2/29/2024"; "2/29/2023"; "13/1/2024";
                  "1/5/24"; "2026-11-04"; ""]
  = [Some "2026-11-03"; Some "2024-01-05"; Some "2024-02-29"; None; None; None; None; None].
Proof. vm_compute. reflexivity. Qed.

(** ** The scenarios of the specification *)

(** The header on the fourth line, in mixed case, is found; a header on the
    eleventh line is not. *)
Example header_scenarios :
  find_header late_header_csv = Some (3, ["DATE"; "ACCOUNT"; "STOCKTICKER"; "SHARES"]) /\
  parse_csv (datetime_on "2026-11-04") late_header_csv
  = Ok (<["MAPS" := {| date := "2026-11-03"; shares := 1000000; weighting := fzero |}]> ∅) /\
  parse_csv (datetime_on "2026-11-04") eleventh_line_header_csv = Raise HeaderNotFound.
Proof. split_and!; vm_compute; reflexivity. Qed.

(** First observation: no stored record before, one after, nothing posted. *)
Example first_observation_scenario :
  latest None "MAPS" = Ok None /\
  stored_history (state_file (main (sample_env first_observation_csv sample_webhook 204) None))
    "MAPS"
  = [[VStr "2026-11-04"; VInt 1000000; VFloat fzero]] /\
  output (main (sample_env first_observation_csv sample_webhook 204) None)
  = [Print FetchingCSV; Print ParsingCSV; Print LoadingState;
     Print (FirstTimeTracking "MAPS"); Print (CouldNotFind "GRWG"); Print Done].
Proof. split_and!; vm_compute; reflexivity. Qed.

(** No change: nothing posted, nothing appended. *)
Example no_change_scenario :
  state_file (main (sample_env unchanged_csv sample_webhook 204) sample_file) = sample_file /\
  output (main (sample_env unchanged_csv sample_webhook 204) sample_file)
  = [Print FetchingCSV; Print ParsingCSV; Print LoadingState;
     Print (CouldNotFind "GRWG"); Print Done].
Proof. split_and!; vm_compute; reflexivity. Qed.

(** Change of the share count from 1000000 to 1200000: one alert, saying
    increased, with the difference 200000 and the float nearest to 0.2. *)
Example change_scenario :
  exists payload : alert,
    output (main (sample_env shares_changed_csv sample_webhook 204) sample_file)
    = [Print FetchingCSV; Print ParsingCSV; Print LoadingState;
       Print (DetectedChange "MAPS" (VInt 1000000) 1200000);
       Post "https://discord.example/api/webhooks/1" payload;
       Print (CouldNotFind "GRWG"); Print Done] /\
    delta payload = VInt 200000 /\
    percent_change payload = VFloat (S754_finite false 7205759403792794 (-55)) /\
    direction payload = "increased" /\
    prev_weighting payload = Some (VFloat (fmul (weighting_of_field "1.00%") f100)).
Proof.
  exists {| alert_ticker := "MAPS"; alert_company := "WM Technology Inc";
            alert_date := "2026-11-04"; current_shares := 1200000;
            prev_shares := VInt 1000000; delta := VInt 200000;
            percent_change := VFloat (S754_finite false 7205759403792794 (-55));
            current_weighting := fmul (weighting_of_field "1.20%") f100;
            prev_weighting := Some (VFloat (fmul (weighting_of_field "1.00%") f100));
            direction := "increased"; color := 1398564 |}.
  split_and!; vm_compute; reflexivity.
Qed.

(** ** Lists *)

Lemma contains_elem_of (x : string) (l : list string) : contains x l = true <-> x ∈ l.
Proof.
  unfold contains. rewrite existsb_exists. split.
  - intros (y & Hin & Heq). apply String.eqb_eq in Heq. subst y.
    by apply list_elem_of_In.
  - intros Hin. exists x. split; [by apply list_elem_of_In | apply String.eqb_refl].
Qed.

Lemma len_nonneg {A} (l : list A) : 0 <= len l.
Proof. unfold len. lia. Qed.

Lemma len_cons {A} (x : A) (l : list A) : len (x :: l) = 1 + len l.
Proof. unfold len. simpl. lia. Qed.

Lemma find_index_bounds {A} (p : A -> bool) (l : list A) (i : Z) :
  find_index p i l = -1 \/ i <= find_index p i l < i + len l.
Proof.
  revert i. induction l as [|x l IH]; intros i; simpl; [by left|].
  rewrite len_cons. destruct (p x).
  - right. pose proof (len_nonneg l). lia.
  - destruct (IH (i + 1)) as [->|?]; [by left | right; lia].
Qed.

Lemma find_index_found {A} (p : A -> bool) (l : list A) (i : Z) :
  existsb p l = true -> i <= find_index p i l < i + len l.
Proof.
  revert i. induction l as [|x l IH]; intros i; simpl; [discriminate|].
  rewrite len_cons. pose proof (len_nonneg l). destruct (p x); simpl.
  - lia.
  - intros H'. specialize (IH (i + 1) H'). lia.
Qed.

Lemma index_from_found (x : string) (l : list string) (i : Z) :
  contains x l = true -> exists k, index_from x i l = Ok k /\ i <= k < i + len l.
Proof.
  unfold contains. revert i. induction l as [|y l IH]; intros i; simpl; [discriminate|].
  rewrite len_cons. pose proof (len_nonneg l).
  rewrite (String.eqb_sym x y). destruct (String.eqb y x); simpl.
  - exists i. split; [done | lia].
  - intros H'. destruct (IH (i + 1) H') as (k & -> & ?). exists k. split; [done | lia].
Qed.

Lemma getitem_in_range {A} (l : list A) (i : Z) :
  0 <= i < len l -> exists x, getitem l i = Ok x /\ l !! Z.to_nat i = Some x.
Proof.
  intros Hi. unfold getitem.
  destruct (Z.ltb_spec i 0) as [?|_]; [lia|].
  destruct (Z.ltb_spec i 0) as [?|_]; [lia|].
  destruct (l !! Z.to_nat i) as [x|] eqn:E; [by exists x|].
  apply lookup_ge_None in E. unfold len in Hi. lia.
Qed.

Lemma getitem_out_of_range {A} (l : list A) (i : Z) :
  len l <= i -> getitem l i = Raise IndexError.
Proof.
  intros Hi. pose proof (len_nonneg l). unfold getitem.
  destruct (Z.ltb_spec i 0) as [?|_]; [lia|].
  destruct (Z.ltb_spec i 0) as [?|_]; [lia|].
  destruct (l !! Z.to_nat i) as [x|] eqn:E; [|done].
  apply lookup_lt_Some in E. unfold len in Hi. lia.
Qed.

Lemma getitem_raises {A} (l : list A) (i : Z) (e : exn) :
  getitem l i = Raise e -> e = IndexError.
Proof.
  unfold getitem. destruct (_ <? 0); [congruence|].
  destruct (l !! _); congruence.
Qed.

(** ** The header *)


Lemma scan_header_spec (window : list string) (i0 i : Z) (header : list string) :
  scan_header i0 window = Some (i, header) <->
  exists (n : nat) (line : string),
    i = i0 + Z.of_nat n /\ window !! n = Some line /\ header = col_upper line /\
    qualifies header = true /\
    forall (j : nat) (l : string),
      (j < n)%nat -> window !! j = Some l -> qualifies (col_upper l) = false.
Proof.
  revert i0. induction window as [|line0 rest IH]; intros i0; simpl.
  - split; [discriminate|]. by intros (n & line & _ & Hl & _).
  - destruct (qualifies (col_upper line0)) eqn:Hq.
    + split.
      * intros [= <- <-]. exists 0%nat, line0. repeat split; [lia | done |].
        intros j l Hj. lia.
      * intros (n & line & -> & Hl & -> & Hq' & Hfirst).
        destruct n as [|n].
        -- simpl in Hl. injection Hl as <-. f_equal. f_equal. lia.
        -- specialize (Hfirst 0%nat line0 ltac:(lia) eq_refl). congruence.
    + rewrite IH. split.
      * intros (n & line & -> & Hl & -> & Hq' & Hfirst).
        exists (S n), line. repeat split; [lia | done | done |].
        intros [|j] l Hj Hl'; simpl in Hl'; [congruence|].
        apply (Hfirst j); [lia | done].
      * intros (n & line & -> & Hl & -> & Hq' & Hfirst).
        destruct n as [|n]; simpl in Hl; [congruence|].
        exists n, line. repeat split; [lia | done | done |].
        intros j l Hj Hl'. apply (Hfirst (S j)); [lia | done].
Qed.


Lemma find_header_spec (lines : list string) (i : Z) (header : list string) :
  find_header lines = Some (i, header) <->
  exists (n : nat) (line : string),
    i = Z.of_nat n /\ (n < 10)%nat /\ lines !! n = Some line /\
    header = col_upper line /\ qualifies header = true /\
    forall (j : nat) (l : string),
      (j < n)%nat -> lines !! j = Some l -> qualifies (col_upper l) = false.
Proof.
  unfold find_header. rewrite scan_header_spec. split.
  - intros (n & line & -> & Hl & -> & Hq & Hfirst).
    apply lookup_take_Some in Hl as [Hl Hn].
    exists n, line. split_and!; [lia | done..|].
    intros j l Hj Hl'. apply (Hfirst j); [done|].
    rewrite lookup_take_lt; [done | lia].
  - intros (n & line & -> & Hn & Hl & -> & Hq & Hfirst).
    exists n, line. split_and!; [lia | by rewrite lookup_take_lt | done | done |].
    intros j l Hj Hl'. apply lookup_take_Some in Hl' as [Hl' _]. by apply (Hfirst j).
Qed.


Lemma index_from_bounds (x : string) (l : list string) (i k : Z) :
  index_from x i l = Ok k -> i <= k < i + len l.
Proof.
  revert i. induction l as [|y l IH]; intros i; simpl; [discriminate|].
  rewrite len_cons. pose proof (len_nonneg l). destruct (String.eqb y x).
  - intros [= <-]. lia.
  - intros Hk. apply IH in Hk. lia.
Qed.

Lemma resolve_columns_ranges (header : list string) (cs : columns) :
  resolve_columns header = Ok cs ->
  -1 <= date_col cs < len header /\ -1 <= ticker_col cs < len header /\
  0 <= shares_col cs < len header /\ -1 <= weight_col cs < len header.
Proof.
  unfold resolve_columns, list_index. pose proof (len_nonneg header).
  destruct (index_from "SHARES" 0 header) as [k|e] eqn:Hk; simpl; [|discriminate].
  intros [= <-]. simpl. apply index_from_bounds in Hk.
  pose proof (find_index_bounds (String.eqb "DATE") header 0).
  pose proof (find_index_bounds is_ticker_name header 0).
  pose proof (find_index_bounds is_weight_name header 0).
  lia.
Qed.

(** ** Results and actions *)

Lemma bind_Ok {A B} (a : A) (k : A -> result B) : Ok a ≫= k = k a.
Proof. reflexivity. Qed.

Lemma bind_Raise {A B} (e : exn) (k : A -> result B) : Raise e ≫= k = Raise e.
Proof. reflexivity. Qed.

Lemma result_bind_ok {A B} (r : result A) (k : A -> result B) (b : B) :
  r ≫= k = Ok b <-> exists a, r = Ok a /\ k a = Ok b.
Proof.
  destruct r as [a|e]; simpl.
  - split; [by exists a | by intros (a' & [= <-] & ?)].
  - split; [discriminate | by intros (a' & ? & _)].
Qed.

Lemma result_bind_raise {A B} (r : result A) (k : A -> result B) (e : exn) :
  r ≫= k = Raise e <-> r = Raise e \/ exists a, r = Ok a /\ k a = Raise e.
Proof.
  destruct r as [a|e']; simpl.
  - split; [right; by exists a | by intros [?|(a' & [= <-] & ?)]].
  - split; [intros [= <-]; by left |].
    intros [[= ->]|(a' & ? & _)]; [done | discriminate].
Qed.

(** ** The loop over the data lines *)

Lemma parse_lines_app (dt : datetime_lib) (cs : columns) (holdings : gmap string holding)
    (pre post : list string) :
  parse_lines dt cs holdings (pre ++ post)
  = parse_lines dt cs holdings pre ≫= fun h => parse_lines dt cs h post.
Proof.
  revert holdings. induction pre as [|line pre IH]; intros holdings; simpl; [done|].
  destruct (parse_line dt cs holdings line) as [h|e]; simpl; [apply IH | done].
Qed.

Lemma parse_lines_raise (dt : datetime_lib) (cs : columns) (h0 h1 : gmap string holding)
    (pre post : list string) (line : string) (e : exn) :
  parse_lines dt cs h0 pre = Ok h1 ->
  parse_line dt cs h1 line = Raise e ->
  parse_lines dt cs h0 (pre ++ line :: post) = Raise e.
Proof.
  intros Hpre Hline. rewrite parse_lines_app, Hpre. simpl. by rewrite Hline.
Qed.

(** A run whose parser raises ends there: nothing is loaded, posted or
    saved. *)
Lemma main_parse_error (env : environment) (file : option document)
    (lines : list string) (e : exn) :
  fetch_csv env = Ok lines ->
  parse_csv (clock env) lines = Raise e ->
  main env file =
    {| output := [Print FetchingCSV; Print ParsingCSV];
       state_file := file; exit_status := Raise e |}.
Proof.
  intros Hfetch Hparse. unfold main, main_body.
  rewrite Hfetch. simpl. rewrite Hparse. reflexivity.
Qed.

(** ** What the parser can raise *)

Lemma py_float_raises (s : string) (e : exn) :
  py_float s = Raise e -> e = float_syntax_error.
Proof.
  unfold py_float. destruct (underscores_ok None (chars s)); [|congruence].
  destruct (read_sign _) as [neg body].
  destruct (parse_inf_or_nan neg body); [discriminate|].
  destruct (parse_decimal neg body); [discriminate | congruence].
Qed.

Lemma float_to_int_raises (f : float) (e : exn) :
  float_to_int f = Raise e -> e = OverflowError \/ e = nan_to_int_error.
Proof. destruct f; simpl; intros [= <-]; auto. Qed.


Lemma parse_date_raises (dt : datetime_lib) (cs : columns) (cols : list string) (e : exn) :
  parse_date dt cs cols = Raise e -> e = IndexError.
Proof.
  unfold parse_date. intros H.
  apply result_bind_raise in H as [H|(present & _ & H)].
  - destruct (date_col cs =? -1); [discriminate|].
    apply result_bind_raise in H as [H|(c & _ & H)]; [|discriminate].
    by apply getitem_raises in H.
  - apply result_bind_raise in H as [H|(d & _ & H)]; [|discriminate].
    destruct present; [|discriminate]. by apply getitem_raises in H.
Qed.




Lemma qualifying_header_resolves (header : list string) :
  qualifies header = true ->
  exists cs : columns,
    resolve_columns header = Ok cs /\
    ticker_col cs = find_index is_ticker_name 0 header /\
    list_index "SHARES" header = Ok (shares_col cs) /\
    0 <= ticker_col cs < len header /\
    0 <= shares_col cs < len header.
Proof.
  intros Hq. unfold qualifies in Hq. apply andb_true_iff in Hq as [Ht Hs].
  apply (find_index_found _ _ 0) in Ht.
  destruct (index_from_found "SHARES" header 0 Hs) as (k & Hk & Hrange).
  unfold resolve_columns, list_index. rewrite Hk. simpl.
  eexists. split; [reflexivity|]. cbn [ticker_col shares_col]. split_and!; (done || lia).
Qed.

Lemma found_header_qualifies (lines : list string) (i : Z) (header : list string) :
  find_header lines = Some (i, header) -> qualifies header = true.
Proof. intros H. by apply find_header_spec in H as (n & line & _ & _ & _ & _ & Hq & _). Qed.

(** C10. Once a header line is found, the ticker column and the SHARES
    column both resolve to an index inside the header: the search for the
    ticker column does not fall back to -1 and [header.index] does not
    raise. *)
Theorem required_columns_resolve (lines : list string) (i : Z) (header : list string) :
  find_header lines = Some (i, header) ->
  exists cs : columns,
    resolve_columns header = Ok cs /\
    ticker_col cs = find_index is_ticker_name 0 header /\
    list_index "SHARES" header = Ok (shares_col cs) /\
    0 <= ticker_col cs < len header /\
    0 <= shares_col cs < len header.
Proof.
  intros Hfound. eapply qualifying_header_resolves, found_header_qualifies, Hfound.
Qed.

Lemma required_columns_resolve_witness :
  exists cs : columns,
    resolve_columns ["DATE"; "ACCOUNT"; "STOCKTICKER"; "SHARES"] = Ok cs /\
    ticker_col cs = 2 /\ shares_col cs = 3.
Proof.
  destruct (required_columns_resolve
              ["Holdings as of today"; "Date,Account,StockTicker,Shares"; "x,y,MAPS,5"]
              1 ["DATE"; "ACCOUNT"; "STOCKTICKER"; "SHARES"])
    as (cs & Hcs & Ht & Hs & _).
  - vm_compute. reflexivity.
  - exists cs. split; [exact Hcs|]. split; [rewrite Ht; vm_compute; reflexivity|].
    change (Ok 3 = Ok (shares_col cs)) in Hs. by injection Hs.
Defined.







(** ** A tracked row *)

Lemma parse_line_tracked (dt : datetime_lib) (cs : columns) (holdings : gmap string holding)
    (line ticker : string) :
  tracked_row cs line ticker ->
  parse_line dt cs holdings line =
    parse_date dt cs (csv_cols line) ≫= fun date_str =>
    parse_shares cs (csv_cols line) ≫= fun n =>
    parse_weighting cs (csv_cols line) ≫= fun w =>
    Ok (<[ticker := {| date := date_str; shares := n; weighting := w |}]> holdings).
Proof.
  intros (Hblank & Hlen & t & Ht & Hup & Htarget). unfold parse_line.
  rewrite Hblank. simpl.
  destruct (Z.leb_spec (len (csv_cols line)) (ticker_col cs)) as [?|_]; [lia|].
  rewrite Ht. simpl. rewrite Hup, Htarget. reflexivity.
Qed.

Lemma parse_csv_line_raises (dt : datetime_lib) (lines : list string) (i : Z)
    (header : list string) (cs : columns) (pre post : list string) (line : string)
    (holdings : gmap string holding) (e : exn) :
  find_header lines = Some (i, header) ->
  resolve_columns header = Ok cs ->
  drop (Z.to_nat (i + 1)) lines = pre ++ line :: post ->
  parse_lines dt cs ∅ pre = Ok holdings ->
  parse_line dt cs holdings line = Raise e ->
  parse_csv dt lines = Raise e.
Proof.
  intros Hfound Hcs Hdrop Hpre Hline. unfold parse_csv.
  rewrite Hfound, Hcs. simpl. rewrite Hdrop.
  by apply (parse_lines_raise dt cs ∅ holdings).
Qed.

(** C9. A row that holds a tracked ticker but ends before the SHARES
    column, or before the DATE column of a header that has one, is not
    skipped: reading the missing field raises [IndexError], which [parse_csv]
    and [main] let through, so the run ends without touching the state
    file. *)
Theorem short_row_index_error (env : environment) (file : option document)
    (lines : list string) (i : Z) (header : list string) (cs : columns)
    (pre post : list string) (line ticker : string) (holdings : gmap string holding) :
  fetch_csv env = Ok lines ->
  find_header lines = Some (i, header) ->
  resolve_columns header = Ok cs ->
  drop (Z.to_nat (i + 1)) lines = pre ++ line :: post ->
  parse_lines (clock env) cs ∅ pre = Ok holdings ->
  tracked_row cs line ticker ->
  (len (csv_cols line) <= shares_col cs \/
   (date_col cs <> -1 /\ len (csv_cols line) <= date_col cs)) ->
  parse_line (clock env) cs holdings line = Raise IndexError /\
  parse_csv (clock env) lines = Raise IndexError /\
  exit_status (main env file) = Raise IndexError /\
  state_file (main env file) = file.
Proof.
  intros Hfetch Hfound Hcs Hdrop Hpre Hrow Hshort.
  assert (parse_line (clock env) cs holdings line = Raise IndexError) as Hline.
  { rewrite (parse_line_tracked _ _ _ _ ticker Hrow).
    destruct (parse_date (clock env) cs (csv_cols line)) as [d|e] eqn:Hdate; simpl.
    - destruct Hshort as [Hs|[Hd1 Hd2]].
      + unfold parse_shares. by rewrite getitem_out_of_range.
      + unfold parse_date in Hdate.
        destruct (Z.eqb_spec (date_col cs) (-1)) as [?|_]; [done|].
        by rewrite getitem_out_of_range in Hdate.
    - by apply parse_date_raises in Hdate as ->. }
  assert (parse_csv (clock env) lines = Raise IndexError) as Hparse
    by (by eapply parse_csv_line_raises).
  rewrite (main_parse_error env file lines IndexError Hfetch Hparse). done.
Qed.

Lemma short_row_index_error_witness :
  parse_csv (datetime_on "2026-11-04") ["Ticker,Shares"; "MAPS"] = Raise IndexError /\
  exit_status (main (sample_env ["Ticker,Shares"; "MAPS"] None 204) None) = Raise IndexError /\
  state_file (main (sample_env ["Ticker,Shares"; "MAPS"] None 204) None) = None.
Proof.
  refine (proj2 (short_row_index_error
            (sample_env ["Ticker,Shares"; "MAPS"] None 204) None
            ["Ticker,Shares"; "MAPS"] 0 ["TICKER"; "SHARES"]
            {| date_col := -1; ticker_col := 0; shares_col := 1; weight_col := -1 |}
            [] [] "MAPS" "MAPS" ∅ _ _ _ _ _ _ _)).
  - vm_compute. reflexivity.
  - vm_compute. reflexivity.
  - vm_compute. reflexivity.
  - vm_compute. reflexivity.
  - vm_compute. reflexivity.
  - split; [vm_compute; reflexivity|]. split; [vm_compute; reflexivity|].
    exists "MAPS". split_and!; vm_compute; reflexivity.
  - left. vm_compute. discriminate.
Defined.

(** ** Quantities and weightings *)

Lemma truncate_inject_Z (z : Z) : truncate (inject_Z z) = z.
Proof.
  unfold truncate. destruct (Qle_bool 0 (inject_Z z)).
  - apply Qfloor_Z.
  - apply Qceiling_Z.
Qed.

Lemma float_to_int_truncates (f : float) (n : Z) :
  float_to_int f = Ok n ->
  exists x : Q, float_value f = Some x /\ n = truncate x.
Proof.
  destruct f as [s|s| |s m e]; simpl; try discriminate.
  - intros [= <-]. exists 0%Q. split; [done | reflexivity].
  - intros [= <-]. eexists. split; [reflexivity|].
    destruct e as [|p|k].
    + by rewrite truncate_inject_Z.
    + by rewrite truncate_inject_Z.
    + unfold truncate, Qle_bool, Qceiling, Qfloor.
      destruct s; simpl; rewrite ?Pos2Z.inj_pow; reflexivity.
Qed.

Lemma weighting_of_field_cases (field : string) :
  match py_float (strip (remove_char "%" field)) with
  | Ok f => weighting_of_field field = fdiv f f100
  | Raise _ => weighting_of_field field = fzero
  end.
Proof. unfold weighting_of_field. by destruct (py_float _). Qed.

Lemma parse_weighting_spec (cs : columns) (cols : list string) :
  -1 <= weight_col cs ->
  parse_weighting cs cols =
    Ok (if weight_col cs =? -1 then fzero
        else match cols !! Z.to_nat (weight_col cs) with
             | Some field => if truthy field then weighting_of_field field else fzero
             | None => fzero
             end).
Proof.
  intros Hrange. unfold parse_weighting.
  destruct (Z.eqb_spec (weight_col cs) (-1)) as [?|Hne]; [done|]. simpl.
  destruct (Z.ltb_spec (weight_col cs) (len cols)) as [Hlt|Hge].
  - destruct (getitem_in_range cols (weight_col cs)) as (field & -> & ->); [lia|].
    simpl. destruct (truthy field); simpl; [|done].
    unfold weighting_of_field.
    destruct (py_float _) as [f|e] eqn:Hf; [done|].
    apply py_float_raises in Hf. by subst e.
  - simpl. rewrite (proj2 (lookup_ge_None cols (Z.to_nat (weight_col cs)))); [done|].
    unfold len in Hge. lia.
Qed.

Lemma parse_date_ok (dt : datetime_lib) (cs : columns) (cols : list string) :
  -1 <= date_col cs ->
  date_col cs = -1 \/ date_col cs < len cols ->
  exists d, parse_date dt cs cols = Ok d.
Proof.
  intros Hrange Hcol. unfold parse_date.
  destruct (Z.eqb_spec (date_col cs) (-1)) as [?|Hne]; simpl; [by eexists|].
  destruct (getitem_in_range cols (date_col cs)) as (c & -> & _); [lia|].
  simpl. destruct (truthy c); simpl; by eexists.
Qed.

(** C4. The share count of a tracked row is its SHARES field with the
    commas removed, read by [float] and truncated towards zero. When
    [float] or [int] rejects the field, the exception is one of those an
    unparsable quantity raises; [parse_csv] raises it, and the run ends on
    it before anything is posted or written to the state file. *)
Theorem quantity_parsing (env : environment) (file : option document)
    (lines : list string) (i : Z) (header : list string) (cs : columns)
    (pre post : list string) (line ticker field : string)
    (holdings : gmap string holding) :
  fetch_csv env = Ok lines ->
  find_header lines = Some (i, header) ->
  resolve_columns header = Ok cs ->
  drop (Z.to_nat (i + 1)) lines = pre ++ line :: post ->
  parse_lines (clock env) cs ∅ pre = Ok holdings ->
  tracked_row cs line ticker ->
  date_col cs = -1 \/ date_col cs < len (csv_cols line) ->
  getitem (csv_cols line) (shares_col cs) = Ok field ->
  match py_float (remove_char "," field) ≫= float_to_int with
  | Ok n =>
      exists (f : float) (x : Q) (r : holding),
        py_float (remove_char "," field) = Ok f /\
        float_value f = Some x /\ n = truncate x /\
        parse_line (clock env) cs holdings line = Ok (<[ticker := r]> holdings) /\
        shares r = n
  | Raise e =>
      MalformedQuantity e /\
      parse_csv (clock env) lines = Raise e /\
      aborts_unchanged env file e
  end.
Proof.
  intros Hfetch Hfound Hcs Hdrop Hpre Hrow Hdate Hfield.
  pose proof (resolve_columns_ranges header cs Hcs) as (Hd & _ & _ & Hw).
  destruct (parse_date_ok (clock env) cs (csv_cols line)) as (d & Hd'); [lia | done |].
  pose proof (parse_line_tracked (clock env) cs holdings line ticker Hrow) as Hline.
  rewrite Hd' in Hline. unfold parse_shares in Hline. rewrite Hfield in Hline.
  rewrite !bind_Ok in Hline.
  destruct (py_float (remove_char "," field) ≫= float_to_int) as [n|e] eqn:Hq.
  - apply result_bind_ok in Hq as (f & Hf & Hn).
    destruct (float_to_int_truncates f n Hn) as (x & Hx & Htr).
    rewrite bind_Ok, parse_weighting_spec, bind_Ok in Hline by lia.
    eexists f, x, _. split_and!; [done | done | done | exact Hline | done].
  - assert (MalformedQuantity e) as Hbad.
    { unfold MalformedQuantity.
      apply result_bind_raise in Hq as [Hq|(f & _ & Hq)].
      - apply py_float_raises in Hq. auto.
      - apply float_to_int_raises in Hq. tauto. }
    assert (parse_line (clock env) cs holdings line = Raise e) as Hraise.
    { by rewrite Hline. }
    assert (parse_csv (clock env) lines = Raise e) as Hparse
      by (by eapply parse_csv_line_raises).
    split_and!; [done | done |].
    unfold aborts_unchanged.
    rewrite (main_parse_error env file lines e Hfetch Hparse). simpl.
    split_and!; [done | done |].
    intros url payload Hin.
    apply elem_of_cons in Hin as [?|Hin]; [done|].
    apply elem_of_cons in Hin as [?|Hin]; [done|].
    by apply elem_of_nil in Hin.
Qed.

Lemma quantity_parsing_witness :
  (exists r : holding,
     parse_line (datetime_on "2026-11-04") ticker_shares ∅ ("maps," +:+ quoted "1,234,567.89")
     = Ok (<["MAPS" := r]> ∅) /\ shares r = 1234567) /\
  aborts_unchanged (sample_env ["Ticker,Shares"; "MAPS,n/a"] None 204) None float_syntax_error.
Proof.
  split.
  - pose proof (quantity_parsing
                  (sample_env ["Ticker,Shares"; "maps," +:+ quoted "1,234,567.89"] None 204) None
                  ["Ticker,Shares"; "maps," +:+ quoted "1,234,567.89"] 0 ["TICKER"; "SHARES"]
                  ticker_shares [] [] ("maps," +:+ quoted "1,234,567.89") "MAPS" "1,234,567.89" ∅)
      as H.
    assert (py_float (remove_char "," "1,234,567.89") ≫= float_to_int = Ok 1234567) as E
      by (vm_compute; reflexivity).
    rewrite E in H.
    destruct H as (f & x & r & _ & _ & _ & Hline & Hshares).
    + vm_compute. reflexivity.
    + vm_compute. reflexivity.
    + vm_compute. reflexivity.
    + vm_compute. reflexivity.
    + vm_compute. reflexivity.
    + split; [vm_compute; reflexivity|]. split; [vm_compute; reflexivity|].
      exists "maps". split_and!; vm_compute; reflexivity.
    + by left.
    + vm_compute. reflexivity.
    + exists r. split; [exact Hline | exact Hshares].
  - pose proof (quantity_parsing
                  (sample_env ["Ticker,Shares"; "MAPS,n/a"] None 204) None
                  ["Ticker,Shares"; "MAPS,n/a"] 0 ["TICKER"; "SHARES"]
                  ticker_shares [] [] "MAPS,n/a" "MAPS" "n/a" ∅)
      as H.
    assert (py_float (remove_char "," "n/a") ≫= float_to_int = Raise float_syntax_error) as E
      by (vm_compute; reflexivity).
    rewrite E in H. apply H.
    + vm_compute. reflexivity.
    + vm_compute. reflexivity.
    + vm_compute. reflexivity.
    + vm_compute. reflexivity.
    + vm_compute. reflexivity.
    + split; [vm_compute; reflexivity|]. split; [vm_compute; reflexivity|].
      exists "MAPS". split_and!; vm_compute; reflexivity.
    + by left.
    + vm_compute. reflexivity.
Defined.

Lemma parse_line_tracked_ok (dt : datetime_lib) (cs : columns)
    (holdings holdings' : gmap string holding) (line ticker : string) :
  -1 <= weight_col cs ->
  tracked_row cs line ticker ->
  parse_line dt cs holdings line = Ok holdings' ->
  exists (d : string) (n : Z) (w : float),
    parse_date dt cs (csv_cols line) = Ok d /\
    parse_shares cs (csv_cols line) = Ok n /\
    parse_weighting cs (csv_cols line) = Ok w /\
    holdings' = <[ticker := {| date := d; shares := n; weighting := w |}]> holdings.
Proof.
  intros Hw Hrow Hline. rewrite (parse_line_tracked _ _ _ _ ticker Hrow) in Hline.
  apply result_bind_ok in Hline as (d & Hd & Hline).
  apply result_bind_ok in Hline as (n & Hn & Hline).
  apply result_bind_ok in Hline as (w & Hw' & Hline).
  injection Hline as <-. by exists d, n, w.
Qed.

(** C6, as the code has it. The weighting of a row is zero when the header
    has no weight column, when the row ends before it, or when the field is
    empty. Otherwise every percent sign is removed from the field (not only
    a trailing one), the blanks around are stripped, and the text is read by
    [float] and divided by 100, or replaced by zero when [float] rejects it.
    Reading the weighting never raises, and 1.50% gives 0.015 within
    1e-9. *)
Theorem weighting_parsing (dt : datetime_lib) (header : list string) (cs : columns)
    (holdings holdings' : gmap string holding) (line ticker : string) :
  resolve_columns header = Ok cs ->
  tracked_row cs line ticker ->
  parse_line dt cs holdings line = Ok holdings' ->
  let expected :=
    if weight_col cs =? -1 then fzero
    else match csv_cols line !! Z.to_nat (weight_col cs) with
         | Some field => if truthy field then weighting_of_field field else fzero
         | None => fzero
         end in
  parse_weighting cs (csv_cols line) = Ok expected /\
  (exists r : holding, holdings' !! ticker = Some r /\ weighting r = expected) /\
  (forall field : string,
     match py_float (strip (remove_char "%" field)) with
     | Ok f => weighting_of_field field = fdiv f f100
     | Raise _ => weighting_of_field field = fzero
     end) /\
  (exists x : Q,
     float_value (weighting_of_field "1.50%") = Some x /\
     (Qabs (x - (15 # 1000)) <= (1 # 1000000000))%Q).
Proof.
  intros Hcs Hrow Hline expected.
  pose proof (resolve_columns_ranges header cs Hcs) as (_ & _ & _ & Hw).
  assert (parse_weighting cs (csv_cols line) = Ok expected) as Hspec
    by (apply parse_weighting_spec; lia).
  split_and!.
  - done.
  - destruct (parse_line_tracked_ok dt cs holdings holdings' line ticker)
      as (d & n & w & _ & _ & Hw' & ->); [lia | done | done |].
    eexists. rewrite lookup_insert_eq. split; [reflexivity|]. simpl. congruence.
  - apply weighting_of_field_cases.
  - exists (8646911284551352 # 576460752303423488)%Q. split.
    + vm_compute. reflexivity.
    + apply Qle_bool_imp_le. vm_compute. reflexivity.
Qed.

Lemma weighting_parsing_witness :
  exists r : holding,
    (<["MAPS" := r]> ∅ : gmap string holding) !! "MAPS" = Some r /\
    weighting r = weighting_of_field "1.50%".
Proof.
  destruct (weighting_parsing (datetime_on "2026-11-04")
              ["TICKER"; "SHARES"; "WEIGHTINGS"]
              {| date_col := -1; ticker_col := 0; shares_col := 1; weight_col := 2 |}
              ∅
              (<["MAPS" := {| date := "2026-11-04"; shares := 100;
                              weighting := weighting_of_field "1.50%" |}]> ∅)
              "MAPS,100,1.50%" "MAPS")
    as (_ & (r & Hr & Hw) & _).
  - vm_compute. reflexivity.
  - split; [vm_compute; reflexivity|]. split; [vm_compute; reflexivity|].
    exists "MAPS". split_and!; vm_compute; reflexivity.
  - vm_compute. reflexivity.
  - exists r. split.
    + rewrite lookup_insert_eq in Hr. rewrite lookup_insert_eq. done.
    + rewrite Hw. vm_compute. reflexivity.
Defined.

(** C6, read with a trailing percent sign only, fails: a percent sign that
    is not trailing is removed all the same, so the field 1%5 is read as 15
    percent, where stripping a trailing percent sign leaves a text that
    [float] rejects and the weighting would be zero. *)
Lemma weighting_trailing_percent_counterexample :
  exists (h : gmap string holding) (r : holding),
    parse_csv (datetime_on "2026-11-04") ["Ticker,Shares,Weighting"; "MAPS,100,1%5"] = Ok h /\
    h !! "MAPS" = Some r /\
    weighting r = fdiv (nearest_float 15) f100 /\
    weighting_by_trailing_percent "1%5" = fzero /\
    weighting r <> weighting_by_trailing_percent "1%5".
Proof.
  exists (<["MAPS" := {| date := "2026-11-04"; shares := 100;
                         weighting := fdiv (nearest_float 15) f100 |}]> ∅),
         {| date := "2026-11-04"; shares := 100;
            weighting := fdiv (nearest_float 15) f100 |}.
  split_and!.
  - vm_compute. reflexivity.
  - vm_compute. reflexivity.
  - vm_compute. reflexivity.
  - vm_compute. reflexivity.
  - vm_compute. discriminate.
Qed.

(** ** Actions *)

Lemma outcome_bind {A B} (m : action A) (k : A -> action B) :
  outcome (m ≫= k) =
  match outcome m with
  | Ok a => outcome (k a)
  | Raise e => Raise e
  end.
Proof. unfold mbind, action_bind. by destruct (outcome m). Qed.

Lemma trace_bind {A B} (m : action A) (k : A -> action B) :
  trace (m ≫= k) =
  trace m ++ match outcome m with
             | Ok a => trace (k a)
             | Raise _ => []
             end.
Proof. unfold mbind, action_bind. destruct (outcome m); simpl; by rewrite ?app_nil_r. Qed.

Lemma Forall_trace_bind {A B} (P : event -> Prop) (m : action A) (k : A -> action B) :
  Forall P (trace m) ->
  (forall a, outcome m = Ok a -> Forall P (trace (k a))) ->
  Forall P (trace (m ≫= k)).
Proof.
  intros Hm Hk. rewrite trace_bind. apply Forall_app. split; [done|].
  destruct (outcome m) as [a|]; [by apply Hk | apply Forall_nil_2].
Qed.

(** ** One ticker *)

Lemma process_ticker_unfold (env : environment) (fs : list string) (shares_idx weight_idx : Z)
    (current_holdings : gmap string holding) (d : gmap string (list (list value)))
    (ticker company : string) :
  process_ticker env fs shares_idx weight_idx current_holdings d (ticker, company) =
  match current_holdings !! ticker with
  | None => print (CouldNotFind ticker) ≫= fun _ => mret d
  | Some current =>
      lift (decode_previous fs shares_idx weight_idx (default [] (d !! ticker)))
      ≫= fun previous_data =>
      announce env ticker company current previous_data ≫= fun _ =>
      if changed current previous_data
      then mret (<[ticker := default [] (d !! ticker) ++ [map (holding_get current) fs]]> d)
      else mret d
  end.
Proof. reflexivity. Qed.

(** The outcome of one step, as a function of the history of the ticker. *)
Lemma process_ticker_outcome (env : environment) (fs : list string) (shares_idx weight_idx : Z)
    (current_holdings : gmap string holding) (d : gmap string (list (list value)))
    (ticker company : string) :
  outcome (process_ticker env fs shares_idx weight_idx current_holdings d (ticker, company)) =
  match current_holdings !! ticker with
  | None => Ok d
  | Some current =>
      match decode_previous fs shares_idx weight_idx (default [] (d !! ticker)) with
      | Raise e => Raise e
      | Ok previous_data =>
          match outcome (announce env ticker company current previous_data) with
          | Raise e => Raise e
          | Ok _ =>
              Ok (if changed current previous_data
                  then <[ticker := default [] (d !! ticker) ++ [map (holding_get current) fs]]> d
                  else d)
          end
      end
  end.
Proof.
  rewrite process_ticker_unfold. destruct (current_holdings !! ticker) as [current|]; [|done].
  rewrite outcome_bind. unfold lift at 1. cbn [outcome].
  destruct (decode_previous _ _ _ _) as [previous_data|e]; [|done].
  rewrite outcome_bind.
  destruct (outcome (announce _ _ _ _ _)); [|done].
  by destruct (changed _ _).
Qed.

Lemma process_ticker_trace (env : environment) (fs : list string) (shares_idx weight_idx : Z)
    (current_holdings : gmap string holding) (d : gmap string (list (list value)))
    (ticker company : string) :
  trace (process_ticker env fs shares_idx weight_idx current_holdings d (ticker, company)) =
  match current_holdings !! ticker with
  | None => [Print (CouldNotFind ticker)]
  | Some current =>
      match decode_previous fs shares_idx weight_idx (default [] (d !! ticker)) with
      | Raise e => []
      | Ok previous_data => trace (announce env ticker company current previous_data)
      end
  end.
Proof.
  rewrite process_ticker_unfold. destruct (current_holdings !! ticker) as [current|]; [|done].
  rewrite trace_bind. unfold lift at 1 2. cbn [outcome trace app].
  destruct (decode_previous _ _ _ _) as [previous_data|e]; [|done].
  rewrite trace_bind.
  destruct (outcome (announce _ _ _ _ _)); [|by rewrite app_nil_r].
  destruct (changed _ _); by rewrite app_nil_r.
Qed.

Lemma process_ticker_frame (env : environment) (fs : list string) (shares_idx weight_idx : Z)
    (current_holdings : gmap string holding) (d d' : gmap string (list (list value)))
    (ticker company other : string) :
  outcome (process_ticker env fs shares_idx weight_idx current_holdings d (ticker, company))
  = Ok d' ->
  other <> ticker ->
  d' !! other = d !! other.
Proof.
  rewrite process_ticker_outcome. intros H Hne.
  destruct (current_holdings !! ticker) as [current|]; [|by injection H as <-].
  destruct (decode_previous _ _ _ _) as [previous_data|e]; [|done].
  destruct (outcome (announce _ _ _ _ _)); [|done].
  injection H as <-. destruct (changed _ _); [|done].
  by rewrite lookup_insert_ne.
Qed.

(** After a step that returned, the history of the ticker is the one before,
    with the current record appended when the test [changed] holds. *)
Lemma process_ticker_history (env : environment) (fs : list string) (shares_idx weight_idx : Z)
    (current_holdings : gmap string holding) (d d' : gmap string (list (list value)))
    (ticker company : string) :
  outcome (process_ticker env fs shares_idx weight_idx current_holdings d (ticker, company))
  = Ok d' ->
  match current_holdings !! ticker with
  | None => d' = d
  | Some current =>
      exists previous_data,
        decode_previous fs shares_idx weight_idx (default [] (d !! ticker)) = Ok previous_data /\
        outcome (announce env ticker company current previous_data) = Ok tt /\
        default [] (d' !! ticker) =
          default [] (d !! ticker) ++
          (if changed current previous_data then [map (holding_get current) fs] else [])
  end.
Proof.
  rewrite process_ticker_outcome. intros H.
  destruct (current_holdings !! ticker) as [current|]; [|by injection H as <-].
  destruct (decode_previous _ _ _ _) as [previous_data|e]; [|done].
  destruct (outcome (announce _ _ _ _ _)) as [[]|] eqn:Ha; [|done].
  injection H as <-. exists previous_data. split_and!; [done..|].
  destruct (changed _ _).
  - by rewrite lookup_insert_eq.
  - by rewrite app_nil_r.
Qed.

(** A step reads the dictionary at its own ticker only. *)
Lemma process_ticker_local (env : environment) (fs : list string) (shares_idx weight_idx : Z)
    (current_holdings : gmap string holding) (d1 d2 : gmap string (list (list value)))
    (ticker company : string) :
  d1 !! ticker = d2 !! ticker ->
  trace (process_ticker env fs shares_idx weight_idx current_holdings d1 (ticker, company))
  = trace (process_ticker env fs shares_idx weight_idx current_holdings d2 (ticker, company)) /\
  match
    outcome (process_ticker env fs shares_idx weight_idx current_holdings d1 (ticker, company)),
    outcome (process_ticker env fs shares_idx weight_idx current_holdings d2 (ticker, company))
  with
  | Ok d1', Ok d2' => d1' !! ticker = d2' !! ticker
  | Raise e1, Raise e2 => e1 = e2
  | _, _ => False
  end.
Proof.
  intros Heq. rewrite !process_ticker_trace, !process_ticker_outcome, Heq.
  split; [done|].
  destruct (current_holdings !! ticker) as [current|]; [|done].
  destruct (decode_previous _ _ _ _) as [previous_data|e]; [|done].
  destruct (outcome (announce _ _ _ _ _)); [|done].
  destruct (changed _ _); [|done].
  by rewrite !lookup_insert_eq.
Qed.

(** ** The loop over the tracked tickers *)

Section loop.
Context (env : environment) (fs : list string) (shares_idx weight_idx : Z)
        (current_holdings : gmap string holding).

Let body := process_ticker env fs shares_idx weight_idx current_holdings.

Lemma for_each_cons (d : gmap string (list (list value))) (target : string * string)
    (targets : list (string * string)) :
  for_each body d (target :: targets) = body d target ≫= fun d' => for_each body d' targets.
Proof. reflexivity. Qed.

Lemma for_each_frame (targets : list (string * string))
    (d d' : gmap string (list (list value))) (other : string) :
  outcome (for_each body d targets) = Ok d' ->
  other ∉ (fst <$> targets) ->
  d' !! other = d !! other.
Proof.
  revert d. induction targets as [|[t c] targets IH]; intros d; simpl.
  - by intros [= <-].
  - rewrite outcome_bind. intros H Hnot.
    apply not_elem_of_cons in Hnot as [Hne Hnot].
    destruct (outcome (body d (t, c))) as [dm|] eqn:Hstep; [|done].
    rewrite (IH dm H Hnot). by eapply process_ticker_frame.
Qed.

Lemma for_each_target (targets : list (string * string))
    (d d' : gmap string (list (list value))) (ticker company : string) :
  NoDup (fst <$> targets) ->
  outcome (for_each body d targets) = Ok d' ->
  (ticker, company) ∈ targets ->
  exists d1, outcome (body d (ticker, company)) = Ok d1 /\ d' !! ticker = d1 !! ticker.
Proof.
  revert d. induction targets as [|[t c] targets IH]; intros d Hnodup; simpl.
  - intros _ Hin. by apply elem_of_nil in Hin.
  - rewrite fmap_cons in Hnodup. apply NoDup_cons in Hnodup as [Hfresh Hnodup].
    rewrite outcome_bind. intros H Hin.
    destruct (outcome (body d (t, c))) as [dm|] eqn:Hstep; [|done].
    apply elem_of_cons in Hin as [[= -> ->]|Hin].
    + exists dm. split; [done|]. by apply (for_each_frame targets).
    + destruct (IH dm Hnodup H Hin) as (d1 & Hd1 & Hlook).
      assert (ticker <> t) as Hne.
      { intros ->. apply Hfresh. apply list_elem_of_fmap. by exists (t, company). }
      pose proof (process_ticker_frame _ _ _ _ _ _ _ _ _ ticker Hstep Hne) as Hsame.
      pose proof (process_ticker_local env fs shares_idx weight_idx current_holdings
                    dm d ticker company Hsame) as [_ Hout].
      fold body in Hout. rewrite Hd1 in Hout.
      destruct (outcome (body d (ticker, company))) as [d2|]; [|done].
      exists d2. split; [done|]. by rewrite Hlook.
Qed.

Lemma for_each_trace (targets : list (string * string))
    (d d' : gmap string (list (list value))) :
  NoDup (fst <$> targets) ->
  outcome (for_each body d targets) = Ok d' ->
  trace (for_each body d targets) = concat (map (fun target => trace (body d target)) targets).
Proof.
  revert d. induction targets as [|[t c] targets IH]; intros d Hnodup; simpl; [done|].
  rewrite fmap_cons in Hnodup. apply NoDup_cons in Hnodup as [Hfresh Hnodup].
  rewrite outcome_bind, trace_bind. intros H.
  destruct (outcome (body d (t, c))) as [dm|] eqn:Hstep; [|done].
  f_equal. rewrite (IH dm Hnodup H). f_equal.
  apply map_ext_in. intros [t' c'] Hin.
  assert (t' <> t) as Hne.
  { intros ->. apply Hfresh. apply list_elem_of_fmap. exists (t, c').
    split; [done|]. by apply list_elem_of_In. }
  pose proof (process_ticker_frame _ _ _ _ _ _ _ _ _ t' Hstep Hne) as Hsame.
  by destruct (process_ticker_local env fs shares_idx weight_idx current_holdings
                 dm d t' c' Hsame) as [Htr _].
Qed.

End loop.

(** ** The whole run *)

Lemma main_unfold (env : environment) (file : option document) (lines : list string)
    (current_holdings : gmap string holding) (shares_idx weight_idx : Z) :
  fetch_csv env = Ok lines ->
  parse_csv (clock env) lines = Ok current_holdings ->
  list_index "shares" (schema file) = Ok shares_idx ->
  list_index "weighting" (schema file) = Ok weight_idx ->
  main env file =
    let loop := for_each (process_ticker env (schema file) shares_idx weight_idx current_holdings)
                  (default ∅ (data (load_state file))) TARGET_TICKERS in
    match outcome loop with
    | Ok d' =>
        {| output := [Print FetchingCSV; Print ParsingCSV; Print LoadingState]
                     ++ trace loop ++ [Print Done];
           state_file := Some {| fields := fields (load_state file); data := Some d' |};
           exit_status := Ok tt |}
    | Raise e =>
        {| output := [Print FetchingCSV; Print ParsingCSV; Print LoadingState] ++ trace loop;
           state_file := file;
           exit_status := Raise e |}
    end.
Proof.
  intros Hfetch Hparse Hs Hw. unfold schema in *. unfold main, main_body.
  rewrite Hfetch. cbn [lift print mbind action_bind outcome trace app].
  rewrite Hparse. cbn [lift print mbind action_bind outcome trace app].
  rewrite Hs. cbn [lift print mbind action_bind outcome trace app].
  rewrite Hw. cbn [lift print mbind action_bind outcome trace app].
  rewrite outcome_bind, trace_bind.
  destruct (outcome (for_each _ _ _)) as [d'|e]; cbn [outcome trace mret action_ret].
  - unfold save_state. by rewrite app_nil_r.
  - by rewrite app_nil_r.
Qed.

Lemma main_raise_unchanged (env : environment) (file : option document) (e : exn) :
  exit_status (main env file) = Raise e -> state_file (main env file) = file.
Proof. unfold main. by destruct (outcome (main_body env file)). Qed.

Lemma main_ok_inv (env : environment) (file : option document) :
  exit_status (main env file) = Ok tt ->
  exists (lines : list string) (current_holdings : gmap string holding)
         (shares_idx weight_idx : Z) (d' : gmap string (list (list value))),
    fetch_csv env = Ok lines /\
    parse_csv (clock env) lines = Ok current_holdings /\
    list_index "shares" (schema file) = Ok shares_idx /\
    list_index "weighting" (schema file) = Ok weight_idx /\
    outcome (for_each (process_ticker env (schema file) shares_idx weight_idx current_holdings)
               (default ∅ (data (load_state file))) TARGET_TICKERS) = Ok d'.
Proof.
  intros Hexit.
  assert (exists st, outcome (main_body env file) = Ok st) as [st Hst].
  { unfold main in Hexit. destruct (outcome (main_body env file)) as [st|]; [by exists st | done]. }
  clear Hexit. unfold main_body in Hst. fold (schema file) in Hst.
  rewrite outcome_bind in Hst. cbn [print outcome] in Hst.
  rewrite outcome_bind in Hst. cbn [lift outcome] in Hst.
  destruct (fetch_csv env) as [lines|] eqn:Hfetch; [|done].
  rewrite outcome_bind in Hst. cbn [print outcome] in Hst.
  rewrite outcome_bind in Hst. cbn [lift outcome] in Hst.
  destruct (parse_csv (clock env) lines) as [current_holdings|] eqn:Hparse; [|done].
  rewrite outcome_bind in Hst. cbn [print outcome] in Hst.
  rewrite outcome_bind in Hst. cbn [lift outcome] in Hst.
  destruct (list_index "shares" (schema file)) as [shares_idx|] eqn:Hs; [|done].
  rewrite outcome_bind in Hst. cbn [lift outcome] in Hst.
  destruct (list_index "weighting" (schema file)) as [weight_idx|] eqn:Hw; [|done].
  rewrite outcome_bind in Hst.
  destruct (outcome (for_each _ _ _)) as [d'|] eqn:Hloop; [|done].
  by exists lines, current_holdings, shares_idx, weight_idx, d'.
Qed.

Lemma targets_nodup : NoDup (fst <$> TARGET_TICKERS).
Proof.
  apply NoDup_cons. split.
  - intros Hin. apply elem_of_cons in Hin as [?|Hin]; [done|]. by apply elem_of_nil in Hin.
  - apply NoDup_cons. split; [apply not_elem_of_nil | apply NoDup_nil_2].
Qed.

Lemma target_is_target (ticker company : string) :
  (ticker, company) ∈ TARGET_TICKERS -> ticker ∈ (fst <$> TARGET_TICKERS).
Proof. intros H. apply list_elem_of_fmap. by exists (ticker, company). Qed.

(** The history stored after a run that completed. *)
Lemma stored_history_after (env : environment) (file : option document) (lines : list string)
    (current_holdings : gmap string holding) (shares_idx weight_idx : Z)
    (d' : gmap string (list (list value))) (ticker : string) :
  fetch_csv env = Ok lines ->
  parse_csv (clock env) lines = Ok current_holdings ->
  list_index "shares" (schema file) = Ok shares_idx ->
  list_index "weighting" (schema file) = Ok weight_idx ->
  outcome (for_each (process_ticker env (schema file) shares_idx weight_idx current_holdings)
             (default ∅ (data (load_state file))) TARGET_TICKERS) = Ok d' ->
  stored_history (state_file (main env file)) ticker = default [] (d' !! ticker).
Proof.
  intros Hfetch Hparse Hs Hw Hloop.
  rewrite (main_unfold env file lines current_holdings shares_idx weight_idx) by done.
  cbv zeta. rewrite Hloop. reflexivity.
Qed.

(** ** The alert *)

Lemma post_trace (env : environment) (url : string) (payload : alert) :
  trace (post env url payload) =
  match http_post env url payload with
  | Ok _ => [Post url payload]
  | Raise _ => []
  end.
Proof. unfold post. by destruct (http_post env url payload). Qed.

Lemma post_outcome (env : environment) (url : string) (payload : alert) :
  outcome (post env url payload) = http_post env url payload.
Proof. unfold post. by destruct (http_post env url payload). Qed.

(** What an alert that was posted holds. *)
Lemma send_discord_alert_posts (env : environment) (ticker company : string)
    (current : holding) (previous_data : option previous) (url : string) (payload : alert) :
  Post url payload ∈ trace (send_discord_alert env ticker company current previous_data) ->
  alert_ticker payload = ticker /\
  current_shares payload = shares current /\
  prev_shares payload = match previous_data with
                        | Some p => previous_shares p
                        | None => VInt 0
                        end /\
  py_sub (shares current) (prev_shares payload) = Ok (delta payload) /\
  (if py_ne (prev_shares payload) (VInt 0)
   then py_truediv (delta payload) (prev_shares payload)
   else Ok (VInt 0)) = Ok (percent_change payload).
Proof.
  unfold send_discord_alert. destruct (url_of (WEBHOOK_URL env)) as [u|].
  2: { unfold print. cbn [trace]. intros Hin.
       apply elem_of_cons in Hin as [?|Hin]; [done | by apply elem_of_nil in Hin]. }
  cbv zeta. rewrite trace_bind. unfold lift at 1 2. cbn [trace outcome app].
  set (prev := match previous_data with Some p => previous_shares p | None => VInt 0 end).
  destruct (py_sub (shares current) prev) as [dl|] eqn:Hdelta.
  2: { intros Hin. by apply elem_of_nil in Hin. }
  destruct (py_eq dl (VInt 0)).
  { cbn [mret action_ret trace]. intros Hin. by apply elem_of_nil in Hin. }
  rewrite trace_bind. unfold lift at 1 2. cbn [trace outcome app].
  destruct (if py_ne prev (VInt 0) then py_truediv dl prev else Ok (VInt 0))
    as [pc|] eqn:Hpercent.
  2: { intros Hin. by apply elem_of_nil in Hin. }
  rewrite trace_bind. unfold lift at 1 2. cbn [trace outcome app].
  destruct (match previous_data with
            | Some p => _
            | None => Ok None
            end) as [pw|].
  2: { intros Hin. by apply elem_of_nil in Hin. }
  rewrite trace_bind, post_trace, post_outcome.
  destruct (http_post env u _) as [r|].
  2: { intros Hin. by apply elem_of_nil in Hin. }
  intros Hin. apply elem_of_cons in Hin as [Heq|Hin].
  - injection Heq as -> ->. cbn. split_and!; done.
  - destruct (negb (accepted (status_code r))).
    + unfold print in Hin. cbn [trace] in Hin.
      apply elem_of_cons in Hin as [?|Hin]; [done | by apply elem_of_nil in Hin].
    + cbn [mret action_ret trace] in Hin. by apply elem_of_nil in Hin.
Qed.

Lemma send_discord_alert_own (env : environment) (ticker company other : string)
    (current : holding) (previous_data : option previous) (e : event) :
  e ∈ trace (send_discord_alert env ticker company current previous_data) ->
  notifies other e ->
  other = ticker.
Proof.
  intros Hin Hnot. destruct e as [m|url payload].
  - destruct m; try done. simpl in Hnot. subst ticker0.
    revert Hin. unfold send_discord_alert.
    destruct (url_of (WEBHOOK_URL env)) as [u|].
    2: { unfold print. cbn [trace]. intros Hin.
         apply elem_of_cons in Hin as [[= ->]|Hin]; [done | by apply elem_of_nil in Hin]. }
    cbv zeta. rewrite trace_bind. unfold lift at 1 2. cbn [trace outcome app].
    destruct (py_sub _ _) as [dl|]; [|by intros Hin; apply elem_of_nil in Hin].
    destruct (py_eq dl (VInt 0)); [by intros Hin; apply elem_of_nil in Hin|].
    rewrite trace_bind. unfold lift at 1 2. cbn [trace outcome app].
    destruct (if py_ne _ _ then _ else _) as [pc|]; [|by intros Hin; apply elem_of_nil in Hin].
    rewrite trace_bind. unfold lift at 1 2. cbn [trace outcome app].
    destruct (match previous_data with Some p => _ | None => Ok None end) as [pw|];
      [|by intros Hin; apply elem_of_nil in Hin].
    rewrite trace_bind, post_trace, post_outcome.
    destruct (http_post env u _) as [r|]; [|by intros Hin; apply elem_of_nil in Hin].
    intros Hin. apply elem_of_cons in Hin as [?|Hin]; [done|].
    destruct (negb (accepted (status_code r))).
    + unfold print in Hin. cbn [trace] in Hin.
      apply elem_of_cons in Hin as [?|Hin]; [done | by apply elem_of_nil in Hin].
    + cbn [mret action_ret trace] in Hin. by apply elem_of_nil in Hin.
  - simpl in Hnot. subst other.
    by apply send_discord_alert_posts in Hin as (? & _).
Qed.

Lemma announce_own (env : environment) (ticker company other : string)
    (current : holding) (previous_data : option previous) (e : event) :
  e ∈ trace (announce env ticker company current previous_data) ->
  notifies other e ->
  other = ticker.
Proof.
  unfold announce. destruct previous_data as [p|].
  - destruct (py_ne _ _).
    + rewrite trace_bind. unfold print. cbn [trace outcome app].
      intros Hin Hnot. apply elem_of_cons in Hin as [->|Hin]; [done|].
      by eapply send_discord_alert_own.
    + cbn [mret action_ret trace]. intros Hin. by apply elem_of_nil in Hin.
  - unfold print. cbn [trace]. intros Hin Hnot.
    apply elem_of_cons in Hin as [->|Hin]; [done | by apply elem_of_nil in Hin].
Qed.

(** No notification on a first observation, nor while the share count
    compares equal to the stored one. *)
Lemma announce_silent (env : environment) (ticker company other : string)
    (current : holding) (previous_data : option previous) (e : event) :
  match previous_data with
  | None => True
  | Some p => py_ne (VInt (shares current)) (previous_shares p) = false
  end ->
  e ∈ trace (announce env ticker company current previous_data) ->
  ~ notifies other e.
Proof.
  unfold announce. destruct previous_data as [p|].
  - intros ->. cbn [mret action_ret trace]. intros Hin. by apply elem_of_nil in Hin.
  - intros _. unfold print. cbn [trace]. intros Hin.
    apply elem_of_cons in Hin as [->|Hin]; [by intros ? | by apply elem_of_nil in Hin].
Qed.

Lemma elem_of_concat_map {A B} (f : A -> list B) (l : list A) (y : B) :
  y ∈ concat (map f l) <-> exists x, x ∈ l /\ y ∈ f x.
Proof.
  rewrite list_elem_of_In, in_concat. split.
  - intros (ys & Hys & Hy). apply in_map_iff in Hys as (x & <- & Hx).
    exists x. by rewrite !list_elem_of_In.
  - intros (x & Hx & Hy). exists (f x). rewrite <- !list_elem_of_In.
    split; [|done]. apply list_elem_of_In, in_map. by apply list_elem_of_In.
Qed.

Lemma process_ticker_own (env : environment) (fs : list string) (shares_idx weight_idx : Z)
    (current_holdings : gmap string holding) (d : gmap string (list (list value)))
    (ticker company other : string) (e : event) :
  e ∈ trace (process_ticker env fs shares_idx weight_idx current_holdings d (ticker, company)) ->
  notifies other e ->
  other = ticker.
Proof.
  rewrite process_ticker_trace.
  destruct (current_holdings !! ticker) as [current|].
  - destruct (decode_previous _ _ _ _) as [previous_data|].
    + apply announce_own.
    + intros Hin. by apply elem_of_nil in Hin.
  - intros Hin Hnot. apply elem_of_cons in Hin as [->|Hin]; [done | by apply elem_of_nil in Hin].
Qed.

Lemma targets_functional (ticker c1 c2 : string) :
  (ticker, c1) ∈ TARGET_TICKERS -> (ticker, c2) ∈ TARGET_TICKERS -> c1 = c2.
Proof.
  unfold TARGET_TICKERS. rewrite !elem_of_cons, !elem_of_nil.
  intros [[= -> ->]|[[= -> ->]|[]]] [[= ->]|[[= ->]|[]]]; done.
Qed.

Lemma main_completed (env : environment) (file : option document) (lines : list string)
    (current_holdings : gmap string holding) :
  fetch_csv env = Ok lines ->
  parse_csv (clock env) lines = Ok current_holdings ->
  exit_status (main env file) = Ok tt ->
  exists shares_idx weight_idx d',
    completed env file current_holdings shares_idx weight_idx d'.
Proof.
  intros Hfetch Hparse Hexit.
  destruct (main_ok_inv env file Hexit)
    as (lines' & holdings' & shares_idx & weight_idx & d' & Hf & Hp & Hs & Hw & Hloop).
  rewrite Hfetch in Hf. injection Hf as <-.
  rewrite Hparse in Hp. injection Hp as <-.
  exists shares_idx, weight_idx, d'.
  pose proof (main_unfold env file lines current_holdings shares_idx weight_idx
                Hfetch Hparse Hs Hw) as Hmain.
  cbv zeta in Hmain. rewrite Hloop in Hmain.
  split; [done | done | done | by rewrite Hmain |].
  rewrite Hmain. cbn [output]. by rewrite (for_each_trace _ _ _ _ _ _ _ d' targets_nodup Hloop).
Qed.

Lemma stored_history_saved (fs : option (list string))
    (d : gmap string (list (list value))) (ticker : string) :
  stored_history (Some {| fields := fs; data := Some d |}) ticker = default [] (d !! ticker).
Proof. reflexivity. Qed.

Lemma stored_history_loaded (file : option document) (ticker : string) :
  stored_history file ticker = default [] (default ∅ (data (load_state file)) !! ticker).
Proof. reflexivity. Qed.

Lemma latest_completed (env : environment) (file : option document)
    (current_holdings : gmap string holding) (shares_idx weight_idx : Z)
    (d' : gmap string (list (list value))) (ticker : string) :
  completed env file current_holdings shares_idx weight_idx d' ->
  latest file ticker =
  decode_previous (schema file) shares_idx weight_idx
    (default [] (default ∅ (data (load_state file)) !! ticker)).
Proof.
  intros [Hs Hw _ _ _]. unfold latest. rewrite Hs, Hw. reflexivity.
Qed.

Lemma completed_history (env : environment) (file : option document)
    (current_holdings : gmap string holding) (shares_idx weight_idx : Z)
    (d' : gmap string (list (list value))) (ticker company : string) (current : holding) :
  completed env file current_holdings shares_idx weight_idx d' ->
  (ticker, company) ∈ TARGET_TICKERS ->
  current_holdings !! ticker = Some current ->
  exists previous_data,
    latest file ticker = Ok previous_data /\
    outcome (announce env ticker company current previous_data) = Ok tt /\
    stored_history (state_file (main env file)) ticker =
      stored_history file ticker ++
      (if changed current previous_data
       then [map (holding_get current) (schema file)] else []).
Proof.
  intros Hdone Hin Hcur.
  rewrite (latest_completed _ _ _ _ _ _ ticker Hdone).
  destruct Hdone as [Hs Hw Hloop Hstate _].
  destruct (for_each_target _ _ _ _ _ _ _ _ ticker company targets_nodup Hloop Hin)
    as (d1 & Hstep & Hlook).
  apply process_ticker_history in Hstep. rewrite Hcur in Hstep.
  destruct Hstep as (previous_data & Hprev & Hann & Hhist).
  exists previous_data. split_and!; [done | done |].
  rewrite Hstate, stored_history_saved, stored_history_loaded.
  rewrite Hlook. exact Hhist.
Qed.

Lemma completed_untracked (env : environment) (file : option document)
    (current_holdings : gmap string holding) (shares_idx weight_idx : Z)
    (d' : gmap string (list (list value))) (ticker : string) :
  completed env file current_holdings shares_idx weight_idx d' ->
  ticker ∉ (fst <$> TARGET_TICKERS) \/ current_holdings !! ticker = None ->
  stored_history (state_file (main env file)) ticker = stored_history file ticker.
Proof.
  intros [Hs Hw Hloop Hstate _] Hcase.
  rewrite Hstate, stored_history_saved, stored_history_loaded.
  destruct (decide (ticker ∈ (fst <$> TARGET_TICKERS))) as [Hin|Hnot].
  - destruct Hcase as [?|Hnone]; [done|].
    apply list_elem_of_fmap in Hin as ([t c] & -> & Hin). cbn [fst] in *.
    destruct (for_each_target _ _ _ _ _ _ _ _ t c targets_nodup Hloop Hin)
      as (d1 & Hstep & Hlook).
    apply process_ticker_history in Hstep. rewrite Hnone in Hstep. subst d1.
    by rewrite Hlook.
  - by rewrite (for_each_frame _ _ _ _ _ _ _ _ ticker Hloop Hnot).
Qed.

Lemma completed_notified (env : environment) (file : option document)
    (current_holdings : gmap string holding) (shares_idx weight_idx : Z)
    (d' : gmap string (list (list value))) (ticker company : string) (current : holding)
    (previous_data : option previous) :
  completed env file current_holdings shares_idx weight_idx d' ->
  (ticker, company) ∈ TARGET_TICKERS ->
  current_holdings !! ticker = Some current ->
  latest file ticker = Ok previous_data ->
  notified ticker (main env file) <->
  exists e, e ∈ trace (announce env ticker company current previous_data) /\
            notifies ticker e.
Proof.
  intros Hdone Hin Hcur Hlatest.
  rewrite (latest_completed _ _ _ _ _ _ ticker Hdone) in Hlatest.
  destruct Hdone as [_ _ _ _ Hout]. unfold notified. rewrite Hout.
  assert (trace (process_ticker env (schema file) shares_idx weight_idx current_holdings
                   (default ∅ (data (load_state file))) (ticker, company))
          = trace (announce env ticker company current previous_data)) as Htrace
    by (by rewrite process_ticker_trace, Hcur, Hlatest).
  split.
  - intros (e & He & Hnot).
    apply elem_of_app in He as [He|He].
    { repeat (apply elem_of_cons in He as [->|He]; [done|]). by apply elem_of_nil in He. }
    apply elem_of_app in He as [He|He].
    2: { apply elem_of_cons in He as [->|He]; [done | by apply elem_of_nil in He]. }
    apply elem_of_concat_map in He as ([t c] & Htc & He).
    pose proof (process_ticker_own _ _ _ _ _ _ _ _ _ _ He Hnot) as ->.
    rewrite (targets_functional t c company Htc Hin) in He.
    exists e. by rewrite <- Htrace.
  - intros (e & He & Hnot). exists e. split; [|done].
    apply elem_of_app. right. apply elem_of_app. left.
    apply elem_of_concat_map. exists (ticker, company). by rewrite Htrace.
Qed.

(** ** The change detector *)

Lemma changed_spec (current : holding) (previous_data : option previous) :
  changed current previous_data = true <->
  match previous_data with
  | None => True
  | Some p =>
      py_ne (VInt (shares current)) (previous_shares p) = true \/
      py_ne (VFloat (weighting current)) (previous_weighting p) = true
  end.
Proof.
  unfold changed. destruct previous_data as [p|]; [|done]. apply orb_true_iff.
Qed.

(** C7. Whatever the run does, the history stored for a ticker afterwards is
    the history stored before with at most one record appended: no stored
    record is changed, dropped or moved. *)
Theorem history_append_only (env : environment) (file : option document) (ticker : string) :
  exists suffix : list (list value),
    stored_history (state_file (main env file)) ticker = stored_history file ticker ++ suffix /\
    (length suffix <= 1)%nat /\
    stored_history file ticker `prefix_of` stored_history (state_file (main env file)) ticker /\
    (length (stored_history file ticker)
     <= length (stored_history (state_file (main env file)) ticker))%nat.
Proof.
  assert (exists suffix : list (list value),
            stored_history (state_file (main env file)) ticker
            = stored_history file ticker ++ suffix /\ (length suffix <= 1)%nat)
    as (suffix & Heq & Hlen).
  { destruct (exit_status (main env file)) as [[]|e] eqn:Hexit.
    - destruct (main_ok_inv env file Hexit)
        as (lines & holdings & _ & _ & _ & Hfetch & Hparse & _).
      destruct (main_completed env file lines holdings Hfetch Hparse Hexit)
        as (shares_idx & weight_idx & d' & Hdone).
      destruct (decide (ticker ∈ (fst <$> TARGET_TICKERS))) as [Hin|Hnot].
      + destruct (holdings !! ticker) as [current|] eqn:Hcur.
        * apply list_elem_of_fmap in Hin as ([t c] & -> & Hin). cbn [fst] in *.
          destruct (completed_history _ _ _ _ _ _ t c current Hdone Hin Hcur)
            as (previous_data & _ & _ & Hhist).
          eexists. split; [exact Hhist|]. destruct (changed _ _); simpl; lia.
        * exists []. rewrite app_nil_r. split; [|simpl; lia].
          eapply completed_untracked; [done | by right].
      + exists []. rewrite app_nil_r. split; [|simpl; lia].
        eapply completed_untracked; [done | by left].
    - exists []. rewrite app_nil_r. split; [|simpl; lia].
      by rewrite (main_raise_unchanged env file e Hexit). }
  exists suffix. split_and!; [done | done | by exists suffix |].
  rewrite Heq, length_app. lia.
Qed.

(** The rule of the update, on the decoded record. *)
Lemma history_update_decoded (env : environment) (file : option document)
    (lines : list string) (current_holdings : gmap string holding)
    (ticker company : string) (current : holding) :
  fetch_csv env = Ok lines ->
  parse_csv (clock env) lines = Ok current_holdings ->
  exit_status (main env file) = Ok tt ->
  (ticker, company) ∈ TARGET_TICKERS ->
  current_holdings !! ticker = Some current ->
  exists previous_data : option previous,
    latest file ticker = Ok previous_data /\
    let differs :=
      match previous_data with
      | None => True
      | Some p =>
          py_ne (VInt (shares current)) (previous_shares p) = true \/
          py_ne (VFloat (weighting current)) (previous_weighting p) = true
      end in
    (differs ->
     stored_history (state_file (main env file)) ticker =
     stored_history file ticker ++ [map (holding_get current) (schema file)]) /\
    (~ differs ->
     stored_history (state_file (main env file)) ticker = stored_history file ticker) /\
    (forall p : previous,
       previous_data = Some p ->
       py_ne (VInt (shares current)) (previous_shares p) = false ->
       ~ notified ticker (main env file)).
Proof.
  intros Hfetch Hparse Hexit Hin Hcur.
  destruct (main_completed env file lines current_holdings Hfetch Hparse Hexit)
    as (shares_idx & weight_idx & d' & Hdone).
  destruct (completed_history _ _ _ _ _ _ ticker company current Hdone Hin Hcur)
    as (previous_data & Hlatest & _ & Hhist).
  exists previous_data. split; [done|]. cbv zeta.
  pose proof (changed_spec current previous_data) as Hspec.
  split_and!.
  - intros Hdiff. apply Hspec in Hdiff. by rewrite Hdiff in Hhist.
  - intros Hsame. destruct (changed current previous_data).
    + exfalso. by apply Hsame, Hspec.
    + by rewrite app_nil_r in Hhist.
  - intros p -> Heq Hnot.
    apply (completed_notified _ _ _ _ _ _ ticker company current (Some p) Hdone Hin Hcur Hlatest)
      in Hnot as (e & He & Hnot).
    by eapply (announce_silent env ticker company ticker current (Some p) e).
Qed.

(** What [latest] reads: the cells of the last record of the history, at
    the positions of shares and weighting in the schema. *)
Lemma latest_last (file : option document) (ticker : string)
    (previous_data : option previous) :
  latest file ticker = Ok previous_data ->
  exists shares_idx weight_idx : Z,
    list_index "shares" (schema file) = Ok shares_idx /\
    list_index "weighting" (schema file) = Ok weight_idx /\
    match last (stored_history file ticker) with
    | None => previous_data = None
    | Some record =>
        exists p : previous,
          previous_data = Some p /\
          getitem record shares_idx = Ok (previous_shares p) /\
          getitem record weight_idx = Ok (previous_weighting p)
    end.
Proof.
  unfold latest. intros H.
  apply result_bind_ok in H as (shares_idx & Hs & H).
  apply result_bind_ok in H as (weight_idx & Hw & H).
  exists shares_idx, weight_idx. split_and!; [done | done |].
  unfold decode_previous in H.
  destruct (last (stored_history file ticker)) as [record|]; [|by injection H].
  apply result_bind_ok in H as (d & _ & H).
  apply result_bind_ok in H as (n & Hn & H).
  apply result_bind_ok in H as (w & Hw' & H).
  injection H as <-. by eexists.
Qed.

(** C2, as the code has it. In a run that completes, for a tracked ticker
    found in the table: the previous record is the last record of its
    stored history, read at the positions of shares and weighting in the
    schema. A record is appended to the history exactly when there is no
    previous record, or the share count differs from the stored one, or the
    weighting differs from the stored one; otherwise the history stays as
    it was. The record appended is the current one, laid out by the schema.
    While the share count compares equal (a pure weighting change included)
    nothing is notified. *)
Theorem history_update_rule (env : environment) (file : option document)
    (lines : list string) (current_holdings : gmap string holding)
    (ticker company : string) (current : holding) :
  fetch_csv env = Ok lines ->
  parse_csv (clock env) lines = Ok current_holdings ->
  exit_status (main env file) = Ok tt ->
  (ticker, company) ∈ TARGET_TICKERS ->
  current_holdings !! ticker = Some current ->
  exists shares_idx weight_idx : Z,
    list_index "shares" (schema file) = Ok shares_idx /\
    list_index "weighting" (schema file) = Ok weight_idx /\
    match last (stored_history file ticker) with
    | None =>
        stored_history (state_file (main env file)) ticker =
        stored_history file ticker ++ [map (holding_get current) (schema file)]
    | Some record =>
        exists stored_shares stored_weighting : value,
          getitem record shares_idx = Ok stored_shares /\
          getitem record weight_idx = Ok stored_weighting /\
          let differs :=
            py_ne (VInt (shares current)) stored_shares = true \/
            py_ne (VFloat (weighting current)) stored_weighting = true in
          (differs ->
           stored_history (state_file (main env file)) ticker =
           stored_history file ticker ++ [map (holding_get current) (schema file)]) /\
          (~ differs ->
           stored_history (state_file (main env file)) ticker = stored_history file ticker) /\
          (py_ne (VInt (shares current)) stored_shares = false ->
           ~ notified ticker (main env file))
    end.
Proof.
  intros Hfetch Hparse Hexit Hin Hcur.
  destruct (history_update_decoded env file lines current_holdings ticker company current
              Hfetch Hparse Hexit Hin Hcur)
    as (previous_data & Hlatest & Happend & Hkeep & Hquiet).
  destruct (latest_last file ticker previous_data Hlatest)
    as (shares_idx & weight_idx & Hs & Hw & Hlast).
  exists shares_idx, weight_idx. split_and!; [done | done |].
  destruct (last (stored_history file ticker)) as [record|].
  - destruct Hlast as (p & -> & Hn & Hw').
    exists (previous_shares p), (previous_weighting p). cbv zeta.
    split_and!; [done | done | ..].
    + exact Happend.
    + exact Hkeep.
    + intros Heq. by apply (Hquiet p).
  - subst previous_data. by apply Happend.
Qed.

(** Which channel a notification takes. *)
Lemma send_discord_alert_channel (env : environment) (ticker company : string)
    (current : holding) (previous_data : option previous) :
  Forall (fun e => match e with
                   | Post url _ => url_of (WEBHOOK_URL env) = Some url
                   | Print (NoWebhookWarning _) => url_of (WEBHOOK_URL env) = None
                   | _ => True
                   end)
    (trace (send_discord_alert env ticker company current previous_data)).
Proof.
  unfold send_discord_alert. destruct (url_of (WEBHOOK_URL env)) as [u|].
  2: { by repeat constructor. }
  cbv zeta. apply Forall_trace_bind; [apply Forall_nil_2|]. intros dl _.
  destruct (py_eq dl (VInt 0)); [apply Forall_nil_2|].
  apply Forall_trace_bind; [apply Forall_nil_2|]. intros pc _.
  apply Forall_trace_bind; [apply Forall_nil_2|]. intros pw _.
  apply Forall_trace_bind.
  - rewrite post_trace. destruct (http_post env u _); by repeat constructor.
  - intros r _. destruct (negb (accepted (status_code r))); by repeat constructor.
Qed.

(** After a change of an integer share count, an alert that returns has
    posted to the webhook, or printed the local report when no webhook is
    configured. *)
Lemma send_discord_alert_delivers (env : environment) (ticker company : string)
    (current : holding) (p : previous) (n : Z) :
  previous_shares p = VInt n ->
  shares current <> n ->
  outcome (send_discord_alert env ticker company current (Some p)) = Ok tt ->
  match url_of (WEBHOOK_URL env) with
  | Some url =>
      exists payload,
        Post url payload ∈ trace (send_discord_alert env ticker company current (Some p))
  | None =>
      Print (NoWebhookWarning ticker)
      ∈ trace (send_discord_alert env ticker company current (Some p))
  end.
Proof.
  intros Hp Hne. destruct (url_of (WEBHOOK_URL env)) as [u|] eqn:Hurl.
  2: { intros _. unfold send_discord_alert. rewrite Hurl. apply list_elem_of_here. }
  set (P := fun l : list event => exists payload, Post u payload ∈ l).
  change (outcome (send_discord_alert env ticker company current (Some p)) = Ok tt ->
          P (trace (send_discord_alert env ticker company current (Some p)))).
  unfold send_discord_alert. rewrite Hurl.
  cbv zeta. rewrite Hp. unfold py_sub.
  rewrite outcome_bind, trace_bind. unfold lift. cbn [trace outcome app].
  assert (py_eq (VInt (shares current - n)) (VInt 0) = false) as ->.
  { unfold py_eq, py_ne. destruct (Z.eqb_spec (shares current - n) 0); [lia | done]. }
  cbv beta iota. rewrite outcome_bind, trace_bind. unfold lift. cbn [trace outcome app].
  destruct (if py_ne _ _ then _ else _) as [pc|]; [|done].
  rewrite outcome_bind, trace_bind. unfold lift. cbn [trace outcome app].
  destruct (py_mul100 (previous_weighting p) ≫= _) as [pw|]; [|done].
  rewrite outcome_bind, trace_bind, post_trace, post_outcome.
  destruct (http_post env u _) as [r|] eqn:Hpost; [|done].
  intros _. eexists. apply list_elem_of_here.
Qed.

(** The notifying events of [announce] are those of the alert it sends. *)
Lemma announce_notification (env : environment) (ticker company other : string)
    (current : holding) (previous_data : option previous) (e : event) :
  notifies other e ->
  e ∈ trace (announce env ticker company current previous_data) ->
  e ∈ trace (send_discord_alert env ticker company current previous_data).
Proof.
  intros Hnot. unfold announce. destruct previous_data as [p|].
  - destruct (py_ne _ _).
    + rewrite trace_bind. unfold print. cbn [trace outcome app].
      intros Hin. by apply elem_of_cons in Hin as [->|Hin].
    + cbn [mret action_ret trace]. intros Hin. by apply elem_of_nil in Hin.
  - unfold print. cbn [trace]. intros Hin.
    apply elem_of_cons in Hin as [->|Hin]; [done | by apply elem_of_nil in Hin].
Qed.

Lemma announce_sends (env : environment) (ticker company : string)
    (current : holding) (p : previous) (e : event) :
  py_ne (VInt (shares current)) (previous_shares p) = true ->
  e ∈ trace (send_discord_alert env ticker company current (Some p)) ->
  e ∈ trace (announce env ticker company current (Some p)).
Proof.
  intros Hne Hin. unfold announce. rewrite Hne, trace_bind.
  unfold print. cbn [trace outcome app]. by apply list_elem_of_further.
Qed.

Lemma announce_outcome_sends (env : environment) (ticker company : string)
    (current : holding) (p : previous) :
  py_ne (VInt (shares current)) (previous_shares p) = true ->
  outcome (announce env ticker company current (Some p))
  = outcome (send_discord_alert env ticker company current (Some p)).
Proof. intros Hne. unfold announce. by rewrite Hne, outcome_bind. Qed.

(** In a completed run, the events that notify a ticker are those that
    [announce] emitted for it. *)
Lemma completed_event (env : environment) (file : option document)
    (current_holdings : gmap string holding) (shares_idx weight_idx : Z)
    (d' : gmap string (list (list value))) (ticker company : string) (current : holding)
    (previous_data : option previous) (e : event) :
  completed env file current_holdings shares_idx weight_idx d' ->
  (ticker, company) ∈ TARGET_TICKERS ->
  current_holdings !! ticker = Some current ->
  latest file ticker = Ok previous_data ->
  notifies ticker e ->
  e ∈ output (main env file) <->
  e ∈ trace (announce env ticker company current previous_data).
Proof.
  intros Hdone Hin Hcur Hlatest Hnot.
  rewrite (latest_completed _ _ _ _ _ _ ticker Hdone) in Hlatest.
  destruct Hdone as [_ _ _ _ Hout]. rewrite Hout.
  assert (trace (process_ticker env (schema file) shares_idx weight_idx current_holdings
                   (default ∅ (data (load_state file))) (ticker, company))
          = trace (announce env ticker company current previous_data)) as Htrace
    by (by rewrite process_ticker_trace, Hcur, Hlatest).
  split.
  - intros He.
    apply elem_of_app in He as [He|He].
    { repeat (apply elem_of_cons in He as [->|He]; [done|]). by apply elem_of_nil in He. }
    apply elem_of_app in He as [He|He].
    2: { apply elem_of_cons in He as [->|He]; [done | by apply elem_of_nil in He]. }
    apply elem_of_concat_map in He as ([t c] & Htc & He).
    pose proof (process_ticker_own _ _ _ _ _ _ _ _ _ _ He Hnot) as ->.
    rewrite (targets_functional t c company Htc Hin) in He.
    by rewrite <- Htrace.
  - intros He. apply elem_of_app. right. apply elem_of_app. left.
    apply elem_of_concat_map. exists (ticker, company). by rewrite Htrace.
Qed.

(** The rule of the notification, on the decoded record. *)
Lemma notification_decoded (env : environment) (file : option document)
    (lines : list string) (current_holdings : gmap string holding)
    (ticker company : string) (current : holding) :
  fetch_csv env = Ok lines ->
  parse_csv (clock env) lines = Ok current_holdings ->
  exit_status (main env file) = Ok tt ->
  (ticker, company) ∈ TARGET_TICKERS ->
  current_holdings !! ticker = Some current ->
  exists previous_data : option previous,
    latest file ticker = Ok previous_data /\
    match previous_data with
    | None => ~ notified ticker (main env file)
    | Some p =>
        forall n : Z,
          previous_shares p = VInt n ->
          (notified ticker (main env file) <-> shares current <> n) /\
          ((exists (url : string) (payload : alert),
              Post url payload ∈ output (main env file) /\ alert_ticker payload = ticker) <->
           (shares current <> n /\ is_Some (url_of (WEBHOOK_URL env)))) /\
          (Print (NoWebhookWarning ticker) ∈ output (main env file) <->
           (shares current <> n /\ url_of (WEBHOOK_URL env) = None)) /\
          forall (url : string) (payload : alert),
            Post url payload ∈ output (main env file) ->
            alert_ticker payload = ticker ->
            current_shares payload = shares current /\
            prev_shares payload = VInt n /\
            delta payload = VInt (shares current - n) /\
            ((n = 0 /\ percent_change payload = VInt 0) \/
             (n <> 0 /\
              exists q : float,
                int_truediv (shares current - n) n = Ok q /\
                percent_change payload = VFloat q))
    end.
Proof.
  intros Hfetch Hparse Hexit Hin Hcur.
  destruct (main_completed env file lines current_holdings Hfetch Hparse Hexit)
    as (shares_idx & weight_idx & d' & Hdone).
  destruct (completed_history _ _ _ _ _ _ ticker company current Hdone Hin Hcur)
    as (previous_data & Hlatest & Hann & _).
  exists previous_data. split; [done|].
  pose proof (fun e => completed_event _ _ _ _ _ _ ticker company current previous_data e
                         Hdone Hin Hcur Hlatest) as Hevent.
  destruct previous_data as [p|].
  2: { intros (e & He & Hnot). apply (Hevent e Hnot) in He.
       by eapply (announce_silent env ticker company ticker current None e). }
  intros n Hp.
  assert (forall e, notifies ticker e -> e ∈ output (main env file) -> shares current <> n)
    as Hdiffers.
  { intros e Hnot He Heq. apply (Hevent e Hnot) in He.
    eapply (announce_silent env ticker company ticker current (Some p) e); [|done..].
    rewrite Hp, Heq. unfold py_ne. by rewrite Z.eqb_refl. }
  assert (shares current <> n ->
          py_ne (VInt (shares current)) (previous_shares p) = true) as Hne_true.
  { intros Hne. rewrite Hp. unfold py_ne. by destruct (Z.eqb_spec (shares current) n). }
  assert (shares current <> n ->
          match url_of (WEBHOOK_URL env) with
          | Some url => exists payload,
              Post url payload ∈ output (main env file) /\ alert_ticker payload = ticker
          | None => Print (NoWebhookWarning ticker) ∈ output (main env file)
          end) as Hdelivers.
  { intros Hne. pose proof (Hne_true Hne) as Hpy.
    rewrite (announce_outcome_sends env ticker company current p Hpy) in Hann.
    pose proof (send_discord_alert_delivers env ticker company current p n Hp Hne Hann)
      as Hsent.
    destruct (url_of (WEBHOOK_URL env)) as [u|].
    - destruct Hsent as (payload & Hsent).
      pose proof (send_discord_alert_posts _ _ _ _ _ _ _ Hsent) as (Ht & _).
      exists payload. split; [|done].
      apply Hevent; [done|]. by apply announce_sends.
    - apply Hevent; [done|]. by apply announce_sends. }
  assert (forall e, notifies ticker e -> e ∈ output (main env file) ->
                    match e with
                    | Post url _ => url_of (WEBHOOK_URL env) = Some url
                    | Print (NoWebhookWarning _) => url_of (WEBHOOK_URL env) = None
                    | _ => True
                    end) as Hchannel.
  { intros e Hnot He. apply (Hevent e Hnot) in He.
    apply (announce_notification env ticker company ticker current (Some p) e Hnot) in He.
    pose proof (send_discord_alert_channel env ticker company current (Some p)) as Hall.
    rewrite Forall_forall in Hall. by apply Hall. }
  split_and!.
  - split.
    + intros (e & He & Hnot). by apply (Hdiffers e).
    + intros Hne. specialize (Hdelivers Hne).
      destruct (url_of (WEBHOOK_URL env)) as [u|].
      * destruct Hdelivers as (payload & He & Ht). by exists (Post u payload).
      * by exists (Print (NoWebhookWarning ticker)).
  - split.
    + intros (url & payload & He & Ht). split.
      * by apply (Hdiffers (Post url payload)).
      * exists url. by apply (Hchannel (Post url payload)).
    + intros [Hne [u Hu]]. specialize (Hdelivers Hne). rewrite Hu in Hdelivers.
      destruct Hdelivers as (payload & He & Ht). by exists u, payload.
  - split.
    + intros He. split.
      * by apply (Hdiffers (Print (NoWebhookWarning ticker))).
      * by apply (Hchannel (Print (NoWebhookWarning ticker))).
    + intros [Hne Hu]. specialize (Hdelivers Hne). by rewrite Hu in Hdelivers.
  - intros url payload Hpost Hticker.
    assert (notifies ticker (Post url payload)) as Hnot by done.
    apply (Hevent _ Hnot) in Hpost.
    apply (announce_notification env ticker company ticker current (Some p) _ Hnot) in Hpost.
    apply send_discord_alert_posts in Hpost as (_ & Hc & Hprev & Hdelta & Hpercent).
    rewrite Hp in Hprev. rewrite Hprev in Hdelta, Hpercent.
    unfold py_sub in Hdelta. injection Hdelta as Hdelta. rewrite <- Hdelta in Hpercent.
    split_and!; [done | done | done |].
    unfold py_ne, py_truediv in Hpercent.
    destruct (Z.eqb_spec n 0) as [->|Hn]; cbn [negb] in Hpercent.
    + left. split; [done|]. by injection Hpercent.
    + right. split; [done|].
      destruct (int_truediv (shares current - n) n) as [q|]; [|done].
      exists q. split; [done|]. by injection Hpercent.
Qed.

(** C1, as the code has it. In a run that completes, for a tracked ticker
    found in the table: the previous record is the last record of its
    stored history, and its share count the cell at the position of shares
    in the schema. With no previous record nothing is notified; with a
    previous share count that is the integer [n], a notification is emitted
    exactly when the current share count differs from [n]. The notification
    is the alert posted to the webhook when one is configured, and the
    local report that replaces it otherwise. Every alert posted for the
    ticker carries the difference and, as percent change, the integer 0
    when [n] is 0 and otherwise the float quotient of the difference by
    [n]. *)
Theorem notification_rule (env : environment) (file : option document)
    (lines : list string) (current_holdings : gmap string holding)
    (ticker company : string) (current : holding) :
  fetch_csv env = Ok lines ->
  parse_csv (clock env) lines = Ok current_holdings ->
  exit_status (main env file) = Ok tt ->
  (ticker, company) ∈ TARGET_TICKERS ->
  current_holdings !! ticker = Some current ->
  exists shares_idx : Z,
    list_index "shares" (schema file) = Ok shares_idx /\
    match last (stored_history file ticker) with
    | None => ~ notified ticker (main env file)
    | Some record =>
        exists stored_shares : value,
          getitem record shares_idx = Ok stored_shares /\
          forall n : Z,
            stored_shares = VInt n ->
            (notified ticker (main env file) <-> shares current <> n) /\
            ((exists (url : string) (payload : alert),
                Post url payload ∈ output (main env file) /\ alert_ticker payload = ticker) <->
             (shares current <> n /\ is_Some (url_of (WEBHOOK_URL env)))) /\
            (Print (NoWebhookWarning ticker) ∈ output (main env file) <->
             (shares current <> n /\ url_of (WEBHOOK_URL env) = None)) /\
            forall (url : string) (payload : alert),
              Post url payload ∈ output (main env file) ->
              alert_ticker payload = ticker ->
              current_shares payload = shares current /\
              prev_shares payload = VInt n /\
              delta payload = VInt (shares current - n) /\
              ((n = 0 /\ percent_change payload = VInt 0) \/
               (n <> 0 /\
                exists q : float,
                  int_truediv (shares current - n) n = Ok q /\
                  percent_change payload = VFloat q))
    end.
Proof.
  intros Hfetch Hparse Hexit Hin Hcur.
  destruct (notification_decoded env file lines current_holdings ticker company current
              Hfetch Hparse Hexit Hin Hcur)
    as (previous_data & Hlatest & Hrule).
  destruct (latest_last file ticker previous_data Hlatest)
    as (shares_idx & weight_idx & Hs & _ & Hlast).
  exists shares_idx. split; [done|].
  destruct (last (stored_history file ticker)) as [record|].
  - destruct Hlast as (p & -> & Hn & _).
    exists (previous_shares p). split; [done|]. exact Hrule.
  - by subst previous_data.
Qed.

Lemma notification_rule_witness :
  notified "MAPS" (main (sample_env shares_changed_csv sample_webhook 204) two_records_file) /\
  forall (url : string) (payload : alert),
    Post url payload
    ∈ output (main (sample_env shares_changed_csv sample_webhook 204) two_records_file) ->
    alert_ticker payload = "MAPS" ->
    prev_shares payload = VInt 1000000 /\
    delta payload = VInt 200000 /\
    percent_change payload = VFloat (S754_finite false 7205759403792794 (-55)).
Proof.
  destruct (notification_rule
              (sample_env shares_changed_csv sample_webhook 204) two_records_file
              shares_changed_csv
              (<["MAPS" := sample_holding "2026-11-04" 1200000 "1.20%"]> ∅)
              "MAPS" "WM Technology Inc" (sample_holding "2026-11-04" 1200000 "1.20%"))
    as (shares_idx & Hs & Hrule).
  - vm_compute. reflexivity.
  - vm_compute. reflexivity.
  - vm_compute. reflexivity.
  - apply list_elem_of_here.
  - apply lookup_insert_eq.
  - assert (shares_idx = 1) as -> by (vm_compute in Hs; congruence).
    assert (last (stored_history two_records_file "MAPS")
            = Some (sample_record "2026-11-03" 1000000 "1.00%")) as Hl
      by (vm_compute; reflexivity).
    rewrite Hl in Hrule. destruct Hrule as (stored_shares & Hn & Hrule).
    assert (stored_shares = VInt 1000000) as -> by (vm_compute in Hn; congruence).
    destruct (Hrule 1000000 eq_refl) as (Hiff & _ & _ & Hposts).
    split.
    + apply Hiff. discriminate.
    + intros url payload Hpost Hticker.
      destruct (Hposts url payload Hpost Hticker)
        as (_ & Hprev & Hdelta & [[? _]|(_ & q & Hq & Hpc)]); [done|].
      split_and!; [exact Hprev | exact Hdelta |].
      rewrite Hpc. f_equal.
      assert (int_truediv (shares (sample_holding "2026-11-04" 1200000 "1.20%") - 1000000) 1000000
              = Ok (S754_finite false 7205759403792794 (-55))) as Hq'
        by (vm_compute; reflexivity).
      rewrite Hq' in Hq. by injection Hq.
Defined.

(** C1 fails for a run that does not complete. The webhook cannot be
    reached: the alert for MAPS raises, and the run ends before GRWG is
    looked at. GRWG has a previous record with 400 shares and the feed
    gives 500, yet nothing is notified about it, nor about MAPS, whose
    share count changed as well. *)
Lemma aborted_run_notification_counterexample :
  exit_status (main (unreachable_env both_tickers_csv) both_stored_file)
  = Raise RequestException /\
  parse_csv (clock (unreachable_env both_tickers_csv)) both_tickers_csv
  = Ok (<["GRWG" := sample_holding "2026-11-04" 500 "0.10%"]>
          (<["MAPS" := sample_holding "2026-11-04" 1200000 "1.20%"]> ∅)) /\
  last (stored_history both_stored_file "GRWG") = Some (sample_record "2026-11-03" 400 "0.08%") /\
  getitem (sample_record "2026-11-03" 400 "0.08%") 1 = Ok (VInt 400) /\
  output (main (unreachable_env both_tickers_csv) both_stored_file)
  = [Print FetchingCSV; Print ParsingCSV; Print LoadingState;
     Print (DetectedChange "MAPS" (VInt 1000000) 1200000)] /\
  ~ notified "GRWG" (main (unreachable_env both_tickers_csv) both_stored_file) /\
  ~ notified "MAPS" (main (unreachable_env both_tickers_csv) both_stored_file).
Proof.
  assert (output (main (unreachable_env both_tickers_csv) both_stored_file)
          = [Print FetchingCSV; Print ParsingCSV; Print LoadingState;
             Print (DetectedChange "MAPS" (VInt 1000000) 1200000)]) as Hout
    by (vm_compute; reflexivity).
  split_and!; try (vm_compute; reflexivity).
  - intros (e & He & Hnot). rewrite Hout in He.
    repeat (apply elem_of_cons in He as [->|He]; [done|]). by apply elem_of_nil in He.
  - intros (e & He & Hnot). rewrite Hout in He.
    repeat (apply elem_of_cons in He as [->|He]; [done|]). by apply elem_of_nil in He.
Qed.

Lemma history_update_rule_witness :
  stored_history
    (state_file (main (sample_env weighting_changed_csv sample_webhook 204) two_records_file))
    "MAPS"
  = [sample_record "2026-11-02" 900000 "0.90%"; sample_record "2026-11-03" 1000000 "1.00%";
     sample_record "2026-11-04" 1000000 "1.20%"] /\
  ~ notified "MAPS" (main (sample_env weighting_changed_csv sample_webhook 204) two_records_file).
Proof.
  destruct (history_update_rule
              (sample_env weighting_changed_csv sample_webhook 204) two_records_file
              weighting_changed_csv
              (<["MAPS" := sample_holding "2026-11-04" 1000000 "1.20%"]> ∅)
              "MAPS" "WM Technology Inc" (sample_holding "2026-11-04" 1000000 "1.20%"))
    as (shares_idx & weight_idx & Hs & Hw & Hrule).
  - vm_compute. reflexivity.
  - vm_compute. reflexivity.
  - vm_compute. reflexivity.
  - apply list_elem_of_here.
  - apply lookup_insert_eq.
  - assert (shares_idx = 1) as -> by (vm_compute in Hs; congruence).
    assert (weight_idx = 2) as -> by (vm_compute in Hw; congruence).
    assert (last (stored_history two_records_file "MAPS")
            = Some (sample_record "2026-11-03" 1000000 "1.00%")) as Hl
      by (vm_compute; reflexivity).
    rewrite Hl in Hrule.
    destruct Hrule as (stored_shares & stored_weighting & Hn & Hw' & Happend & _ & Hquiet).
    assert (stored_shares = VInt 1000000) as -> by (vm_compute in Hn; congruence).
    assert (stored_weighting = VFloat (weighting_of_field "1.00%")) as ->
      by (vm_compute in Hw'; vm_compute; congruence).
    split.
    + rewrite Happend.
      * vm_compute. reflexivity.
      * right. vm_compute. reflexivity.
    + apply Hquiet. vm_compute. reflexivity.
Defined.

(** C2 fails for a run that does not complete. The webhook cannot be
    reached: the alert for MAPS raises and the run ends before the state is
    saved. MAPS is in the table with a share count that differs from its
    previous record, and GRWG is in the table with no previous record, yet
    no record is appended to either history. *)
Lemma aborted_run_history_counterexample :
  exit_status (main (unreachable_env both_tickers_csv) sample_file) = Raise RequestException /\
  parse_csv (clock (unreachable_env both_tickers_csv)) both_tickers_csv
  = Ok (<["GRWG" := sample_holding "2026-11-04" 500 "0.10%"]>
          (<["MAPS" := sample_holding "2026-11-04" 1200000 "1.20%"]> ∅)) /\
  last (stored_history sample_file "MAPS") = Some (sample_record "2026-11-03" 1000000 "1.00%") /\
  py_ne (VInt 1200000) (VInt 1000000) = true /\
  stored_history (state_file (main (unreachable_env both_tickers_csv) sample_file)) "MAPS"
  = stored_history sample_file "MAPS" /\
  last (stored_history sample_file "GRWG") = None /\
  stored_history (state_file (main (unreachable_env both_tickers_csv) sample_file)) "GRWG" = [].
Proof.
  split_and!; vm_compute; reflexivity.
Qed.

(** ** Rejected deliveries *)

Lemma without_delivery_logs_app (l1 l2 : list event) :
  without_delivery_logs (l1 ++ l2) = without_delivery_logs l1 ++ without_delivery_logs l2.
Proof. apply List.filter_app. Qed.

Lemma send_discord_alert_status (env1 env2 : environment) (ticker company : string)
    (current : holding) (previous_data : option previous) :
  same_but_post env1 env2 -> answers env1 -> answers env2 ->
  outcome (send_discord_alert env1 ticker company current previous_data)
  = outcome (send_discord_alert env2 ticker company current previous_data) /\
  without_delivery_logs (trace (send_discord_alert env1 ticker company current previous_data))
  = without_delivery_logs (trace (send_discord_alert env2 ticker company current previous_data)).
Proof.
  intros (_ & Hurl & _) Hans1 Hans2. unfold send_discord_alert. rewrite Hurl.
  destruct (url_of (WEBHOOK_URL env2)) as [u|]; [|done].
  cbv zeta. rewrite !outcome_bind, !trace_bind. unfold lift. cbn [trace outcome app].
  destruct (py_sub _ _) as [dl|]; [|done].
  destruct (py_eq dl (VInt 0)); [done|].
  rewrite !outcome_bind, !trace_bind. cbn [trace outcome app].
  destruct (if py_ne _ _ then _ else _) as [pc|]; [|done].
  rewrite !outcome_bind, !trace_bind. cbn [trace outcome app].
  destruct (match previous_data with Some p => _ | None => Ok None end) as [pw|]; [|done].
  rewrite !outcome_bind, !trace_bind, !post_trace, !post_outcome.
  match goal with
  | |- context [http_post env1 u ?payload] =>
      destruct (Hans1 u payload) as [r1 ->]; destruct (Hans2 u payload) as [r2 ->]
  end.
  rewrite !without_delivery_logs_app.
  destruct (negb (accepted (status_code r1))), (negb (accepted (status_code r2))); done.
Qed.

Lemma announce_status (env1 env2 : environment) (ticker company : string)
    (current : holding) (previous_data : option previous) :
  same_but_post env1 env2 -> answers env1 -> answers env2 ->
  outcome (announce env1 ticker company current previous_data)
  = outcome (announce env2 ticker company current previous_data) /\
  without_delivery_logs (trace (announce env1 ticker company current previous_data))
  = without_delivery_logs (trace (announce env2 ticker company current previous_data)).
Proof.
  intros Hsame Hans1 Hans2. unfold announce.
  destruct previous_data as [p|]; [|done].
  destruct (py_ne _ _); [|done].
  rewrite !outcome_bind, !trace_bind. unfold print. cbn [trace outcome].
  rewrite !without_delivery_logs_app.
  destruct (send_discord_alert_status env1 env2 ticker company current (Some p)
              Hsame Hans1 Hans2) as [-> ->].
  done.
Qed.

Lemma process_ticker_status (env1 env2 : environment) (fs : list string)
    (shares_idx weight_idx : Z) (current_holdings : gmap string holding)
    (d : gmap string (list (list value))) (target : string * string) :
  same_but_post env1 env2 -> answers env1 -> answers env2 ->
  outcome (process_ticker env1 fs shares_idx weight_idx current_holdings d target)
  = outcome (process_ticker env2 fs shares_idx weight_idx current_holdings d target) /\
  without_delivery_logs
    (trace (process_ticker env1 fs shares_idx weight_idx current_holdings d target))
  = without_delivery_logs
    (trace (process_ticker env2 fs shares_idx weight_idx current_holdings d target)).
Proof.
  intros Hsame Hans1 Hans2. destruct target as [ticker company].
  rewrite !process_ticker_outcome, !process_ticker_trace.
  destruct (current_holdings !! ticker) as [current|]; [|done].
  destruct (decode_previous _ _ _ _) as [previous_data|]; [|done].
  by destruct (announce_status env1 env2 ticker company current previous_data
                 Hsame Hans1 Hans2) as [-> ->].
Qed.

Lemma for_each_status (env1 env2 : environment) (fs : list string)
    (shares_idx weight_idx : Z) (current_holdings : gmap string holding)
    (targets : list (string * string)) (d : gmap string (list (list value))) :
  same_but_post env1 env2 -> answers env1 -> answers env2 ->
  outcome (for_each (process_ticker env1 fs shares_idx weight_idx current_holdings) d targets)
  = outcome (for_each (process_ticker env2 fs shares_idx weight_idx current_holdings) d targets) /\
  without_delivery_logs
    (trace (for_each (process_ticker env1 fs shares_idx weight_idx current_holdings) d targets))
  = without_delivery_logs
    (trace (for_each (process_ticker env2 fs shares_idx weight_idx current_holdings) d targets)).
Proof.
  intros Hsame Hans1 Hans2. revert d.
  induction targets as [|target targets IH]; intros d; [done|].
  rewrite !for_each_cons, !outcome_bind, !trace_bind, !without_delivery_logs_app.
  destruct (process_ticker_status env1 env2 fs shares_idx weight_idx current_holdings d target
              Hsame Hans1 Hans2) as [-> ->].
  destruct (outcome (process_ticker env2 _ _ _ _ _ _)) as [dm|]; [|done].
  by destruct (IH dm) as [-> ->].
Qed.

(** The status the webhook answers with changes the log lines of a run and
    nothing else. *)
Lemma main_status (env1 env2 : environment) (file : option document) :
  same_but_post env1 env2 -> answers env1 -> answers env2 ->
  exit_status (main env1 file) = exit_status (main env2 file) /\
  state_file (main env1 file) = state_file (main env2 file) /\
  without_delivery_logs (output (main env1 file))
  = without_delivery_logs (output (main env2 file)).
Proof.
  intros Hsame Hans1 Hans2.
  assert (outcome (main_body env1 file) = outcome (main_body env2 file) /\
          without_delivery_logs (trace (main_body env1 file))
          = without_delivery_logs (trace (main_body env2 file))) as [Hout Htr].
  { destruct Hsame as (Hclock & Hurl & Hget).
    unfold main_body, fetch_csv. rewrite Hclock, Hget.
    rewrite !outcome_bind, !trace_bind. unfold print, lift. cbn [trace outcome app].
    destruct (http_get env2 ≫= _) as [lines|]; [|done].
    rewrite ?outcome_bind, ?trace_bind. cbn [trace outcome app].
    rewrite ?outcome_bind, ?trace_bind. cbn [trace outcome app].
    destruct (parse_csv (clock env2) lines) as [current_holdings|]; [|done].
    rewrite ?outcome_bind, ?trace_bind. cbn [trace outcome app].
    rewrite ?outcome_bind, ?trace_bind. cbn [trace outcome app].
    destruct (list_index "shares" _) as [shares_idx|]; [|done].
    rewrite ?outcome_bind, ?trace_bind. cbn [trace outcome app].
    destruct (list_index "weighting" _) as [weight_idx|]; [|done].
    rewrite !outcome_bind, !trace_bind.
    destruct (for_each_status env1 env2 (default default_fields (fields (load_state file)))
                shares_idx weight_idx current_holdings
                TARGET_TICKERS (default ∅ (data (load_state file)))
                (conj Hclock (conj Hurl Hget)) Hans1 Hans2) as [Hloop Hlog].
    rewrite Hloop.
    change (without_delivery_logs (?a :: ?b :: ?c :: ?l))
      with (a :: b :: c :: without_delivery_logs l).
    rewrite !without_delivery_logs_app, Hlog. done. }
  unfold main. rewrite Hout.
  destruct (outcome (main_body env2 file)) as [state|e]; cbn [exit_status state_file output].
  - split_and!; [done | done |]. by rewrite !without_delivery_logs_app, Htr.
  - done.
Qed.

Lemma send_discord_alert_justified (env : environment) (ticker company : string)
    (current : holding) (previous_data : option previous) :
  Forall (justified env) (trace (send_discord_alert env ticker company current previous_data)).
Proof.
  unfold send_discord_alert. destruct (url_of (WEBHOOK_URL env)) as [u|].
  2: { by repeat constructor. }
  cbv zeta. apply Forall_trace_bind; [apply Forall_nil_2|]. intros dl _.
  destruct (py_eq dl (VInt 0)); [apply Forall_nil_2|].
  apply Forall_trace_bind; [apply Forall_nil_2|]. intros pc _.
  apply Forall_trace_bind; [apply Forall_nil_2|]. intros pw _.
  apply Forall_trace_bind.
  - rewrite post_trace. destruct (http_post env u _); by repeat constructor.
  - intros [status body]. rewrite post_outcome. intros Hpost. cbn [status_code text].
    destruct (accepted status) eqn:Hacc; cbn [negb]; [apply Forall_nil_2|].
    apply Forall_cons. split; [|apply Forall_nil_2].
    simpl. eexists _, _. split; [exact Hpost | done].
Qed.

Lemma announce_justified (env : environment) (ticker company : string)
    (current : holding) (previous_data : option previous) :
  Forall (justified env) (trace (announce env ticker company current previous_data)).
Proof.
  unfold announce. destruct previous_data as [p|]; [|by repeat constructor].
  destruct (py_ne _ _); [|apply Forall_nil_2].
  apply Forall_trace_bind; [by repeat constructor|]. intros _ _.
  apply send_discord_alert_justified.
Qed.

Lemma process_ticker_justified (env : environment) (fs : list string)
    (shares_idx weight_idx : Z) (current_holdings : gmap string holding)
    (d : gmap string (list (list value))) (target : string * string) :
  Forall (justified env)
    (trace (process_ticker env fs shares_idx weight_idx current_holdings d target)).
Proof.
  destruct target as [ticker company]. rewrite process_ticker_trace.
  destruct (current_holdings !! ticker) as [current|]; [|by repeat constructor].
  destruct (decode_previous _ _ _ _) as [previous_data|]; [|apply Forall_nil_2].
  apply announce_justified.
Qed.

Lemma for_each_justified (env : environment) (fs : list string)
    (shares_idx weight_idx : Z) (current_holdings : gmap string holding)
    (targets : list (string * string)) (d : gmap string (list (list value))) :
  Forall (justified env)
    (trace (for_each (process_ticker env fs shares_idx weight_idx current_holdings) d targets)).
Proof.
  revert d. induction targets as [|target targets IH]; intros d; [apply Forall_nil_2|].
  rewrite for_each_cons. apply Forall_trace_bind; [apply process_ticker_justified|].
  intros dm _. apply IH.
Qed.

Lemma main_justified (env : environment) (file : option document) :
  Forall (justified env) (output (main env file)).
Proof.
  assert (Forall (justified env) (trace (main_body env file))) as Hbody.
  { unfold main_body.
    apply Forall_trace_bind; [by repeat constructor|]. intros _ _.
    apply Forall_trace_bind; [apply Forall_nil_2|]. intros lines _.
    apply Forall_trace_bind; [by repeat constructor|]. intros _ _.
    apply Forall_trace_bind; [apply Forall_nil_2|]. intros current_holdings _.
    apply Forall_trace_bind; [by repeat constructor|]. intros _ _.
    apply Forall_trace_bind; [apply Forall_nil_2|]. intros shares_idx _.
    apply Forall_trace_bind; [apply Forall_nil_2|]. intros weight_idx _.
    apply Forall_trace_bind; [apply for_each_justified|]. intros d' _.
    apply Forall_nil_2. }
  unfold main. destruct (outcome (main_body env file)); cbn [output]; [|done].
  apply Forall_app. split; [done | by repeat constructor].
Qed.

Lemma delivering_no_logs (env : environment) (l : list event) :
  Forall (justified (delivering env)) l -> without_delivery_logs l = l.
Proof.
  induction 1 as [|e l He _ IH]; [done|].
  unfold without_delivery_logs in *. cbn [List.filter]. rewrite IH.
  destruct e as [m|]; [|done]. destruct m; try done.
  destruct He as (url & payload & Hpost & Hacc). simpl in Hpost.
  injection Hpost as <- _. discriminate.
Qed.

(** C8, as the code has it. When the webhook answers every alert, whatever
    the status it answers with, the run ends as the run in which every
    delivery is accepted: same exit status, same state file, and the same
    output but for the log lines about failed deliveries, each of which
    reports a status that the webhook answered and that is not accepted. *)
Theorem rejected_delivery_isolated (env : environment) (file : option document) :
  answers env ->
  exit_status (main env file) = exit_status (main (delivering env) file) /\
  state_file (main env file) = state_file (main (delivering env) file) /\
  without_delivery_logs (output (main env file)) = output (main (delivering env) file) /\
  Forall (justified env) (output (main env file)).
Proof.
  intros Hans.
  destruct (main_status env (delivering env) file) as (Hexit & Hstate & Hout).
  - done.
  - done.
  - intros url payload. by eexists.
  - split_and!; [done | done | | apply main_justified].
    rewrite Hout. apply (delivering_no_logs env), main_justified.
Qed.

Lemma rejected_delivery_isolated_witness :
  exit_status (main (sample_env both_tickers_csv sample_webhook 500) sample_file) = Ok tt /\
  stored_history
    (state_file (main (sample_env both_tickers_csv sample_webhook 500) sample_file)) "GRWG"
  = [sample_record "2026-11-04" 500 "0.10%"] /\
  Print (FailedToSendWebhook 500 "")
  ∈ output (main (sample_env both_tickers_csv sample_webhook 500) sample_file).
Proof.
  destruct (rejected_delivery_isolated
              (sample_env both_tickers_csv sample_webhook 500) sample_file)
    as (Hexit & Hstate & _ & _).
  - intros url payload. by eexists.
  - rewrite Hexit, Hstate. split_and!.
    + vm_compute. reflexivity.
    + vm_compute. reflexivity.
    + apply list_elem_of_In. vm_compute. tauto.
Defined.

(** C8 fails for a delivery that fails because the webhook cannot be
    reached: [requests.post] raises, nothing catches the exception, and the
    run ends there with the state file unchanged, so the first record of
    GRWG, which the same run with a webhook that answers stores, is not
    saved. *)
Lemma unreachable_webhook_counterexample :
  exit_status (main (unreachable_env both_tickers_csv) sample_file) = Raise RequestException /\
  state_file (main (unreachable_env both_tickers_csv) sample_file) = sample_file /\
  stored_history (state_file (main (unreachable_env both_tickers_csv) sample_file)) "GRWG" = [] /\
  stored_history
    (state_file (main (delivering (unreachable_env both_tickers_csv)) sample_file)) "GRWG"
  = [sample_record "2026-11-04" 500 "0.10%"].
Proof.
  split_and!; vm_compute; reflexivity.
Qed.

(** ** Running twice on the same input *)

Lemma feqb_refl (w : float) : is_nan w = false -> feqb w w = true.
Proof.
  unfold feqb, SFeqb. destruct w as [s|s| |s m e]; simpl; try done.
  - by destruct s.
  - intros _. rewrite Z.compare_refl, Pos.compare_cont_refl. by destruct s.
Qed.

Lemma index_from_lookup (x : string) (l : list string) (i0 i : Z) :
  index_from x i0 l = Ok i -> l !! Z.to_nat (i - i0) = Some x.
Proof.
  revert i0. induction l as [|y l IH]; intros i0; simpl; [discriminate|].
  destruct (String.eqb_spec y x) as [->|Hne].
  - intros [= <-]. by rewrite Z.sub_diag.
  - intros Hi. pose proof (index_from_bounds _ _ _ _ Hi) as Hb.
    apply IH in Hi. replace (Z.to_nat (i - i0)) with (S (Z.to_nat (i - (i0 + 1)))) by lia.
    exact Hi.
Qed.

(** Reading a record back at the index of a field gives the field. *)
Lemma getitem_record (current : holding) (fs : list string) (field : string) (i : Z) :
  list_index field fs = Ok i ->
  getitem (map (holding_get current) fs) i = Ok (holding_get current field).
Proof.
  unfold list_index. intros Hi. pose proof (index_from_bounds _ _ _ _ Hi) as Hb.
  apply index_from_lookup in Hi. rewrite Z.sub_0_r in Hi.
  destruct (getitem_in_range (map (holding_get current) fs) i) as (v & -> & Hv).
  { unfold len in *. rewrite length_map. lia. }
  rewrite list_lookup_fmap, Hi in Hv. by injection Hv as <-.
Qed.

Lemma decode_previous_appended (current : holding) (fs : list string)
    (shares_idx weight_idx : Z) (history : list (list value)) :
  list_index "shares" fs = Ok shares_idx ->
  list_index "weighting" fs = Ok weight_idx ->
  exists d : value,
    decode_previous fs shares_idx weight_idx (history ++ [map (holding_get current) fs])
    = Ok (Some {| previous_date := d;
                  previous_shares := VInt (shares current);
                  previous_weighting := VFloat (weighting current) |}).
Proof.
  intros Hs Hw. unfold decode_previous. rewrite last_snoc.
  rewrite (getitem_record current fs "shares" shares_idx Hs).
  rewrite (getitem_record current fs "weighting" weight_idx Hw).
  destruct (contains "date" fs) eqn:Hdate.
  - destruct (index_from_found "date" fs 0 Hdate) as (i & Hi & _).
    unfold list_index at 1. rewrite Hi, bind_Ok.
    rewrite (getitem_record current fs "date" i Hi). by eexists.
  - by eexists.
Qed.

(** *** The parse does not depend on the clock, but for the dates *)

Lemma same_quantities_insert (h1 h2 : gmap string holding) (ticker : string) (a b : holding) :
  same_quantities h1 h2 ->
  shares a = shares b -> weighting a = weighting b ->
  same_quantities (<[ticker := a]> h1) (<[ticker := b]> h2).
Proof.
  intros Hsame Hs Hw t. destruct (decide (ticker = t)) as [->|Hne].
  - by rewrite !lookup_insert_eq.
  - rewrite !lookup_insert_ne by done. apply Hsame.
Qed.

Lemma parse_date_clock (dt1 dt2 : datetime_lib) (cs : columns) (cols : list string) (d1 : string) :
  parse_date dt1 cs cols = Ok d1 -> exists d2, parse_date dt2 cs cols = Ok d2.
Proof.
  unfold parse_date. intros H.
  apply result_bind_ok in H as (present & Hpresent & H).
  apply result_bind_ok in H as (date_str & Hstr & _).
  rewrite Hpresent, bind_Ok. destruct present.
  - rewrite Hstr, bind_Ok. by eexists.
  - rewrite bind_Ok. by eexists.
Qed.

Lemma parse_line_clock (dt1 dt2 : datetime_lib) (cs : columns)
    (h1 h2 h1' : gmap string holding) (line : string) :
  same_quantities h1 h2 ->
  parse_line dt1 cs h1 line = Ok h1' ->
  exists h2', parse_line dt2 cs h2 line = Ok h2' /\ same_quantities h1' h2'.
Proof.
  intros Hsame. unfold parse_line.
  destruct (negb (truthy (strip line))). { intros [= <-]. by exists h2. }
  destruct (len (csv_cols line) <=? ticker_col cs). { intros [= <-]. by exists h2. }
  destruct (getitem (csv_cols line) (ticker_col cs)) as [t|]; [|done].
  rewrite !bind_Ok. destruct (is_target (upper t)). 2: { intros [= <-]. by exists h2. }
  intros H. apply result_bind_ok in H as (d1 & Hd1 & H).
  apply result_bind_ok in H as (n & Hn & H).
  apply result_bind_ok in H as (w & Hw & H). injection H as <-.
  destruct (parse_date_clock dt1 dt2 cs (csv_cols line) d1 Hd1) as (d2 & ->).
  rewrite bind_Ok, Hn, bind_Ok, Hw, bind_Ok. eexists. split; [done|].
  by apply same_quantities_insert.
Qed.

Lemma parse_lines_clock (dt1 dt2 : datetime_lib) (cs : columns) (lines : list string)
    (h1 h2 h1' : gmap string holding) :
  same_quantities h1 h2 ->
  parse_lines dt1 cs h1 lines = Ok h1' ->
  exists h2', parse_lines dt2 cs h2 lines = Ok h2' /\ same_quantities h1' h2'.
Proof.
  revert h1 h2. induction lines as [|line rest IH]; intros h1 h2 Hsame; simpl.
  - intros [= <-]. by exists h2.
  - intros H. apply result_bind_ok in H as (hm & Hline & H).
    destruct (parse_line_clock dt1 dt2 cs h1 h2 hm line Hsame Hline) as (hm2 & -> & Hsame').
    rewrite bind_Ok. by apply (IH hm).
Qed.

Lemma parse_csv_clock (dt1 dt2 : datetime_lib) (lines : list string)
    (h1 : gmap string holding) :
  parse_csv dt1 lines = Ok h1 ->
  exists h2, parse_csv dt2 lines = Ok h2 /\ same_quantities h1 h2.
Proof.
  unfold parse_csv. destruct (find_header lines) as [[i header]|]; [|done].
  destruct (resolve_columns header) as [cs|]; [|done]. rewrite !bind_Ok.
  apply parse_lines_clock. intros t. by rewrite lookup_empty.
Qed.

Lemma changed_same_quantities (a b : holding) (previous_data : option previous) :
  shares a = shares b -> weighting a = weighting b ->
  changed a previous_data = changed b previous_data.
Proof. intros Hs Hw. unfold changed. by rewrite Hs, Hw. Qed.

Lemma announce_unchanged (env : environment) (ticker company : string)
    (current : holding) (previous_data : option previous) :
  changed current previous_data = false ->
  announce env ticker company current previous_data = mret tt.
Proof.
  unfold changed, announce. destruct previous_data as [p|]; [|done].
  intros H. apply orb_false_iff in H as [-> _]. done.
Qed.

(** A step on the state that a run just saved, for the quantities that run
    saw, changes nothing and reports nothing, unless the weighting is
    not-a-number. *)
Lemma process_ticker_idle (env : environment) (fs : list string) (shares_idx weight_idx : Z)
    (h2 : gmap string holding) (d1 : gmap string (list (list value)))
    (ticker company : string) :
  list_index "shares" fs = Ok shares_idx ->
  list_index "weighting" fs = Ok weight_idx ->
  match h2 !! ticker with
  | None => True
  | Some cur2 =>
      exists (cur1 : holding) (previous0 : option previous) (history0 : list (list value)),
        shares cur1 = shares cur2 /\ weighting cur1 = weighting cur2 /\
        is_nan (weighting cur1) = false /\
        decode_previous fs shares_idx weight_idx history0 = Ok previous0 /\
        default [] (d1 !! ticker) =
          history0 ++ (if changed cur1 previous0 then [map (holding_get cur1) fs] else [])
  end ->
  outcome (process_ticker env fs shares_idx weight_idx h2 d1 (ticker, company)) = Ok d1 /\
  Forall idle_event (trace (process_ticker env fs shares_idx weight_idx h2 d1 (ticker, company))).
Proof.
  intros Hs Hw Hcase. rewrite process_ticker_outcome, process_ticker_trace.
  destruct (h2 !! ticker) as [cur2|]; [|by repeat constructor].
  destruct Hcase as (cur1 & previous0 & history0 & Hshares & Hweight & Hnan & Hprev & Hhist).
  rewrite Hhist.
  assert (exists previous1,
            decode_previous fs shares_idx weight_idx
              (history0 ++ (if changed cur1 previous0
                            then [map (holding_get cur1) fs] else []))
            = Ok previous1 /\ changed cur2 previous1 = false) as (previous1 & -> & Hidle).
  { destruct (changed cur1 previous0) eqn:Hchanged.
    - destruct (decode_previous_appended cur1 fs shares_idx weight_idx history0 Hs Hw)
        as (d & ->).
      eexists. split; [done|]. unfold changed. cbn [previous_shares previous_weighting].
      rewrite <- Hshares, <- Hweight. unfold py_ne.
      by rewrite Z.eqb_refl, feqb_refl.
    - rewrite app_nil_r, Hprev. exists previous0. split; [done|].
      by rewrite <- (changed_same_quantities cur1 cur2). }
  rewrite (announce_unchanged env ticker company cur2 previous1 Hidle), Hidle.
  split; [done | apply Forall_nil_2].
Qed.

Lemma for_each_idle (env : environment) (fs : list string) (shares_idx weight_idx : Z)
    (h2 : gmap string holding) (d1 : gmap string (list (list value)))
    (targets : list (string * string)) :
  (forall target, target ∈ targets ->
     outcome (process_ticker env fs shares_idx weight_idx h2 d1 target) = Ok d1 /\
     Forall idle_event (trace (process_ticker env fs shares_idx weight_idx h2 d1 target))) ->
  outcome (for_each (process_ticker env fs shares_idx weight_idx h2) d1 targets) = Ok d1 /\
  Forall idle_event (trace (for_each (process_ticker env fs shares_idx weight_idx h2) d1 targets)).
Proof.
  induction targets as [|target targets IH]; intros Hall.
  - split; [done | apply Forall_nil_2].
  - destruct (Hall target) as [Hout Htr]; [apply list_elem_of_here|].
    destruct IH as [IHout IHtr].
    { intros t Ht. apply Hall. by apply list_elem_of_further. }
    rewrite for_each_cons, outcome_bind, trace_bind, Hout.
    split; [done | by apply Forall_app].
Qed.

(** Idempotence, where it holds. After a run that completed, a second run
    on the same feed and on the state the first one saved (whatever the
    clock and the webhook then) completes, leaves the state file as it is,
    and prints nothing about the tickers found, provided that no weighting
    read from the feed is not-a-number. *)
Lemma second_run_idle (env1 env2 : environment) (file : option document)
    (lines : list string) (h1 : gmap string holding) :
  fetch_csv env1 = Ok lines ->
  fetch_csv env2 = Ok lines ->
  parse_csv (clock env1) lines = Ok h1 ->
  exit_status (main env1 file) = Ok tt ->
  (forall ticker current, h1 !! ticker = Some current -> is_nan (weighting current) = false) ->
  exit_status (main env2 (state_file (main env1 file))) = Ok tt /\
  state_file (main env2 (state_file (main env1 file))) = state_file (main env1 file) /\
  exists quiet : list event,
    Forall idle_event quiet /\
    output (main env2 (state_file (main env1 file))) =
      [Print FetchingCSV; Print ParsingCSV; Print LoadingState] ++ quiet ++ [Print Done].
Proof.
  intros Hfetch1 Hfetch2 Hparse1 Hexit1 Hnan.
  destruct (main_completed env1 file lines h1 Hfetch1 Hparse1 Hexit1)
    as (shares_idx & weight_idx & d1 & Hdone).
  destruct (parse_csv_clock (clock env1) (clock env2) lines h1 Hparse1) as (h2 & Hparse2 & Hsame).
  pose proof Hdone as [Hs Hw _ Hstate _].
  set (saved := {| fields := fields (load_state file); data := Some d1 |}) in *.
  rewrite Hstate.
  assert (schema (Some saved) = schema file) as Hschema by reflexivity.
  pose proof (main_unfold env2 (Some saved) lines h2 shares_idx weight_idx Hfetch2 Hparse2)
    as Hmain.
  rewrite Hschema in Hmain. specialize (Hmain Hs Hw). cbv zeta in Hmain.
  change (default ∅ (data (load_state (Some saved)))) with d1 in Hmain.
  destruct (for_each_idle env2 (schema file) shares_idx weight_idx h2 d1 TARGET_TICKERS)
    as [Hloop Hquiet].
  { intros [ticker company] Hin. apply process_ticker_idle; [done | done |].
    specialize (Hsame ticker). destruct (h2 !! ticker) as [cur2|]; [|done].
    destruct (h1 !! ticker) as [cur1|] eqn:Hcur1; [|done]. destruct Hsame as [Hshares Hweight].
    destruct (completed_history _ _ _ _ _ _ ticker company cur1 Hdone Hin Hcur1)
      as (previous0 & Hlatest & _ & Hhist).
    rewrite (latest_completed _ _ _ _ _ _ ticker Hdone) in Hlatest.
    rewrite Hstate in Hhist.
    change (stored_history (Some saved) ticker) with (default [] (d1 !! ticker)) in Hhist.
    exists cur1, previous0, (stored_history file ticker).
    split_and!; [done | done | by eapply Hnan | done | done]. }
  rewrite Hloop in Hmain. rewrite Hmain. cbn [exit_status state_file output].
  split_and!; [done | done |]. by eexists.
Qed.

(** C5 fails on the code. With the weighting nan in the feed, the first run
    stores a record whose weighting is not-a-number; the second run, on the
    same feed and the state the first one saved, compares that weighting
    with itself by [!=], which holds of not-a-number, and appends the same
    record again. No notification is sent, but the history grows at every
    run. *)
Theorem nan_weighting_appends_again :
  exit_status (main (sample_env nan_csv sample_webhook 204) None) = Ok tt /\
  stored_history (state_file (main (sample_env nan_csv sample_webhook 204) None)) "MAPS"
  = [nan_record] /\
  exit_status (main (sample_env nan_csv sample_webhook 204)
                 (state_file (main (sample_env nan_csv sample_webhook 204) None))) = Ok tt /\
  stored_history
    (state_file (main (sample_env nan_csv sample_webhook 204)
                   (state_file (main (sample_env nan_csv sample_webhook 204) None)))) "MAPS"
  = [nan_record; nan_record] /\
  output (main (sample_env nan_csv sample_webhook 204)
            (state_file (main (sample_env nan_csv sample_webhook 204) None)))
  = [Print FetchingCSV; Print ParsingCSV; Print LoadingState;
     Print (CouldNotFind "GRWG"); Print Done].
Proof.
  split_and!; vm_compute; reflexivity.
Qed.

(** * Further properties *)

Lemma chars_str (l : list ascii) : chars (str l) = l.
Proof. apply list_ascii_of_string_of_list_ascii. Qed.

Lemma str_chars (s : string) : str (chars s) = s.
Proof. apply string_of_list_ascii_of_string. Qed.

Lemma chars_app (a b : string) : chars (a +:+ b) = chars a ++ chars b.
Proof. induction a as [|c a IH]; simpl; [done | by rewrite <- IH]. Qed.

Lemma split_lines_break_free (n : nat) (l cur : list ascii) :
  (length l <= n)%nat ->
  Forall (fun c => is_linebreak c = false) cur ->
  Forall break_free (split_lines cur l).
Proof.
  revert l cur. induction n as [|n IH]; intros l cur Hlen Hcur.
  - destruct l; [|simpl in Hlen; lia]. simpl.
    destruct cur; [apply Forall_nil_2|].
    apply Forall_cons. split; [|apply Forall_nil_2].
    unfold break_free. rewrite chars_str. by apply Forall_rev.
  - destruct l as [|c l']; simpl.
    + destruct cur; [apply Forall_nil_2|].
      apply Forall_cons. split; [|apply Forall_nil_2].
      unfold break_free. rewrite chars_str. by apply Forall_rev.
    + simpl in Hlen. destruct (is_linebreak c) eqn:Hc.
      * apply Forall_cons. split.
        { unfold break_free. rewrite chars_str. by apply Forall_rev. }
        destruct l' as [|c' l'']; [apply Forall_nil_2|].
        simpl in Hlen.
        destruct (_ && _); apply IH; simpl; (lia || apply Forall_nil_2).
      * apply IH; [lia|]. by apply Forall_cons.
Qed.

(** X1. No line that [splitlines] returns holds a line break: the lines that
    [fetch_csv] hands to the parser are lines for the [csv] reader. *)
Theorem fetched_lines_break_free (env : environment) (text : string) :
  Forall break_free (splitlines text) /\
  match fetch_csv env with
  | Ok lines => Forall break_free lines
  | Raise _ => True
  end.
Proof.
  assert (forall t, Forall break_free (splitlines t)) as H.
  { intros t. apply (split_lines_break_free (length (chars t))); [lia | apply Forall_nil_2]. }
  split; [apply H|]. unfold fetch_csv. destruct (http_get env); simpl; [apply H | done].
Qed.

Lemma split_lines_line (l cur rest : list ascii) (nl : ascii) :
  Forall (fun c => is_linebreak c = false) l ->
  is_linebreak nl = true ->
  (code nl =? 13)%nat = false ->
  split_lines cur (l ++ nl :: rest) = str (rev cur ++ l) :: split_lines [] rest.
Proof.
  intros Hl Hnl Hcr. revert cur. induction Hl as [|c l Hc _ IH]; intros cur; simpl.
  - rewrite Hnl, Hcr, app_nil_r. simpl. by destruct rest.
  - rewrite Hc, IH. simpl. by rewrite <- app_assoc.
Qed.

Lemma split_lines_crlf (l cur rest : list ascii) :
  Forall (fun c => is_linebreak c = false) l ->
  split_lines cur (l ++ ascii_of_nat 13 :: ascii_of_nat 10 :: rest)
  = str (rev cur ++ l) :: split_lines [] rest.
Proof.
  intros Hl. revert cur. induction Hl as [|c l Hc _ IH]; intros cur; simpl.
  - by rewrite app_nil_r.
  - rewrite Hc, IH. simpl. by rewrite <- app_assoc.
Qed.

(** X2. Splitting a text into lines undoes joining them: the text made of
    lines that hold no line break, each ended by a line feed or by a
    carriage return and a line feed, is split into these lines. *)
Theorem splitlines_terminated (lines : list string) :
  Forall break_free lines ->
  splitlines (terminated newline lines) = lines /\
  splitlines (terminated crlf lines) = lines /\
  unlines lines = terminated newline lines.
Proof.
  intros Hlines. unfold splitlines. split_and!.
  - induction Hlines as [|line rest Hline _ IH]; [done|].
    cbn [terminated]. rewrite !chars_app.
    change (chars newline) with [ascii_of_nat 10]. cbn [app].
    rewrite split_lines_line by done. cbn [rev app]. by rewrite str_chars, IH.
  - induction Hlines as [|line rest Hline _ IH]; [done|].
    cbn [terminated]. rewrite !chars_app.
    change (chars crlf) with [ascii_of_nat 13; ascii_of_nat 10]. cbn [app].
    rewrite split_lines_crlf by done. cbn [rev app]. by rewrite str_chars, IH.
  - clear Hlines. induction lines as [|line rest IH]; [done|]. simpl. by rewrite IH.
Qed.

Lemma splitlines_terminated_witness :
  splitlines (terminated crlf ["Ticker,Shares"; ""; "MAPS,5"]) = ["Ticker,Shares"; ""; "MAPS,5"].
Proof.
  refine (proj1 (proj2 (splitlines_terminated ["Ticker,Shares"; ""; "MAPS,5"] _))).
  repeat constructor.
Defined.

(** *** The csv reader *)

Lemma delimiter_not_quote : Ascii.eqb delimiter quotechar = false.
Proof. reflexivity. Qed.

Lemma parse_process_quoted (l field rest : list ascii) (fields : list string) :
  parse_process IN_QUOTED_FIELD field fields (escape_quotes l ++ quotechar :: rest)
  = parse_process QUOTE_IN_QUOTED_FIELD (rev l ++ field) fields rest.
Proof.
  revert field. induction l as [|c l IH]; intros field; cbn [escape_quotes app rev].
  - cbn [parse_process]. by rewrite Ascii.eqb_refl.
  - destruct (Ascii.eqb c quotechar) eqn:Hc; cbn [app parse_process].
    + rewrite !Ascii.eqb_refl. rewrite IH.
      apply Ascii.eqb_eq in Hc. subst c. by rewrite <- app_assoc.
    + rewrite Hc, IH. by rewrite <- app_assoc.
Qed.

Lemma parse_process_fields (st : reader_state) (fs : list string) (fields : list string) :
  st = START_RECORD \/ st = START_FIELD ->
  fs <> [] ->
  parse_process st [] fields (join_fields (map quote_field fs)) = rev fields ++ fs.
Proof.
  intros Hst Hne. revert st fields Hst.
  induction fs as [|f fs IH]; intros st fields Hst; [done|].
  destruct fs as [|g fs].
  - cbn [map join_fields]. unfold quote_field.
    assert (parse_process st [] fields (quotechar :: escape_quotes (chars f) ++ [quotechar])
            = parse_process IN_QUOTED_FIELD [] fields (escape_quotes (chars f) ++ [quotechar]))
      as ->.
    { destruct Hst as [-> | ->]; cbn [parse_process]; by rewrite Ascii.eqb_refl. }
    rewrite parse_process_quoted. cbn [parse_process]. unfold save_field.
    by rewrite app_nil_r, rev_involutive, str_chars.
  - cbn [map join_fields]. unfold quote_field at 1.
    cbn [app]. rewrite <- app_assoc. cbn [app].
    assert (forall rest,
              parse_process st [] fields (quotechar :: escape_quotes (chars f) ++ quotechar :: rest)
              = parse_process IN_QUOTED_FIELD [] fields
                  (escape_quotes (chars f) ++ quotechar :: rest)) as ->.
    { intros rest. destruct Hst as [-> | ->]; cbn [parse_process]; by rewrite Ascii.eqb_refl. }
    rewrite parse_process_quoted. cbn [parse_process].
    rewrite delimiter_not_quote, Ascii.eqb_refl.
    change (join_fields (quote_field g :: map quote_field fs))
      with (join_fields (map quote_field (g :: fs))).
    rewrite IH; [|done | by right].
    unfold save_field. rewrite app_nil_r, rev_involutive, str_chars.
    cbn [rev]. by rewrite <- app_assoc.
Qed.

Lemma csv_row_quoted (fields : list string) :
  csv_row (quoted_row fields) = fields.
Proof.
  unfold csv_row, quoted_row. rewrite chars_str.
  destruct fields as [|f fs]; [done|].
  rewrite parse_process_fields; [done | by left | done].
Qed.

(** *** The field-size limit of the reader *)

Lemma length_str (l : list ascii) : String.length (str l) = length l.
Proof. induction l as [|c l IH]; simpl; [done | by rewrite IH]. Qed.

Lemma parse_process_saved (st : reader_state) (field : list ascii) (fields : list string)
    (l : list ascii) :
  st <> START_RECORD ->
  parse_process st field fields l = rev fields ++ parse_process st field [] l.
Proof.
  revert st field fields. induction l as [|c l IH]; intros st field fields Hst.
  - by destruct st.
  - destruct st; [done|..]; cbn [parse_process];
      repeat (match goal with |- context [Ascii.eqb ?a ?b] => destruct (Ascii.eqb a b) end);
      try (by apply IH);
      rewrite (IH _ _ (save_field field fields)), (IH _ _ (save_field field [])) by done;
      unfold save_field; cbn [rev app]; by rewrite <- app_assoc.
Qed.

Lemma parse_process_head (st : reader_state) (field : list ascii) (l : list ascii) :
  st <> START_RECORD ->
  exists (f : string) (rest : list string),
    parse_process st field [] l = f :: rest /\ (length field <= String.length f)%nat.
Proof.
  revert st field. induction l as [|c l IH]; intros st field Hst.
  - exists (str (rev field)), []. split; [by destruct st|].
    rewrite length_str, length_rev. lia.
  - assert (forall st', st' <> START_RECORD ->
              exists f rest, parse_process st' (c :: field) [] l = f :: rest /\
                             (length field <= String.length f)%nat) as Hadd.
    { intros st' Hst'. destruct (IH st' (c :: field) Hst') as (f & rest & Heq & Hlen).
      exists f, rest. split; [done|]. simpl in Hlen. lia. }
    assert (exists f rest, parse_process START_FIELD [] (save_field field []) l = f :: rest /\
                           (length field <= String.length f)%nat) as Hsave.
    { rewrite parse_process_saved by done. unfold save_field. cbn [rev app].
      eexists _, _. split; [done|]. rewrite length_str, length_rev. lia. }
    destruct st; [done|..]; cbn [parse_process];
      repeat (match goal with |- context [Ascii.eqb ?a ?b] => destruct (Ascii.eqb a b) end);
      first [by apply IH | by apply Hadd | exact Hsave].
Qed.

Lemma parse_limited_spec (st : reader_state) (field : list ascii) (fields : list string)
    (l : list ascii) :
  st <> START_RECORD ->
  Z.of_nat (length field) <= field_size_limit ->
  parse_limited st field fields l =
    if forallb fits (parse_process st field [] l)
    then Some (parse_process st field fields l) else None.
Proof.
  revert st field fields. induction l as [|c l IH]; intros st field fields Hst Hfield.
  - assert (fits (str (rev field)) = true) as Hfits.
    { unfold fits. rewrite length_str, length_rev. by apply Z.leb_le. }
    destruct st; [done|..]; cbn [parse_limited parse_process save_field rev app forallb];
      by rewrite Hfits.
  - assert (forall st', st' <> START_RECORD ->
              add_char c field ≫= (fun field' => parse_limited st' field' fields l)
              = if forallb fits (parse_process st' (c :: field) [] l)
                then Some (parse_process st' (c :: field) fields l) else None) as Hadd.
    { intros st' Hst'. unfold add_char.
      destruct (Z.leb_spec field_size_limit (Z.of_nat (length field))) as [Hfull|Hroom].
      - destruct (parse_process_head st' (c :: field) l Hst') as (f & rest & -> & Hlen).
        cbn [forallb]. simpl in Hlen.
        assert (fits f = false) as -> by (unfold fits; apply Z.leb_gt; lia).
        done.
      - cbn [mbind option_bind]. apply IH; [done|]. simpl. lia. }
    assert (parse_limited START_FIELD [] (save_field field fields) l
            = if forallb fits (parse_process START_FIELD [] (save_field field []) l)
              then Some (parse_process START_FIELD [] (save_field field fields) l)
              else None) as Hsave.
    { rewrite IH by done.
      rewrite (parse_process_saved START_FIELD [] (save_field field [])) by done.
      unfold save_field at 2. cbn [rev app forallb].
      assert (fits (str (rev field)) = true) as ->
        by (unfold fits; rewrite length_str, length_rev; by apply Z.leb_le).
      done. }
    destruct st; [done|..]; cbn [parse_limited parse_process];
      repeat (match goal with |- context [Ascii.eqb ?a ?b] => destruct (Ascii.eqb a b) end);
      first [by apply IH | by apply Hadd | exact Hsave].
Qed.

Lemma csv_reader_spec (line : string) :
  csv_reader line =
    if forallb fits (csv_row line) then Ok (csv_row line) else Raise CsvError.
Proof.
  unfold csv_reader, csv_row. destruct (chars line) as [|c l]; [done|].
  change (parse_limited START_RECORD [] [] (c :: l))
    with (parse_limited START_FIELD [] [] (c :: l)).
  change (parse_process START_RECORD [] [] (c :: l))
    with (parse_process START_FIELD [] [] (c :: l)).
  rewrite parse_limited_spec by done.
  by destruct (forallb fits _).
Qed.

Lemma within_field_limit_spec (line : string) :
  within_field_limit line <-> Forall (fun f => fits f = true) (csv_row line).
Proof.
  unfold within_field_limit. rewrite csv_reader_spec.
  destruct (forallb fits (csv_row line)) eqn:Hall.
  - split; [|done]. intros _. apply Forall_forall. intros f Hf.
    rewrite forallb_forall in Hall. apply Hall. by apply list_elem_of_In.
  - split; [discriminate|]. intros HF. exfalso.
    assert (forallb fits (csv_row line) = true); [|congruence].
    apply forallb_forall. intros f Hf. rewrite Forall_forall in HF.
    apply HF. by apply list_elem_of_In.
Qed.

(** X3. The csv reader reads back what a csv writer that quotes every field
    wrote: whatever the fields hold (commas and double quotes included), the
    row of the quoted fields is split into these fields, when each of them
    has at most 131072 characters; when one is longer, the reader raises
    its error. *)
Theorem csv_reader_quoted_row (fields : list string) :
  csv_reader (quoted_row fields) =
    if forallb fits fields then Ok fields else Raise CsvError.
Proof. by rewrite csv_reader_spec, csv_row_quoted. Qed.

(** ** Column resolution *)

Lemma find_index_leftmost {A} (p : A -> bool) (l : list A) (i0 : Z) :
  0 <= i0 ->
  (find_index p i0 l = -1 /\ Forall (fun x => p x = false) l) \/
  (i0 <= find_index p i0 l /\ leftmost p l (find_index p i0 l - i0)).
Proof.
  unfold leftmost. revert i0. induction l as [|x l IH]; intros i0 Hi0; simpl.
  - left. split; [done | apply Forall_nil_2].
  - destruct (p x) eqn:Hx.
    + right. split; [lia|]. rewrite Z.sub_diag. split; [lia|]. split.
      * exists x. split; [reflexivity | done].
      * intros j y Hj. simpl in Hj. lia.
    + destruct (IH (i0 + 1)) as [[Hr Hall]|[Hr (Hpos & (y & Hy & Hpy) & Hfirst)]]; [lia| |].
      * left. split; [done | by apply Forall_cons].
      * right. split; [lia|].
        set (r := find_index p (i0 + 1) l) in *.
        replace (Z.to_nat (r - i0)) with (S (Z.to_nat (r - (i0 + 1)))) by lia.
        split; [lia|]. split.
        -- exists y. split; [exact Hy | done].
        -- intros [|j] z Hj Hz; simpl in Hz; [congruence|].
           apply (Hfirst j); [lia | done].
Qed.

Lemma index_from_leftmost (x : string) (l : list string) (i0 i : Z) :
  index_from x i0 l = Ok i ->
  i0 <= i /\ leftmost (fun h => String.eqb h x) l (i - i0).
Proof.
  unfold leftmost. revert i0. induction l as [|y l IH]; intros i0; simpl; [discriminate|].
  destruct (String.eqb y x) eqn:Hy.
  - intros [= <-]. split; [lia|]. rewrite Z.sub_diag. split; [lia|]. split.
    + exists y. split; [reflexivity | done].
    + intros j z Hj. simpl in Hj. lia.
  - intros Hi. apply IH in Hi as (Hle & Hpos & (z & Hz & Hpz) & Hfirst).
    split; [lia|].
    replace (Z.to_nat (i - i0)) with (S (Z.to_nat (i - (i0 + 1)))) by lia.
    split; [lia|]. split.
    + exists z. split; [exact Hz | done].
    + intros [|j] w Hj Hw; simpl in Hw; [congruence|].
      apply (Hfirst j); [lia | done].
Qed.

Lemma index_from_absent (x : string) (l : list string) (i0 : Z) (e : exn) :
  index_from x i0 l = Raise e ->
  e = ValueError "is not in list" /\ x ∉ l.
Proof.
  revert i0. induction l as [|y l IH]; intros i0; simpl.
  - intros [= <-]. split; [done | apply not_elem_of_nil].
  - destruct (String.eqb_spec y x) as [->|Hne]; [discriminate|].
    intros Hi. apply IH in Hi as [-> Hnot]. split; [done|].
    apply not_elem_of_cons. split; [congruence | done].
Qed.

(** X4. The columns are resolved to the leftmost header cell of each name:
    DATE, TICKER or STOCKTICKER, SHARES, WEIGHTINGS or WEIGHTING. A column
    that is looked up with a default is -1 when no cell has its name;
    resolving fails, with the error of [list.index], exactly when no cell is
    SHARES. *)
Theorem columns_leftmost (header : list string) :
  match resolve_columns header with
  | Ok cs =>
      leftmost_or_absent (String.eqb "DATE") header (date_col cs) /\
      leftmost_or_absent is_ticker_name header (ticker_col cs) /\
      leftmost (fun h => String.eqb h "SHARES") header (shares_col cs) /\
      leftmost_or_absent is_weight_name header (weight_col cs)
  | Raise e => e = ValueError "is not in list" /\ "SHARES" ∉ header
  end /\
  (forall h : string, is_ticker_name h = true <-> h = "TICKER" \/ h = "STOCKTICKER") /\
  (forall h : string, is_weight_name h = true <-> h = "WEIGHTINGS" \/ h = "WEIGHTING").
Proof.
  assert (forall (p : string -> bool), leftmost_or_absent p header (find_index p 0 header))
    as Hfind.
  { intros p. destruct (find_index_leftmost p header 0) as [[Hr Hall]|[_ Hl]]; [lia| |].
    - by left.
    - right. by rewrite Z.sub_0_r in Hl. }
  split_and!.
  - unfold resolve_columns, list_index.
    destruct (index_from "SHARES" 0 header) as [k|e] eqn:Hk; simpl.
    + apply index_from_leftmost in Hk as [_ Hk]. rewrite Z.sub_0_r in Hk.
      split_and!; (done || apply Hfind).
    + by apply index_from_absent in Hk.
  - intros h. unfold is_ticker_name. rewrite contains_elem_of.
    rewrite !elem_of_cons, elem_of_nil. tauto.
  - intros h. unfold is_weight_name. rewrite contains_elem_of.
    rewrite !elem_of_cons, elem_of_nil. tauto.
Qed.

(** ** The lines above the header *)

Lemma find_header_below (pre rows : list string) (hl : string) :
  (length pre < 10)%nat ->
  Forall (fun l => qualifies (col_upper l) = false) pre ->
  qualifies (col_upper hl) = true ->
  find_header (pre ++ hl :: rows) = Some (len pre, col_upper hl).
Proof.
  intros Hlen Hpre Hq. apply find_header_spec.
  exists (length pre), hl. split_and!; [done | done | | done | done |].
  - by rewrite list_lookup_middle.
  - intros j l Hj Hl. rewrite lookup_app_l in Hl by done.
    rewrite Forall_forall in Hpre. apply Hpre.
    by apply list_elem_of_lookup_2 in Hl.
Qed.

Lemma drop_below (pre rows : list string) (hl : string) :
  drop (Z.to_nat (len pre + 1)) (pre ++ hl :: rows) = rows.
Proof.
  unfold len. replace (Z.to_nat (Z.of_nat (length pre) + 1)) with (length pre + 1)%nat by lia.
  rewrite <- drop_drop. rewrite drop_app_length. reflexivity.
Qed.

(** X5. The lines above the header are not read as data: when the header is
    within the first ten lines and no line above it qualifies as a header,
    the parse of the feed is the parse of the lines below the header, with
    the columns that the header resolves to. *)
Theorem rows_below_header (dt : datetime_lib) (pre rows : list string) (hl : string) :
  (length pre < 10)%nat ->
  Forall (fun l => qualifies (col_upper l) = false) pre ->
  qualifies (col_upper hl) = true ->
  exists cs : columns,
    resolve_columns (col_upper hl) = Ok cs /\
    parse_csv dt (pre ++ hl :: rows) = parse_lines dt cs ∅ rows.
Proof.
  intros Hlen Hpre Hq.
  destruct (qualifying_header_resolves (col_upper hl) Hq) as (cs & Hcs & _).
  exists cs. split; [done|]. unfold parse_csv.
  rewrite (find_header_below pre rows hl Hlen Hpre Hq), Hcs, bind_Ok.
  by rewrite drop_below.
Qed.

Lemma rows_below_header_witness :
  parse_csv (datetime_on "2026-11-04")
    ["MAPS,1"; "Holdings"; "Ticker,Shares"; "MAPS,1000000"]
  = Ok (<["MAPS" := {| date := "2026-11-04"; shares := 1000000; weighting := fzero |}]> ∅).
Proof.
  destruct (rows_below_header (datetime_on "2026-11-04")
              ["MAPS,1"; "Holdings"] ["MAPS,1000000"] "Ticker,Shares")
    as (cs & Hcs & Hparse).
  - simpl. lia.
  - repeat constructor.
  - vm_compute. reflexivity.
  - change (["MAPS,1"; "Holdings"; "Ticker,Shares"; "MAPS,1000000"])
      with (["MAPS,1"; "Holdings"] ++ "Ticker,Shares" :: ["MAPS,1000000"]).
    rewrite Hparse.
    assert (cs = ticker_shares) as ->.
    { assert (resolve_columns (col_upper "Ticker,Shares") = Ok ticker_shares) as E
        by (vm_compute; reflexivity).
      rewrite E in Hcs. by injection Hcs. }
    vm_compute. reflexivity.
Defined.

(** ** The rows below the header *)

Lemma tracked_row_decide (cs : columns) (line ticker : string) :
  tracked_row cs line ticker \/ ~ tracked_row cs line ticker.
Proof.
  unfold tracked_row.
  destruct (truthy (strip line)); [|right; by intros [? _]].
  destruct (Z.ltb_spec (ticker_col cs) (len (csv_cols line))) as [Hlt|Hge];
    [|right; intros (_ & ? & _); lia].
  destruct (getitem (csv_cols line) (ticker_col cs)) as [t|e] eqn:Ht;
    [|right; by intros (_ & _ & t & ? & _)].
  destruct (decide (upper t = ticker)) as [Hup|Hup];
    [|right; intros (_ & _ & t' & [= <-] & ? & _); done].
  destruct (is_target ticker) eqn:Htarget;
    [|right; by intros (_ & _ & _ & _ & _ & ?)].
  left. split_and!; [done | done |]. by exists t.
Qed.

Lemma parse_line_tracked_record (dt : datetime_lib) (cs : columns)
    (holdings holdings' : gmap string holding) (line ticker : string) :
  tracked_row cs line ticker ->
  parse_line dt cs holdings line = Ok holdings' ->
  exists r : holding,
    row_record dt cs (csv_cols line) = Ok r /\ holdings' = <[ticker := r]> holdings.
Proof.
  intros Hrow Hline. rewrite (parse_line_tracked _ _ _ _ ticker Hrow) in Hline.
  unfold row_record.
  destruct (parse_date dt cs (csv_cols line)) as [d|]; [|done]. rewrite bind_Ok in *.
  destruct (parse_shares cs (csv_cols line)) as [n|]; [|done]. rewrite bind_Ok in *.
  destruct (parse_weighting cs (csv_cols line)) as [w|]; [|done]. rewrite bind_Ok in *.
  injection Hline as <-. by eexists.
Qed.

Lemma parse_line_untracked (dt : datetime_lib) (cs : columns)
    (holdings holdings' : gmap string holding) (line ticker : string) :
  ~ tracked_row cs line ticker ->
  parse_line dt cs holdings line = Ok holdings' ->
  holdings' !! ticker = holdings !! ticker.
Proof.
  intros Hnot. unfold parse_line.
  destruct (truthy (strip line)) eqn:Hblank; cbn [negb]; [|by intros [= <-]].
  destruct (Z.leb_spec (len (csv_cols line)) (ticker_col cs)) as [Hge|Hlt]; [by intros [= <-]|].
  destruct (getitem (csv_cols line) (ticker_col cs)) as [t|] eqn:Ht; [|done].
  rewrite bind_Ok. destruct (is_target (upper t)) eqn:Htarget; [|by intros [= <-]].
  intros H. apply result_bind_ok in H as (d & _ & H).
  apply result_bind_ok in H as (n & _ & H).
  apply result_bind_ok in H as (w & _ & H). injection H as <-.
  apply lookup_insert_ne. intros Heq. apply Hnot.
  split_and!; [done | done |]. exists t. by rewrite <- Heq.
Qed.

Lemma parse_lines_untracked (dt : datetime_lib) (cs : columns) (lines : list string)
    (holdings holdings' : gmap string holding) (ticker : string) :
  Forall (fun l => ~ tracked_row cs l ticker) lines ->
  parse_lines dt cs holdings lines = Ok holdings' ->
  holdings' !! ticker = holdings !! ticker.
Proof.
  intros Hall. revert holdings.
  induction Hall as [|line rest Hline _ IH]; intros holdings; simpl.
  - by intros [= <-].
  - intros H. apply result_bind_ok in H as (hm & Hstep & H).
    rewrite (IH hm H). by eapply parse_line_untracked.
Qed.

Lemma parse_lines_present (dt : datetime_lib) (cs : columns) (lines : list string)
    (holdings holdings' : gmap string holding) (ticker : string) :
  parse_lines dt cs holdings lines = Ok holdings' ->
  is_Some (holdings' !! ticker) <->
  is_Some (holdings !! ticker) \/ exists line, line ∈ lines /\ tracked_row cs line ticker.
Proof.
  revert holdings. induction lines as [|line rest IH]; intros holdings; simpl.
  - intros [= <-]. split; [by left|]. intros [?|(line & Hin & _)]; [done|].
    by apply elem_of_nil in Hin.
  - intros H. apply result_bind_ok in H as (hm & Hstep & H).
    rewrite (IH hm H).
    assert (is_Some (hm !! ticker) <->
            is_Some (holdings !! ticker) \/ tracked_row cs line ticker) as ->.
    { destruct (tracked_row_decide cs line ticker) as [Hrow|Hnot].
      - destruct (parse_line_tracked_record _ _ _ _ _ _ Hrow Hstep) as (r & _ & ->).
        rewrite lookup_insert_eq. split; [by right | by eexists].
      - rewrite (parse_line_untracked _ _ _ _ _ _ Hnot Hstep). tauto. }
    split.
    + intros [[?|Hrow]|(l & Hin & Hrow)]; [by left | right | right].
      * exists line. split; [apply list_elem_of_here | done].
      * exists l. split; [by apply list_elem_of_further | done].
    + intros [?|(l & Hin & Hrow)]; [by left; left|].
      apply elem_of_cons in Hin as [->|Hin]; [by left; right|].
      right. by exists l.
Qed.

Lemma parse_lines_last (dt : datetime_lib) (cs : columns) (pre post : list string)
    (holdings holdings' : gmap string holding) (line ticker : string) :
  parse_lines dt cs holdings (pre ++ line :: post) = Ok holdings' ->
  tracked_row cs line ticker ->
  Forall (fun l => ~ tracked_row cs l ticker) post ->
  exists r : holding,
    row_record dt cs (csv_cols line) = Ok r /\ holdings' !! ticker = Some r.
Proof.
  intros H Hrow Hpost. rewrite parse_lines_app in H.
  apply result_bind_ok in H as (h1 & _ & H). simpl in H.
  apply result_bind_ok in H as (h2 & Hstep & H).
  destruct (parse_line_tracked_record _ _ _ _ _ _ Hrow Hstep) as (r & Hr & ->).
  exists r. split; [done|].
  rewrite (parse_lines_untracked _ _ _ _ _ _ Hpost H). apply lookup_insert_eq.
Qed.

Lemma parse_csv_ok_inv (dt : datetime_lib) (lines : list string) (h : gmap string holding) :
  parse_csv dt lines = Ok h ->
  exists (i : Z) (header : list string) (cs : columns),
    find_header lines = Some (i, header) /\
    resolve_columns header = Ok cs /\
    parse_lines dt cs ∅ (drop (Z.to_nat (i + 1)) lines) = Ok h.
Proof.
  unfold parse_csv. destruct (find_header lines) as [[i header]|]; [|done].
  destruct (resolve_columns header) as [cs|] eqn:Hcs; [|done]. rewrite bind_Ok.
  intros H. exists i, header, cs. split_and!; done.
Qed.

Lemma parse_csv_present (dt : datetime_lib) (lines : list string) (h : gmap string holding)
    (i : Z) (header : list string) (cs : columns) (ticker : string) :
  parse_csv dt lines = Ok h ->
  find_header lines = Some (i, header) ->
  resolve_columns header = Ok cs ->
  is_Some (h !! ticker) <->
  exists line, line ∈ drop (Z.to_nat (i + 1)) lines /\ tracked_row cs line ticker.
Proof.
  intros Hparse Hfound Hcs. unfold parse_csv in Hparse.
  rewrite Hfound, Hcs, bind_Ok in Hparse.
  rewrite (parse_lines_present dt cs _ ∅ h ticker Hparse), lookup_empty.
  split; [|by right]. intros [Hnone|?]; [|done]. by destruct Hnone.
Qed.

Lemma parse_csv_keys (dt : datetime_lib) (lines : list string) (h : gmap string holding)
    (ticker : string) :
  parse_csv dt lines = Ok h ->
  is_Some (h !! ticker) ->
  ticker ∈ (fst <$> TARGET_TICKERS).
Proof.
  intros Hparse Hsome.
  destruct (parse_csv_ok_inv dt lines h Hparse) as (i & header & cs & Hfound & Hcs & _).
  destruct (proj1 (parse_csv_present dt lines h i header cs ticker Hparse Hfound Hcs) Hsome)
    as (line & _ & _ & _ & t & _ & _ & Ht).
  unfold is_target in Ht. by apply contains_elem_of in Ht.
Qed.

(** X6. The parser is a filter. The tickers of the result are exactly the
    tracked tickers that some row below the header holds in its ticker
    column (stripped, in any case): no other key is ever returned, and a
    tracked ticker with no row is absent. *)
Theorem parser_is_filter (dt : datetime_lib) (lines : list string) (h : gmap string holding) :
  parse_csv dt lines = Ok h ->
  exists (i : Z) (header : list string) (cs : columns),
    find_header lines = Some (i, header) /\
    resolve_columns header = Ok cs /\
    forall ticker : string,
      (is_Some (h !! ticker) <->
       exists line, line ∈ drop (Z.to_nat (i + 1)) lines /\ tracked_row cs line ticker) /\
      (is_Some (h !! ticker) -> ticker ∈ (fst <$> TARGET_TICKERS)).
Proof.
  intros Hparse.
  destruct (parse_csv_ok_inv dt lines h Hparse) as (i & header & cs & Hfound & Hcs & _).
  exists i, header, cs. split_and!; [done | done |]. intros ticker. split.
  - by apply (parse_csv_present dt lines h i header cs).
  - by apply (parse_csv_keys dt lines).
Qed.

Lemma parser_is_filter_witness :
  exists (cs : columns) (line : string),
    line ∈ shares_changed_csv /\ tracked_row cs line "MAPS".
Proof.
  destruct (parser_is_filter (datetime_on "2026-11-04") shares_changed_csv
              (<["MAPS" := sample_holding "2026-11-04" 1200000 "1.20%"]> ∅))
    as (i & header & cs & _ & _ & H).
  - vm_compute. reflexivity.
  - destruct (proj1 (proj1 (H "MAPS"))) as (line & Hin & Hrow).
    + rewrite lookup_insert_eq. by eexists.
    + exists cs, line. split; [|exact Hrow].
      eapply subseteq_drop, Hin.
Defined.

(** X7. The last row wins. When a tracked ticker has several rows below the
    header, the record returned for it is the one built from the last of
    them: its date, share count and weighting are those of that row. *)
Theorem last_row_wins (dt : datetime_lib) (lines : list string) (h : gmap string holding)
    (i : Z) (header : list string) (cs : columns) (pre post : list string)
    (line ticker : string) :
  parse_csv dt lines = Ok h ->
  find_header lines = Some (i, header) ->
  resolve_columns header = Ok cs ->
  drop (Z.to_nat (i + 1)) lines = pre ++ line :: post ->
  tracked_row cs line ticker ->
  Forall (fun l => ~ tracked_row cs l ticker) post ->
  exists r : holding,
    h !! ticker = Some r /\
    parse_date dt cs (csv_cols line) = Ok (date r) /\
    parse_shares cs (csv_cols line) = Ok (shares r) /\
    parse_weighting cs (csv_cols line) = Ok (weighting r).
Proof.
  intros Hparse Hfound Hcs Hdrop Hrow Hpost.
  unfold parse_csv in Hparse. rewrite Hfound, Hcs, bind_Ok, Hdrop in Hparse.
  destruct (parse_lines_last _ _ _ _ _ _ _ _ Hparse Hrow Hpost) as (r & Hr & Hlook).
  exists r. split; [done|]. unfold row_record in Hr.
  destruct (parse_date dt cs (csv_cols line)) as [d|]; [|done]. rewrite bind_Ok in Hr.
  destruct (parse_shares cs (csv_cols line)) as [n|]; [|done]. rewrite bind_Ok in Hr.
  destruct (parse_weighting cs (csv_cols line)) as [w|]; [|done]. rewrite bind_Ok in Hr.
  by injection Hr as <-.
Qed.

Lemma last_row_wins_witness :
  exists r : holding,
    parse_shares ticker_shares (csv_cols "maps,7") = Ok (shares r) /\
    (<["MAPS" := {| date := "2026-11-04"; shares := 7; weighting := fzero |}]>
       (<["GRWG" := {| date := "2026-11-04"; shares := 1; weighting := fzero |}]> ∅)
     : gmap string holding) !! "MAPS" = Some r.
Proof.
  destruct (last_row_wins (datetime_on "2026-11-04")
              ["Ticker,Shares"; "MAPS,5"; "GRWG,1"; "maps,7"]
              (<["MAPS" := {| date := "2026-11-04"; shares := 7; weighting := fzero |}]>
                 (<["GRWG" := {| date := "2026-11-04"; shares := 1; weighting := fzero |}]> ∅))
              0 ["TICKER"; "SHARES"] ticker_shares ["MAPS,5"; "GRWG,1"] [] "maps,7" "MAPS")
    as (r & Hr & _ & Hs & _).
  - vm_compute. reflexivity.
  - vm_compute. reflexivity.
  - vm_compute. reflexivity.
  - vm_compute. reflexivity.
  - split; [vm_compute; reflexivity|]. split; [vm_compute; reflexivity|].
    exists "maps". split_and!; vm_compute; reflexivity.
  - apply Forall_nil_2.
  - exists r. split; [exact Hs | exact Hr].
Defined.

(** ** Every failure of the parser *)

Lemma parse_lines_raise_inv (dt : datetime_lib) (cs : columns) (lines : list string)
    (holdings : gmap string holding) (e : exn) :
  parse_lines dt cs holdings lines = Raise e ->
  exists (pre post : list string) (line : string) (h1 : gmap string holding),
    lines = pre ++ line :: post /\
    parse_lines dt cs holdings pre = Ok h1 /\
    parse_line dt cs h1 line = Raise e.
Proof.
  revert holdings. induction lines as [|line rest IH]; intros holdings; simpl; [discriminate|].
  intros H. apply result_bind_raise in H as [H|(hm & Hstep & H)].
  - by exists [], rest, line, holdings.
  - destruct (IH hm H) as (pre & post & l & h1 & -> & Hpre & Hl).
    exists (line :: pre), post, l, h1. split_and!; [done | | done].
    simpl. by rewrite Hstep.
Qed.

Lemma parse_line_raise_inv (dt : datetime_lib) (cs : columns) (holdings : gmap string holding)
    (line : string) (e : exn) :
  0 <= ticker_col cs -> -1 <= date_col cs -> 0 <= shares_col cs -> -1 <= weight_col cs ->
  parse_line dt cs holdings line = Raise e ->
  exists ticker : string,
    tracked_row cs line ticker /\
    ((e = IndexError /\
      (len (csv_cols line) <= shares_col cs \/
       (date_col cs <> -1 /\ len (csv_cols line) <= date_col cs))) \/
     (MalformedQuantity e /\
      exists field : string,
        getitem (csv_cols line) (shares_col cs) = Ok field /\
        py_float (remove_char "," field) ≫= float_to_int = Raise e)).
Proof.
  intros Ht Hd Hs Hw. unfold parse_line.
  destruct (truthy (strip line)) eqn:Hblank; cbn [negb]; [|discriminate].
  destruct (Z.leb_spec (len (csv_cols line)) (ticker_col cs)) as [?|Hlt]; [discriminate|].
  destruct (getitem_in_range (csv_cols line) (ticker_col cs)) as (t & Hget & _); [lia|].
  rewrite Hget, bind_Ok.
  destruct (is_target (upper t)) eqn:Htarget; [|discriminate].
  intros H. exists (upper t). split.
  { split_and!; [done | done |]. by exists t. }
  apply result_bind_raise in H as [H|(d & _ & H)].
  { left. pose proof (parse_date_raises _ _ _ _ H) as ->. split; [done|]. right.
    destruct (Z.eq_dec (date_col cs) (-1)) as [Heq|Hne].
    - destruct (parse_date_ok dt cs (csv_cols line)) as (d & Hok); [lia | by left | congruence].
    - split; [done|].
      destruct (Z.lt_ge_cases (date_col cs) (len (csv_cols line))) as [Hin|?]; [|lia].
      destruct (parse_date_ok dt cs (csv_cols line)) as (d & Hok); [lia | by right | congruence]. }
  apply result_bind_raise in H as [H|(n & _ & H)].
  2: { apply result_bind_raise in H as [H|(w & _ & H)]; [|discriminate].
       rewrite parse_weighting_spec in H by done. discriminate. }
  unfold parse_shares in H.
  destruct (getitem (csv_cols line) (shares_col cs)) as [field|e'] eqn:Hfield.
  - rewrite bind_Ok in H. right. split; [|by exists field].
    unfold MalformedQuantity.
    apply result_bind_raise in H as [H|(f & _ & H)].
    + apply py_float_raises in H. auto.
    + apply float_to_int_raises in H. tauto.
  - simpl in H. injection H as <-. left.
    pose proof (getitem_raises _ _ _ Hfield) as ->. split; [done|]. left.
    destruct (Z.lt_ge_cases (shares_col cs) (len (csv_cols line))) as [Hin|?]; [|lia].
    destruct (getitem_in_range (csv_cols line) (shares_col cs)) as (x & Hx & _); [lia|].
    congruence.
Qed.

(** X8. On a feed whose lines the csv reader accepts (no field of more than
    131072 characters), the parser fails in three ways only. Either no
    header is found, or the rows below the header are read without failure
    up to a row of a tracked ticker that ends before the SHARES column or
    before the DATE column of the header ([IndexError]), or whose SHARES
    field is rejected by [float] or by [int] (a malformed quantity). Nothing
    else makes [parse_csv] raise: not a date, not a weighting, not a row of
    another ticker. *)
Theorem parser_failures (dt : datetime_lib) (lines : list string) (e : exn) :
  Forall within_field_limit lines ->
  parse_csv dt lines = Raise e ->
  (e = HeaderNotFound /\ find_header lines = None) \/
  exists (i : Z) (header : list string) (cs : columns) (pre post : list string)
         (line ticker : string) (holdings : gmap string holding),
    find_header lines = Some (i, header) /\
    resolve_columns header = Ok cs /\
    drop (Z.to_nat (i + 1)) lines = pre ++ line :: post /\
    parse_lines dt cs ∅ pre = Ok holdings /\
    tracked_row cs line ticker /\
    ((e = IndexError /\
      (len (csv_cols line) <= shares_col cs \/
       (date_col cs <> -1 /\ len (csv_cols line) <= date_col cs))) \/
     (MalformedQuantity e /\
      exists field : string,
        getitem (csv_cols line) (shares_col cs) = Ok field /\
        py_float (remove_char "," field) ≫= float_to_int = Raise e)).
Proof.
  intros _. unfold parse_csv. destruct (find_header lines) as [[i header]|] eqn:Hfound.
  2: { intros [= <-]. by left. }
  destruct (qualifying_header_resolves header (found_header_qualifies _ _ _ Hfound))
    as (cs & Hcs & _ & _ & Ht & Hs).
  pose proof (resolve_columns_ranges header cs Hcs) as (Hd & _ & _ & Hw).
  rewrite Hcs, bind_Ok. intros H. right.
  destruct (parse_lines_raise_inv _ _ _ _ _ H) as (pre & post & line & h1 & Hdrop & Hpre & Hline).
  destruct (parse_line_raise_inv dt cs h1 line e) as (ticker & Hrow & Hcases);
    [lia | lia | lia | lia | done |].
  exists i, header, cs, pre, post, line, ticker, h1. split_and!; done.
Qed.

Lemma parser_failures_witness :
  exists (cs : columns) (line ticker : string),
    tracked_row cs line ticker /\
    (len (csv_cols line) <= shares_col cs \/
     (date_col cs <> -1 /\ len (csv_cols line) <= date_col cs)).
Proof.
  destruct (parser_failures (datetime_on "2026-11-04") ["Ticker,Shares"; "GRWG,7"; "MAPS"]
              IndexError)
    as [[Habs _]|(i & header & cs & pre & post & line & ticker & h & _ & _ & _ & _ & Hrow & Hcase)].
  - repeat (apply Forall_cons; split; [vm_compute; reflexivity|]). apply Forall_nil_2.
  - vm_compute. reflexivity.
  - discriminate Habs.
  - exists cs, line, ticker. split; [exact Hrow|].
    destruct Hcase as [[_ Hshort]|[Hbad _]]; [exact Hshort|].
    exfalso. unfold MalformedQuantity in Hbad. by destruct Hbad as [?|[?|?]].
Defined.

(** ** The date of a record *)

Lemma first_match_none {A B} (k : A -> option B) (l : list A) :
  Forall (fun x => k x = None) l -> first_match k l = None.
Proof. induction 1 as [|x l Hx _ IH]; simpl; [done | by rewrite Hx]. Qed.

Lemma after_slash_none {B} (k : list ascii -> option B) (l : list ascii) :
  "/"%char ∉ l -> after_slash k l = None.
Proof.
  destruct l as [|c rest]; simpl; [done|].
  destruct (Ascii.eqb_spec c "/") as [->|_]; [|done].
  intros Hnot. exfalso. apply Hnot. apply list_elem_of_here.
Qed.

Lemma month_prefix_suffix (l : list ascii) :
  Forall (fun m => exists pre, l = pre ++ snd m) (month_prefix l).
Proof.
  unfold month_prefix, two_digit_prefix, one_digit_prefix. apply Forall_app. split.
  - destruct l as [|a [|b rest]]; try apply Forall_nil_2.
    destruct (_ && _); [|apply Forall_nil_2].
    apply Forall_cons. split; [|apply Forall_nil_2]. by exists [a; b].
  - destruct l as [|a rest]; [apply Forall_nil_2|].
    destruct (_ && _); [|apply Forall_nil_2].
    apply Forall_cons. split; [|apply Forall_nil_2]. by exists [a].
Qed.

Lemma mdy_to_ymd_slash (s : string) :
  "/"%char ∉ chars s -> mdy_to_ymd s = None.
Proof.
  intros Hnot. unfold mdy_to_ymd.
  assert (match_mdy (chars s) = None) as ->; [|done].
  unfold match_mdy. apply first_match_none.
  eapply Forall_impl; [apply month_prefix_suffix|].
  intros m (pre & Hpre). apply after_slash_none.
  intros Hin. apply Hnot. rewrite Hpre. apply elem_of_app. by right.
Qed.

Lemma parse_date_text (dt : datetime_lib) (cs : columns) (cols : list string) :
  -1 <= date_col cs ->
  date_col cs = -1 \/ date_col cs < len cols ->
  parse_date dt cs cols =
    Ok (default (date_text dt cs cols) (reformat dt (date_text dt cs cols))).
Proof.
  intros Hrange Hcol. unfold parse_date, date_text.
  destruct (Z.eqb_spec (date_col cs) (-1)) as [?|Hne]; [done|].
  destruct (getitem_in_range cols (date_col cs)) as (c & -> & ->); [lia|].
  rewrite !bind_Ok. destruct (truthy c); by rewrite !bind_Ok.
Qed.

(** X9. The date of a record. For a row that reaches the DATE column of the
    header, or under a header without one, reading the date does not fail:
    the text is the DATE field, or today's date when there is no DATE column
    or the field is empty, and it is stored as [strptime] and [strftime]
    rewrite it, or as it is when [strptime] rejects it. With the calendar of
    the examples, a text that holds no slash is stored as it is, which is
    the case of today's date. *)
Theorem date_of_record (dt : datetime_lib) (cs : columns) (cols : list string) :
  -1 <= date_col cs ->
  date_col cs = -1 \/ date_col cs < len cols ->
  parse_date dt cs cols =
    Ok (default (date_text dt cs cols) (reformat dt (date_text dt cs cols))) /\
  (reformat dt = mdy_to_ymd ->
   "/"%char ∉ chars (date_text dt cs cols) ->
   parse_date dt cs cols = Ok (date_text dt cs cols)).
Proof.
  intros Hrange Hcol. split; [by apply parse_date_text|].
  intros Hcal Hslash. rewrite parse_date_text by done.
  by rewrite Hcal, mdy_to_ymd_slash.
Qed.

Lemma date_of_record_witness :
  parse_date (datetime_on "2026-11-04") ticker_shares ["MAPS"; "5"] = Ok "2026-11-04".
Proof.
  refine (proj2 (date_of_record (datetime_on "2026-11-04") ticker_shares ["MAPS"; "5"] _ _) _ _).
  - vm_compute. discriminate.
  - by left.
  - reflexivity.
  - vm_compute. intros H. apply list_elem_of_In in H. simpl in H. intuition discriminate.
Defined.

(** ** The clock *)

Lemma parse_date_clock_raise (dt1 dt2 : datetime_lib) (cs : columns) (cols : list string)
    (e : exn) :
  parse_date dt1 cs cols = Raise e -> parse_date dt2 cs cols = Raise e.
Proof.
  unfold parse_date.
  destruct (if date_col cs =? -1 then Ok false
            else getitem cols (date_col cs) ≫= fun c => Ok (truthy c)) as [present|e'] eqn:Hp.
  2: { by rewrite !bind_Raise. }
  rewrite !bind_Ok. destruct present; [|by rewrite !bind_Ok].
  destruct (getitem cols (date_col cs)) as [c|e'']; [by rewrite !bind_Ok|].
  by rewrite !bind_Raise.
Qed.

Lemma parse_line_clock_raise (dt1 dt2 : datetime_lib) (cs : columns)
    (h1 h2 : gmap string holding) (line : string) (e : exn) :
  parse_line dt1 cs h1 line = Raise e -> parse_line dt2 cs h2 line = Raise e.
Proof.
  unfold parse_line.
  destruct (negb (truthy (strip line))); [discriminate|].
  destruct (len (csv_cols line) <=? ticker_col cs); [discriminate|].
  destruct (getitem (csv_cols line) (ticker_col cs)) as [t|]; [|done].
  rewrite !bind_Ok. destruct (is_target (upper t)); [|discriminate].
  destruct (parse_date dt1 cs (csv_cols line)) as [d1|e1] eqn:Hd1.
  - destruct (parse_date_clock dt1 dt2 cs (csv_cols line) d1 Hd1) as (d2 & ->).
    rewrite !bind_Ok.
    destruct (parse_shares cs (csv_cols line)) as [n|]; [|done]. rewrite !bind_Ok.
    destruct (parse_weighting cs (csv_cols line)) as [w|]; [|done]. by rewrite !bind_Ok.
  - rewrite (parse_date_clock_raise dt1 dt2 cs (csv_cols line) e1 Hd1). done.
Qed.

Lemma parse_lines_clock_raise (dt1 dt2 : datetime_lib) (cs : columns) (lines : list string)
    (h1 h2 : gmap string holding) (e : exn) :
  same_quantities h1 h2 ->
  parse_lines dt1 cs h1 lines = Raise e ->
  parse_lines dt2 cs h2 lines = Raise e.
Proof.
  revert h1 h2. induction lines as [|line rest IH]; intros h1 h2 Hsame; simpl; [discriminate|].
  intros H. apply result_bind_raise in H as [H|(hm & Hline & H)].
  - by rewrite (parse_line_clock_raise dt1 dt2 cs h1 h2 line e H).
  - destruct (parse_line_clock dt1 dt2 cs h1 h2 hm line Hsame Hline) as (hm2 & -> & Hsame').
    rewrite bind_Ok. by apply (IH hm).
Qed.

(** X10. The clock matters for the dates only. Parsing the same feed at
    another time fails with the same exception if it failed, and otherwise
    returns records for the same tickers with the same share counts and the
    same weightings: only the dates of rows that have no date of their own
    can differ. *)
Theorem clock_affects_dates_only (dt1 dt2 : datetime_lib) (lines : list string) :
  match parse_csv dt1 lines with
  | Ok h1 => exists h2, parse_csv dt2 lines = Ok h2 /\ same_quantities h1 h2
  | Raise e => parse_csv dt2 lines = Raise e
  end.
Proof.
  destruct (parse_csv dt1 lines) as [h1|e] eqn:Hparse.
  - by apply (parse_csv_clock dt1).
  - unfold parse_csv in *. destruct (find_header lines) as [[i header]|]; [|done].
    destruct (resolve_columns header) as [cs|]; [|done]. rewrite bind_Ok in *.
    apply (parse_lines_clock_raise dt1 dt2 cs _ ∅ ∅); [|done].
    intros t. by rewrite lookup_empty.
Qed.

(** ** The fetch *)


(** ** The alert, in full *)

Lemma send_discord_alert_cases (env : environment) (ticker company : string)
    (current : holding) (previous_data : option previous) :
  (url_of (WEBHOOK_URL env) = None /\
   trace (send_discord_alert env ticker company current previous_data)
   = [Print (NoWebhookWarning ticker)]) \/
  (is_Some (url_of (WEBHOOK_URL env)) /\
   trace (send_discord_alert env ticker company current previous_data) = []) \/
  exists (url : string) (payload : alert),
    url_of (WEBHOOK_URL env) = Some url /\
    (trace (send_discord_alert env ticker company current previous_data) = [Post url payload] \/
     exists (status : Z) (body : string),
       trace (send_discord_alert env ticker company current previous_data)
       = [Post url payload; Print (FailedToSendWebhook status body)]) /\
    alert_ticker payload = ticker /\
    alert_company payload = company /\
    alert_date payload = date current /\
    current_shares payload = shares current /\
    prev_shares payload = match previous_data with
                          | Some p => previous_shares p
                          | None => VInt 0
                          end /\
    py_sub (shares current) (prev_shares payload) = Ok (delta payload) /\
    py_eq (delta payload) (VInt 0) = false /\
    current_weighting payload = fmul (weighting current) f100 /\
    match previous_data with
    | Some p =>
        exists w : value,
          py_mul100 (previous_weighting p) = Ok w /\ prev_weighting payload = Some w
    | None => prev_weighting payload = None
    end /\
    (direction payload, color payload) =
      (if py_positive (delta payload) then ("increased", 1398564) else ("decreased", 7478308)).
Proof.
  remember (trace (send_discord_alert env ticker company current previous_data)) as tr eqn:Htr.
  unfold send_discord_alert in Htr.
  destruct (url_of (WEBHOOK_URL env)) as [u|] eqn:Hurl.
  2: { left. by split. }
  right. cbv zeta in Htr. rewrite trace_bind in Htr. unfold lift in Htr.
  cbn [trace outcome app] in Htr.
  set (prev := match previous_data with Some p => previous_shares p | None => VInt 0 end) in *.
  destruct (py_sub (shares current) prev) as [dl|] eqn:Hdelta.
  2: { left. by split. }
  destruct (py_eq dl (VInt 0)) eqn:Hzero.
  { left. by split. }
  rewrite trace_bind in Htr. cbn [trace outcome app] in Htr.
  destruct (if py_ne prev (VInt 0) then py_truediv dl prev else Ok (VInt 0))
    as [pc|] eqn:Hpercent.
  2: { left. by split. }
  rewrite trace_bind in Htr. cbn [trace outcome app] in Htr.
  destruct (match previous_data with
            | Some p => py_mul100 (previous_weighting p) ≫= _
            | None => Ok None
            end) as [pw|] eqn:Hpw.
  2: { left. by split. }
  rewrite trace_bind, post_trace, post_outcome in Htr.
  destruct (http_post env u _) as [r|] eqn:Hpost.
  2: { left. by split. }
  right. eexists u, _. split; [done|]. split.
  { rewrite Htr. destruct (negb (accepted (status_code r))).
    - right. eexists _, _. reflexivity.
    - left. reflexivity. }
  cbn [alert_ticker alert_company alert_date current_shares prev_shares delta
       current_weighting prev_weighting direction color].
  split_and!; try done.
  - destruct previous_data as [p|].
    + destruct (py_mul100 (previous_weighting p)) as [w|] eqn:Hw; [|done].
      rewrite bind_Ok in Hpw.
      destruct (format_2f w) as [w'|] eqn:Hw'; [|done]. rewrite bind_Ok in Hpw.
      injection Hpw as <-. exists w. split; [done|].
      destruct w; simpl in Hw'; try done.
      * destruct (int_to_float z); simpl in Hw'; [|done]. by injection Hw' as <-.
      * by injection Hw' as <-.
    + by injection Hpw as <-.
  - by destruct (py_positive dl).
Qed.

(** ** What a run prints and posts *)

Lemma announce_trace (env : environment) (ticker company : string)
    (current : holding) (previous_data : option previous) :
  trace (announce env ticker company current previous_data) =
  match previous_data with
  | None => [Print (FirstTimeTracking ticker)]
  | Some p =>
      if py_ne (VInt (shares current)) (previous_shares p)
      then Print (DetectedChange ticker (previous_shares p) (shares current))
           :: trace (send_discord_alert env ticker company current (Some p))
      else []
  end.
Proof.
  unfold announce. destruct previous_data as [p|]; [|done].
  destruct (py_ne _ _); [|done]. by rewrite trace_bind.
Qed.

Lemma for_each_Forall {A B} (P : event -> Prop) (body : A -> B -> action A)
    (l : list B) (a : A) :
  (forall (a' : A) (x : B), x ∈ l -> Forall P (trace (body a' x))) ->
  Forall P (trace (for_each body a l)).
Proof.
  revert a. induction l as [|x l IH]; intros a Hall; cbn [for_each].
  - apply Forall_nil_2.
  - apply Forall_trace_bind.
    + apply Hall. apply list_elem_of_here.
    + intros a' _. apply IH. intros a'' y Hy. apply Hall. by apply list_elem_of_further.
Qed.

Lemma main_body_Forall (P : event -> Prop) (env : environment) (file : option document) :
  P (Print FetchingCSV) -> P (Print ParsingCSV) -> P (Print LoadingState) ->
  (forall fs shares_idx weight_idx h d target,
     target ∈ TARGET_TICKERS ->
     Forall P (trace (process_ticker env fs shares_idx weight_idx h d target))) ->
  Forall P (trace (main_body env file)).
Proof.
  intros Hf Hp Hl Hstep. unfold main_body.
  apply Forall_trace_bind; [by repeat constructor|]. intros _ _.
  apply Forall_trace_bind; [apply Forall_nil_2|]. intros lines _.
  apply Forall_trace_bind; [by repeat constructor|]. intros _ _.
  apply Forall_trace_bind; [apply Forall_nil_2|]. intros current_holdings _.
  apply Forall_trace_bind; [by repeat constructor|]. intros _ _.
  apply Forall_trace_bind; [apply Forall_nil_2|]. intros shares_idx _.
  apply Forall_trace_bind; [apply Forall_nil_2|]. intros weight_idx _.
  apply Forall_trace_bind.
  - apply for_each_Forall. intros d target Hin. by apply Hstep.
  - intros d' _. apply Forall_nil_2.
Qed.

Lemma main_output_Forall (P : event -> Prop) (env : environment) (file : option document) :
  P (Print FetchingCSV) -> P (Print ParsingCSV) -> P (Print LoadingState) -> P (Print Done) ->
  (forall fs shares_idx weight_idx h d target,
     target ∈ TARGET_TICKERS ->
     Forall P (trace (process_ticker env fs shares_idx weight_idx h d target))) ->
  Forall P (output (main env file)).
Proof.
  intros Hf Hp Hl Hd Hstep.
  pose proof (main_body_Forall P env file Hf Hp Hl Hstep) as Hbody.
  unfold main. destruct (outcome (main_body env file)); cbn [output]; [|done].
  apply Forall_app. split; [done | by repeat constructor].
Qed.

Lemma process_ticker_Forall (P : event -> Prop) (env : environment) (fs : list string)
    (shares_idx weight_idx : Z) (h : gmap string holding)
    (d : gmap string (list (list value))) (ticker company : string) :
  P (Print (CouldNotFind ticker)) ->
  P (Print (FirstTimeTracking ticker)) ->
  (forall (current : holding) (p : previous),
     h !! ticker = Some current ->
     P (Print (DetectedChange ticker (previous_shares p) (shares current))) /\
     Forall P (trace (send_discord_alert env ticker company current (Some p)))) ->
  Forall P (trace (process_ticker env fs shares_idx weight_idx h d (ticker, company))).
Proof.
  intros Hmissing Hfirst Hchange. rewrite process_ticker_trace.
  destruct (h !! ticker) as [current|] eqn:Hcur; [|by repeat constructor].
  destruct (decode_previous _ _ _ _) as [previous_data|]; [|apply Forall_nil_2].
  rewrite announce_trace. destruct previous_data as [p|]; [|by repeat constructor].
  destruct (py_ne _ _); [|apply Forall_nil_2].
  destruct (Hchange current p eq_refl) as [Hd Hs]. by apply Forall_cons.
Qed.

Lemma send_discord_alert_sound (env : environment) (ticker company : string)
    (current : holding) (p : previous) :
  (ticker, company) ∈ TARGET_TICKERS ->
  Forall (sound_alert env) (trace (send_discord_alert env ticker company current (Some p))).
Proof.
  intros Hin.
  destruct (send_discord_alert_cases env ticker company current (Some p))
    as [[_ ->]|[[_ ->]|(url & payload & Hurl & Htr & Ht & Hc & _ & Hcur & _ & Hsub & Hzero
                         & _ & (w & _ & Hw) & Hdir)]].
  - by repeat constructor.
  - apply Forall_nil_2.
  - assert (sound_alert env (Post url payload)) as Hsound.
    { simpl. rewrite Ht, Hc, Hcur, Hw. split_and!; first [done | by eexists]. }
    destruct Htr as [->|(status & body & ->)]; (repeat (apply Forall_cons; split; [done|]); apply Forall_nil_2).
Qed.

Lemma main_output_sound (env : environment) (file : option document) :
  Forall (sound_alert env) (output (main env file)).
Proof.
  apply main_output_Forall; try done.
  intros fs shares_idx weight_idx h d [ticker company] Hin.
  apply process_ticker_Forall; try done.
  intros current p _. split; [done|]. by apply send_discord_alert_sound.
Qed.

Lemma no_webhook_nothing_posted (env : environment) (file : option document) :
  url_of (WEBHOOK_URL env) = None -> posted (output (main env file)) = [].
Proof.
  intros Hnone. pose proof (main_output_sound env file) as Hall.
  induction Hall as [|e l He _ IH]; [done|].
  destruct e as [m|url payload]; cbn [posted omap]; [exact IH|].
  destruct He as [Hurl _]. congruence.
Qed.

(** X12. Every alert that a run posts, whether the run completes or not, goes
    to the configured webhook, is about a tracked ticker under its company
    name, reports the difference of the current and the previous share
    count, which is not zero, carries a previous weighting (the N/A of the
    message is never reached), and has the direction and the colour that
    follow the sign of the difference. In particular a run with no webhook
    posts nothing. *)
Theorem alerts_sound (env : environment) (file : option document) :
  Forall (sound_alert env) (output (main env file)) /\
  (url_of (WEBHOOK_URL env) = None -> posted (output (main env file)) = []).
Proof. split; [apply main_output_sound | apply no_webhook_nothing_posted]. Qed.

(** ** One alert per ticker *)

Lemma posted_app (l1 l2 : list event) : posted (l1 ++ l2) = posted l1 ++ posted l2.
Proof. apply omap_app. Qed.

Lemma send_discord_alert_posted (env : environment) (ticker company : string)
    (current : holding) (previous_data : option previous) :
  alert_ticker <$> posted (trace (send_discord_alert env ticker company current previous_data))
  = [] \/
  alert_ticker <$> posted (trace (send_discord_alert env ticker company current previous_data))
  = [ticker].
Proof.
  destruct (send_discord_alert_cases env ticker company current previous_data)
    as [[_ ->]|[[_ ->]|(url & payload & _ & Htr & Ht & _)]].
  - by left.
  - by left.
  - right. destruct Htr as [->|(status & body & ->)]; simpl; by rewrite Ht.
Qed.

Lemma process_ticker_posted (env : environment) (fs : list string)
    (shares_idx weight_idx : Z) (h : gmap string holding)
    (d : gmap string (list (list value))) (ticker company : string) :
  (alert_ticker <$>
     posted (trace (process_ticker env fs shares_idx weight_idx h d (ticker, company))))
  `sublist_of` [ticker].
Proof.
  rewrite process_ticker_trace.
  destruct (h !! ticker) as [current|]; [|apply sublist_nil_l].
  destruct (decode_previous _ _ _ _) as [previous_data|]; [|apply sublist_nil_l].
  rewrite announce_trace. destruct previous_data as [p|]; [|apply sublist_nil_l].
  destruct (py_ne _ _); [|apply sublist_nil_l].
  change (posted (Print ?m :: ?l)) with (posted l).
  destruct (send_discord_alert_posted env ticker company current (Some p)) as [-> | ->].
  - apply sublist_nil_l.
  - done.
Qed.

Lemma for_each_posted (env : environment) (fs : list string)
    (shares_idx weight_idx : Z) (h : gmap string holding)
    (targets : list (string * string)) (d : gmap string (list (list value))) :
  (alert_ticker <$>
     posted (trace (for_each (process_ticker env fs shares_idx weight_idx h) d targets)))
  `sublist_of` (fst <$> targets).
Proof.
  revert d. induction targets as [|[t c] targets IH]; intros d; [done|].
  rewrite for_each_cons, trace_bind, posted_app, fmap_app, fmap_cons.
  apply (sublist_app _ [t]); [apply process_ticker_posted|].
  destruct (outcome _) as [dm|]; [apply IH | apply sublist_nil_l].
Qed.

Lemma main_body_posted (env : environment) (file : option document) :
  (alert_ticker <$> posted (trace (main_body env file))) `sublist_of` (fst <$> TARGET_TICKERS).
Proof.
  unfold main_body.
  rewrite trace_bind. unfold print at 1 2. cbn [trace outcome]. rewrite posted_app.
  change (posted [Print FetchingCSV]) with (@nil alert). cbn [app].
  rewrite trace_bind. unfold lift at 1 2. cbn [trace outcome app].
  destruct (fetch_csv env) as [lines|]; [|apply sublist_nil_l].
  rewrite trace_bind. unfold print at 1 2. cbn [trace outcome]. rewrite posted_app.
  change (posted [Print ParsingCSV]) with (@nil alert). cbn [app].
  rewrite trace_bind. unfold lift at 1 2. cbn [trace outcome app].
  destruct (parse_csv (clock env) lines) as [h|]; [|apply sublist_nil_l].
  rewrite trace_bind. unfold print at 1 2. cbn [trace outcome]. rewrite posted_app.
  change (posted [Print LoadingState]) with (@nil alert). cbn [app].
  rewrite trace_bind. unfold lift at 1 2. cbn [trace outcome app].
  destruct (list_index "shares" _) as [shares_idx|]; [|apply sublist_nil_l].
  rewrite trace_bind. unfold lift at 1 2. cbn [trace outcome app].
  destruct (list_index "weighting" _) as [weight_idx|]; [|apply sublist_nil_l].
  rewrite trace_bind, posted_app.
  destruct (outcome (for_each _ _ _)) as [d'|]; cbn [trace mret action_ret];
    rewrite app_nil_r; apply for_each_posted.
Qed.

(** X13. A run posts at most one alert for each tracked ticker, in the order
    of the tracked tickers: never two alerts for the same ticker, never more
    alerts than tracked tickers. *)
Theorem one_alert_per_ticker (env : environment) (file : option document) :
  (alert_ticker <$> posted (output (main env file))) `sublist_of` (fst <$> TARGET_TICKERS) /\
  NoDup (alert_ticker <$> posted (output (main env file))) /\
  (length (posted (output (main env file))) <= length TARGET_TICKERS)%nat.
Proof.
  assert ((alert_ticker <$> posted (output (main env file)))
          `sublist_of` (fst <$> TARGET_TICKERS)) as Hsub.
  { unfold main. destruct (outcome (main_body env file)); cbn [output].
    - rewrite posted_app. change (posted [Print Done]) with (@nil alert).
      rewrite app_nil_r. apply main_body_posted.
    - apply main_body_posted. }
  split_and!; [done | |].
  - eapply sublist_NoDup; [apply targets_nodup | exact Hsub].
  - apply sublist_length in Hsub. by rewrite !length_fmap in Hsub.
Qed.

(** ** The end of a run *)

Lemma send_discord_alert_not_done (env : environment) (ticker company : string)
    (current : holding) (previous_data : option previous) :
  Forall (fun e => e <> Print Done)
    (trace (send_discord_alert env ticker company current previous_data)).
Proof.
  destruct (send_discord_alert_cases env ticker company current previous_data)
    as [[_ ->]|[[_ ->]|(url & payload & _ & Htr & _)]].
  - by repeat constructor.
  - apply Forall_nil_2.
  - destruct Htr as [->|(status & body & ->)]; (repeat (apply Forall_cons; split; [done|]); apply Forall_nil_2).
Qed.

(** X14. A run prints its last line, Done, exactly when it completed, that is
    when it saved the state: a run that raised never prints it. Every run
    begins by printing that it fetches the feed. *)
Theorem done_iff_completed (env : environment) (file : option document) :
  (Print Done ∈ output (main env file) <-> exit_status (main env file) = Ok tt) /\
  (exit_status (main env file) = Ok tt <->
   last (output (main env file)) = Some (Print Done)) /\
  head (output (main env file)) = Some (Print FetchingCSV).
Proof.
  assert (Forall (fun e => e <> Print Done) (trace (main_body env file))) as Hbody.
  { apply main_body_Forall; try done.
    intros fs shares_idx weight_idx h d [ticker company] Hin.
    apply process_ticker_Forall; try done.
    intros current p _. split; [done | apply send_discord_alert_not_done]. }
  assert (exists rest, trace (main_body env file) = Print FetchingCSV :: rest) as [rest Hhead].
  { unfold main_body. rewrite trace_bind. unfold print at 1. cbn [trace app]. by eexists. }
  rewrite Forall_forall in Hbody.
  unfold main. destruct (outcome (main_body env file)) as [st|e]; cbn [output exit_status].
  - split_and!.
    + split; [done|]. intros _. apply elem_of_app. right. apply list_elem_of_here.
    + by rewrite last_snoc.
    + by rewrite Hhead.
  - split_and!.
    + split; [|done]. intros Hin. by apply Hbody in Hin.
    + split; [done|]. intros Hlast. apply last_Some_elem_of in Hlast. by apply Hbody in Hlast.
    + by rewrite Hhead.
Qed.

(** ** The schema of the state file *)

Lemma index_from_elem_of (x : string) (l : list string) (i0 i : Z) :
  index_from x i0 l = Ok i -> x ∈ l.
Proof.
  intros H. apply index_from_lookup in H. by apply list_elem_of_lookup_2 in H.
Qed.

Lemma index_from_not_in (x : string) (l : list string) (i0 : Z) :
  x ∉ l -> index_from x i0 l = Raise (ValueError "is not in list").
Proof.
  intros Hnot. destruct (index_from x i0 l) as [i|e] eqn:H.
  - by apply index_from_elem_of in H.
  - by apply index_from_absent in H as [-> _].
Qed.

(** X15. A state file whose schema lacks the field shares or the field
    weighting stops the run after the feed was parsed: [fields.index] raises
    its [ValueError] before any ticker is looked at, so nothing is posted and
    the state file stays as it was. *)
Theorem schema_missing_field (env : environment) (file : option document)
    (lines : list string) (h : gmap string holding) :
  fetch_csv env = Ok lines ->
  parse_csv (clock env) lines = Ok h ->
  "shares" ∉ schema file \/ "weighting" ∉ schema file ->
  main env file =
    {| output := [Print FetchingCSV; Print ParsingCSV; Print LoadingState];
       state_file := file;
       exit_status := Raise (ValueError "is not in list") |}.
Proof.
  intros Hfetch Hparse Hmissing. unfold main, main_body.
  rewrite Hfetch. cbn [lift print mbind action_bind outcome trace app].
  rewrite Hparse. cbn [lift print mbind action_bind outcome trace app].
  change (default default_fields (fields (load_state file))) with (schema file).
  destruct (list_index "shares" (schema file)) as [shares_idx|e] eqn:Hs.
  - destruct Hmissing as [Hnot|Hnot].
    { by apply index_from_elem_of in Hs. }
    cbn [lift print mbind action_bind outcome trace app].
    unfold list_index. rewrite (index_from_not_in _ _ _ Hnot). reflexivity.
  - apply index_from_absent in Hs as [-> _]. reflexivity.
Qed.

Lemma schema_missing_field_witness :
  exit_status (main (sample_env unchanged_csv None 204)
                 (Some {| fields := Some ["date"; "shares"]; data := None |}))
  = Raise (ValueError "is not in list").
Proof.
  rewrite (schema_missing_field (sample_env unchanged_csv None 204)
             (Some {| fields := Some ["date"; "shares"]; data := None |})
             unchanged_csv
             (<["MAPS" := sample_holding "2026-11-04" 1000000 "1.00%"]> ∅)).
  - reflexivity.
  - vm_compute. reflexivity.
  - vm_compute. reflexivity.
  - right. intros Hin. apply list_elem_of_In in Hin. simpl in Hin. intuition discriminate.
Defined.

Lemma schema_after_run (env : environment) (file : option document) :
  fields (load_state (state_file (main env file))) = fields (load_state file).
Proof.
  destruct (exit_status (main env file)) as [[]|e] eqn:Hexit.
  - destruct (main_ok_inv env file Hexit)
      as (lines & holdings & _ & _ & _ & Hfetch & Hparse & _).
    destruct (main_completed env file lines holdings Hfetch Hparse Hexit)
      as (shares_idx & weight_idx & d' & [_ _ _ Hstate _]).
    by rewrite Hstate.
  - by rewrite (main_raise_unchanged env file e Hexit).
Qed.

Lemma untracked_after_run (env : environment) (file : option document) (ticker : string) :
  ticker ∉ (fst <$> TARGET_TICKERS) ->
  stored_history (state_file (main env file)) ticker = stored_history file ticker.
Proof.
  intros Hnot. destruct (exit_status (main env file)) as [[]|e] eqn:Hexit.
  - destruct (main_ok_inv env file Hexit)
      as (lines & holdings & _ & _ & _ & Hfetch & Hparse & _).
    destruct (main_completed env file lines holdings Hfetch Hparse Hexit)
      as (shares_idx & weight_idx & d' & Hdone).
    eapply completed_untracked; [done | by left].
  - by rewrite (main_raise_unchanged env file e Hexit).
Qed.

(** X16. No run changes the schema of the state file, nor the history stored
    under a key that is not a tracked ticker: the field list that the file
    declares (or its absence) is saved as it was loaded, and only the
    histories of the tracked tickers can grow. *)
Theorem schema_and_other_keys_kept (env : environment) (file : option document) :
  fields (load_state (state_file (main env file))) = fields (load_state file) /\
  schema (state_file (main env file)) = schema file /\
  forall ticker : string,
    ticker ∉ (fst <$> TARGET_TICKERS) ->
    stored_history (state_file (main env file)) ticker = stored_history file ticker.
Proof.
  split_and!.
  - apply schema_after_run.
  - unfold schema. by rewrite schema_after_run.
  - apply untracked_after_run.
Qed.

(** ** The records of the state file *)

Lemma history_after_run (env : environment) (file : option document) (ticker : string) :
  stored_history (state_file (main env file)) ticker = stored_history file ticker \/
  exists current : holding,
    ticker ∈ (fst <$> TARGET_TICKERS) /\
    stored_history (state_file (main env file)) ticker
    = stored_history file ticker ++ [map (holding_get current) (schema file)].
Proof.
  destruct (exit_status (main env file)) as [[]|e] eqn:Hexit.
  2: { left. by rewrite (main_raise_unchanged env file e Hexit). }
  destruct (main_ok_inv env file Hexit)
    as (lines & holdings & _ & _ & _ & Hfetch & Hparse & _).
  destruct (main_completed env file lines holdings Hfetch Hparse Hexit)
    as (shares_idx & weight_idx & d' & Hdone).
  destruct (decide (ticker ∈ (fst <$> TARGET_TICKERS))) as [Hin|Hnot].
  2: { left. eapply completed_untracked; [done | by left]. }
  destruct (holdings !! ticker) as [current|] eqn:Hcur.
  2: { left. eapply completed_untracked; [done | by right]. }
  pose proof Hin as Hin'.
  apply list_elem_of_fmap in Hin' as ([t c] & -> & Htc). cbn [fst] in *.
  destruct (completed_history _ _ _ _ _ _ t c current Hdone Htc Hcur)
    as (previous_data & _ & _ & Hhist).
  destruct (changed current previous_data).
  - right. by exists current.
  - left. by rewrite app_nil_r in Hhist.
Qed.




Lemma default_record_spec (current : holding) :
  map (holding_get current) default_fields = default_record current.
Proof. reflexivity. Qed.

Lemma reachable_invariant (file : option document) :
  reachable file ->
  schema file = default_fields /\
  forall (ticker : string) (record : list value),
    record ∈ stored_history file ticker ->
    ticker ∈ (fst <$> TARGET_TICKERS) /\
    exists current : holding, record = default_record current.
Proof.
  induction 1 as [|env file _ [IHs IHr]].
  - split; [done|]. intros ticker record Hin. by apply elem_of_nil in Hin.
  - split.
    + unfold schema in *. by rewrite schema_after_run.
    + intros ticker record Hin.
      destruct (history_after_run env file ticker) as [Heq|(current & Ht & Heq)];
        rewrite Heq in Hin.
      * by apply IHr.
      * apply elem_of_app in Hin as [Hin|Hin].
        -- by apply IHr.
        -- apply list_elem_of_singleton in Hin. split; [done|].
           exists current. by rewrite Hin, IHs.
Qed.

(** X18. The states that the program leads to from no state file. Whatever
    the runs in between (completed or not, with any feed, clock and
    webhook), the state file keeps the default schema, holds histories for
    tracked tickers only, and every record in it is a date text, an integer
    share count and a float weighting; so the latest record of every ticker
    decodes, without error, to such values. *)
Theorem reachable_states (file : option document) :
  reachable file ->
  schema file = default_fields /\
  (forall (ticker : string) (record : list value),
     record ∈ stored_history file ticker ->
     ticker ∈ (fst <$> TARGET_TICKERS) /\
     exists current : holding, record = default_record current) /\
  forall ticker : string,
    match last (stored_history file ticker) with
    | None => latest file ticker = Ok None
    | Some record =>
        exists current : holding,
          record = default_record current /\
          latest file ticker =
            Ok (Some {| previous_date := VStr (date current);
                        previous_shares := VInt (shares current);
                        previous_weighting := VFloat (weighting current) |})
    end.
Proof.
  intros Hreach. destruct (reachable_invariant file Hreach) as [Hschema Hrecords].
  split_and!; [done | done |]. intros ticker.
  unfold latest. rewrite Hschema.
  change (list_index "shares" default_fields) with (Ok (A := Z) 1).
  change (list_index "weighting" default_fields) with (Ok (A := Z) 2).
  rewrite !bind_Ok. unfold decode_previous.
  destruct (last (stored_history file ticker)) as [record|] eqn:Hlast; [|done].
  apply last_Some_elem_of in Hlast.
  destruct (Hrecords ticker record Hlast) as (_ & current & ->).
  exists current. split; reflexivity.
Qed.

Lemma reachable_states_witness :
  schema (state_file (main (sample_env shares_changed_csv sample_webhook 204)
                        (state_file (main (sample_env unchanged_csv None 204) None))))
  = default_fields.
Proof.
  refine (proj1 (reachable_states _ _)).
  apply reachable_run, reachable_run, reachable_start.
Defined.

(** ** Runs that complete *)

Lemma for_each_total (env : environment) (fs : list string) (shares_idx weight_idx : Z)
    (h : gmap string holding) (targets : list (string * string))
    (d : gmap string (list (list value))) :
  NoDup (fst <$> targets) ->
  (forall t c, (t, c) ∈ targets ->
     exists d1, outcome (process_ticker env fs shares_idx weight_idx h d (t, c)) = Ok d1) ->
  exists d', outcome (for_each (process_ticker env fs shares_idx weight_idx h) d targets) = Ok d'.
Proof.
  revert d. induction targets as [|[t c] targets IH]; intros d Hnodup Hall.
  - by exists d.
  - rewrite fmap_cons in Hnodup. apply NoDup_cons in Hnodup as [Hfresh Hnodup].
    destruct (Hall t c) as (dm & Hstep); [apply list_elem_of_here|].
    rewrite for_each_cons, outcome_bind, Hstep. apply IH; [done|].
    intros t' c' Hin.
    assert (t' <> t) as Hne.
    { intros ->. apply Hfresh. apply list_elem_of_fmap. by exists (t, c'). }
    destruct (Hall t' c') as (d1 & Hd1); [by apply list_elem_of_further|].
    pose proof (process_ticker_frame _ _ _ _ _ _ _ _ _ t' Hstep Hne) as Hsame.
    pose proof (process_ticker_local env fs shares_idx weight_idx h dm d t' c' Hsame)
      as [_ Hout].
    rewrite Hd1 in Hout.
    destruct (outcome (process_ticker env fs shares_idx weight_idx h dm (t', c'))) as [d2|];
      [by exists d2 | done].
Qed.

Lemma announce_dry (env : environment) (ticker company : string)
    (current : holding) (previous_data : option previous) :
  url_of (WEBHOOK_URL env) = None ->
  outcome (announce env ticker company current previous_data) = Ok tt.
Proof.
  intros Hurl. unfold announce. destruct previous_data as [p|]; [|done].
  destruct (py_ne _ _); [|done].
  rewrite outcome_bind. cbn [print outcome]. unfold send_discord_alert. by rewrite Hurl.
Qed.

Lemma latest_ok_inv (file : option document) (ticker : string)
    (previous_data : option previous) :
  latest file ticker = Ok previous_data ->
  exists shares_idx weight_idx : Z,
    list_index "shares" (schema file) = Ok shares_idx /\
    list_index "weighting" (schema file) = Ok weight_idx /\
    decode_previous (schema file) shares_idx weight_idx (stored_history file ticker)
    = Ok previous_data.
Proof.
  unfold latest. intros H.
  apply result_bind_ok in H as (shares_idx & Hs & H).
  apply result_bind_ok in H as (weight_idx & Hw & H).
  by exists shares_idx, weight_idx.
Qed.

(** X19. Without a webhook a run cannot fail in the change detector. When
    [DISCORD_WEBHOOK_URL] is unset or empty, the feed was fetched and parsed,
    and the latest record of each tracked ticker decodes, the run completes:
    it prints its reports, posts nothing and saves the state. *)
Theorem dry_run_completes (env : environment) (file : option document)
    (lines : list string) (h : gmap string holding) :
  url_of (WEBHOOK_URL env) = None ->
  fetch_csv env = Ok lines ->
  parse_csv (clock env) lines = Ok h ->
  (forall ticker : string,
     ticker ∈ (fst <$> TARGET_TICKERS) ->
     exists previous_data, latest file ticker = Ok previous_data) ->
  exit_status (main env file) = Ok tt /\
  posted (output (main env file)) = [] /\
  last (output (main env file)) = Some (Print Done).
Proof.
  intros Hurl Hfetch Hparse Hlatest.
  destruct (Hlatest "MAPS") as (p0 & Hp0); [apply list_elem_of_here|].
  destruct (latest_ok_inv file "MAPS" p0 Hp0) as (shares_idx & weight_idx & Hs & Hw & _).
  destruct (for_each_total env (schema file) shares_idx weight_idx h TARGET_TICKERS
              (default ∅ (data (load_state file))) targets_nodup) as (d' & Hloop).
  { intros t c Hin. rewrite process_ticker_outcome.
    destruct (h !! t) as [current|]; [|by eexists].
    destruct (Hlatest t) as (p & Hp); [by eapply target_is_target|].
    destruct (latest_ok_inv file t p Hp) as (si & wi & Hs' & Hw' & Hdec).
    rewrite Hs in Hs'. injection Hs' as <-. rewrite Hw in Hw'. injection Hw' as <-.
    rewrite stored_history_loaded in Hdec. rewrite Hdec.
    rewrite (announce_dry env t c current p Hurl). by eexists. }
  pose proof (main_unfold env file lines h shares_idx weight_idx Hfetch Hparse Hs Hw) as Hmain.
  cbv zeta in Hmain. rewrite Hloop in Hmain.
  split_and!.
  - by rewrite Hmain.
  - by apply no_webhook_nothing_posted.
  - rewrite Hmain. cbn [output].
    change ([Print FetchingCSV; Print ParsingCSV; Print LoadingState] ++ ?l ++ [Print Done])
      with (([Print FetchingCSV; Print ParsingCSV; Print LoadingState] ++ l) ++ [Print Done]).
    apply last_snoc.
Qed.

Lemma dry_run_completes_witness :
  exit_status (main (sample_env shares_changed_csv None 500) sample_file) = Ok tt.
Proof.
  refine (proj1 (dry_run_completes (sample_env shares_changed_csv None 500) sample_file
                   shares_changed_csv
                   (<["MAPS" := sample_holding "2026-11-04" 1200000 "1.20%"]> ∅) _ _ _ _)).
  - reflexivity.
  - vm_compute. reflexivity.
  - vm_compute. reflexivity.
  - intros ticker Hin.
    apply elem_of_cons in Hin as [->|Hin];
      [exists (Some sample_previous); vm_compute; reflexivity|].
    apply elem_of_cons in Hin as [->|Hin]; [exists None; vm_compute; reflexivity|].
    by apply elem_of_nil in Hin.
Defined.

(** ** The state does not depend on the webhook *)

Lemma for_each_same_state (env1 env2 : environment) (fs : list string)
    (shares_idx weight_idx : Z) (h : gmap string holding)
    (targets : list (string * string)) (d d1 d2 : gmap string (list (list value))) :
  outcome (for_each (process_ticker env1 fs shares_idx weight_idx h) d targets) = Ok d1 ->
  outcome (for_each (process_ticker env2 fs shares_idx weight_idx h) d targets) = Ok d2 ->
  d1 = d2.
Proof.
  revert d. induction targets as [|[t c] targets IH]; intros d.
  - cbn [for_each mret action_ret outcome]. congruence.
  - rewrite !for_each_cons, !outcome_bind.
    destruct (outcome (process_ticker env1 _ _ _ _ d (t, c))) as [dm1|] eqn:H1; [|done].
    destruct (outcome (process_ticker env2 _ _ _ _ d (t, c))) as [dm2|] eqn:H2; [|done].
    assert (dm1 = dm2) as ->.
    { rewrite process_ticker_outcome in H1, H2.
      destruct (h !! t) as [current|]; [|congruence].
      destruct (decode_previous _ _ _ _) as [previous_data|]; [|done].
      destruct (outcome (announce env1 _ _ _ _)); [|done].
      destruct (outcome (announce env2 _ _ _ _)); [|done]. congruence. }
    apply IH.
Qed.

(** X20. What a run saves does not depend on the webhook. Two runs on the same
    state file, with the same clock and the same answer to the fetch, save
    the same state if they both complete, whatever [DISCORD_WEBHOOK_URL] is
    in each and whatever the webhook answers. *)
Theorem state_independent_of_webhook (env1 env2 : environment) (file : option document) :
  clock env1 = clock env2 ->
  http_get env1 = http_get env2 ->
  exit_status (main env1 file) = Ok tt ->
  exit_status (main env2 file) = Ok tt ->
  state_file (main env1 file) = state_file (main env2 file).
Proof.
  intros Hclock Hget Hexit1 Hexit2.
  destruct (main_ok_inv env1 file Hexit1)
    as (lines & h & shares_idx & weight_idx & d1 & Hfetch1 & Hparse1 & Hs & Hw & Hloop1).
  destruct (main_ok_inv env2 file Hexit2)
    as (lines2 & h2 & si2 & wi2 & d2 & Hfetch2 & Hparse2 & Hs2 & Hw2 & Hloop2).
  assert (fetch_csv env2 = fetch_csv env1) as Hf by (unfold fetch_csv; by rewrite Hget).
  rewrite Hf, Hfetch1 in Hfetch2. injection Hfetch2 as <-.
  rewrite <- Hclock, Hparse1 in Hparse2. injection Hparse2 as <-.
  rewrite Hs in Hs2. injection Hs2 as <-. rewrite Hw in Hw2. injection Hw2 as <-.
  pose proof (for_each_same_state _ _ _ _ _ _ _ _ _ _ Hloop1 Hloop2) as ->.
  rewrite (main_unfold env1 file lines h shares_idx weight_idx) by done.
  rewrite (main_unfold env2 file lines h shares_idx weight_idx);
    [|by rewrite Hf | by rewrite <- Hclock | done | done].
  cbv zeta. by rewrite Hloop1, Hloop2.
Qed.

Lemma state_independent_of_webhook_witness :
  state_file (main (sample_env shares_changed_csv None 204) sample_file)
  = state_file (main (sample_env shares_changed_csv sample_webhook 500) sample_file).
Proof.
  apply state_independent_of_webhook.
  - reflexivity.
  - reflexivity.
  - vm_compute. reflexivity.
  - vm_compute. reflexivity.
Defined.

(** ** The first run *)

Lemma process_ticker_first (env : environment) (h : gmap string holding)
    (d : gmap string (list (list value))) (ticker company : string) :
  d !! ticker = None ->
  outcome (process_ticker env default_fields 1 2 h d (ticker, company))
  = Ok (match h !! ticker with
        | Some current => <[ticker := [default_record current]]> d
        | None => d
        end) /\
  trace (process_ticker env default_fields 1 2 h d (ticker, company))
  = [Print (match h !! ticker with
            | Some _ => FirstTimeTracking ticker
            | None => CouldNotFind ticker
            end)].
Proof.
  intros Hd. rewrite process_ticker_outcome, process_ticker_trace, Hd.
  destruct (h !! ticker) as [current|]; [|done].
  cbn [default from_option]. unfold decode_previous. cbn [last].
  rewrite announce_trace. unfold announce. cbn [print outcome changed].
  by rewrite default_record_spec.
Qed.

Lemma for_each_first (env : environment) (h : gmap string holding)
    (targets : list (string * string)) (d : gmap string (list (list value))) :
  NoDup (fst <$> targets) ->
  (forall t, t ∈ (fst <$> targets) -> d !! t = None) ->
  exists d',
    outcome (for_each (process_ticker env default_fields 1 2 h) d targets) = Ok d' /\
    trace (for_each (process_ticker env default_fields 1 2 h) d targets)
    = map (fun target => Print (match h !! fst target with
                                | Some _ => FirstTimeTracking (fst target)
                                | None => CouldNotFind (fst target)
                                end)) targets /\
    forall ticker : string,
      default [] (d' !! ticker) =
      if decide (ticker ∈ (fst <$> targets))
      then match h !! ticker with
           | Some current => [default_record current]
           | None => []
           end
      else default [] (d !! ticker).
Proof.
  revert d. induction targets as [|[t c] targets IH]; intros d Hnodup Hnone.
  - exists d. split_and!; [done | done |]. intros ticker.
    destruct (decide _) as [Hin|_]; [by apply elem_of_nil in Hin | done].
  - rewrite fmap_cons in Hnodup. apply NoDup_cons in Hnodup as [Hfresh Hnodup].
    cbn [fst] in Hfresh.
    destruct (process_ticker_first env h d t c) as [Hout Htr].
    { apply Hnone. apply list_elem_of_here. }
    set (dm := match h !! t with
               | Some current => <[t := [default_record current]]> d
               | None => d
               end) in *.
    destruct (IH dm Hnodup) as (d' & Hloop & Hloop_tr & Hlook).
    { intros t' Hin. assert (t' <> t) as Hne by (by intros ->).
      assert (dm !! t' = d !! t') as ->.
      { unfold dm. destruct (h !! t); [by rewrite lookup_insert_ne | done]. }
      apply Hnone. by apply list_elem_of_further. }
    exists d'. rewrite for_each_cons, outcome_bind, trace_bind, Hout, Htr, Hloop, Hloop_tr.
    split_and!; [done | done |]. intros ticker. rewrite Hlook.
    rewrite fmap_cons. cbn [fst].
    destruct (decide (ticker ∈ (fst <$> targets))) as [Hin|Hnot].
    + rewrite decide_True; [done | by apply list_elem_of_further].
    + destruct (decide (ticker = t)) as [->|Hne].
      * rewrite decide_True by apply list_elem_of_here.
        unfold dm. destruct (h !! t) as [current|].
        -- by rewrite lookup_insert_eq.
        -- rewrite Hnone; [done | apply list_elem_of_here].
      * rewrite decide_False.
        -- unfold dm. destruct (h !! t); [by rewrite lookup_insert_ne | done].
        -- intros Hin. apply elem_of_cons in Hin as [?|?]; done.
Qed.

(** X21. The first run. With no state file, a run whose feed was fetched and
    parsed always completes, whatever the webhook: it posts nothing, prints,
    for each tracked ticker in turn, that it is tracked for the first time
    or that it was not found, and saves a state with the default schema in
    which each ticker found has a history of one record (its date, share
    count and weighting) and no other key has any. *)
Theorem first_run (env : environment) (lines : list string) (h : gmap string holding) :
  fetch_csv env = Ok lines ->
  parse_csv (clock env) lines = Ok h ->
  exit_status (main env None) = Ok tt /\
  output (main env None) =
    [Print FetchingCSV; Print ParsingCSV; Print LoadingState]
    ++ map (fun target => Print (match h !! fst target with
                                 | Some _ => FirstTimeTracking (fst target)
                                 | None => CouldNotFind (fst target)
                                 end)) TARGET_TICKERS
    ++ [Print Done] /\
  schema (state_file (main env None)) = default_fields /\
  forall ticker : string,
    stored_history (state_file (main env None)) ticker =
    match h !! ticker with
    | Some current => [default_record current]
    | None => []
    end.
Proof.
  intros Hfetch Hparse.
  destruct (for_each_first env h TARGET_TICKERS ∅ targets_nodup)
    as (d' & Hloop & Htr & Hlook).
  { intros t _. apply lookup_empty. }
  pose proof (main_unfold env None lines h 1 2 Hfetch Hparse eq_refl eq_refl) as Hmain.
  cbv zeta in Hmain.
  change (schema None) with default_fields in Hmain.
  change (default ∅ (data (load_state None)))
    with (∅ : gmap string (list (list value))) in Hmain.
  rewrite Hloop, Htr in Hmain. rewrite Hmain. cbn [exit_status output state_file].
  split_and!; [done | done | done |]. intros ticker.
  rewrite stored_history_saved, Hlook.
  destruct (decide (ticker ∈ (fst <$> TARGET_TICKERS))) as [Hin|Hnot]; [done|].
  rewrite lookup_empty. destruct (h !! ticker) as [current|] eqn:Hcur; [|done].
  exfalso. apply Hnot. apply (parse_csv_keys (clock env) lines h); [done | by eexists].
Qed.

Lemma first_run_witness :
  stored_history (state_file (main (sample_env both_tickers_csv sample_webhook 500) None)) "GRWG"
  = [default_record (sample_holding "2026-11-04" 500 "0.10%")].
Proof.
  destruct (first_run (sample_env both_tickers_csv sample_webhook 500) both_tickers_csv
              (<["MAPS" := sample_holding "2026-11-04" 1200000 "1.20%"]>
                 (<["GRWG" := sample_holding "2026-11-04" 500 "0.10%"]> ∅)))
    as (_ & _ & _ & Hhist).
  - vm_compute. reflexivity.
  - vm_compute. reflexivity.
  - rewrite Hhist. reflexivity.
Defined.

(** ** A record that is too short *)

(** X22. A stored record that ends before the position of shares or of
    weighting in the schema cannot be decoded: reading the latest record of
    its ticker raises [IndexError], and a run in which the feed holds that
    ticker does not complete and leaves the state file as it was. *)
Theorem short_record_index_error (file : option document) (ticker : string)
    (shares_idx weight_idx : Z) (record : list value) :
  list_index "shares" (schema file) = Ok shares_idx ->
  list_index "weighting" (schema file) = Ok weight_idx ->
  last (stored_history file ticker) = Some record ->
  len record <= shares_idx \/ len record <= weight_idx ->
  latest file ticker = Raise IndexError /\
  forall (env : environment) (lines : list string) (h : gmap string holding)
         (company : string) (current : holding),
    fetch_csv env = Ok lines ->
    parse_csv (clock env) lines = Ok h ->
    (ticker, company) ∈ TARGET_TICKERS ->
    h !! ticker = Some current ->
    (exists e : exn, exit_status (main env file) = Raise e) /\
    state_file (main env file) = file.
Proof.
  intros Hs Hw Hlast Hshort.
  assert (latest file ticker = Raise IndexError) as Hlatest.
  { unfold latest. rewrite Hs, Hw, !bind_Ok. unfold decode_previous. rewrite Hlast.
    destruct (if contains "date" (schema file)
              then list_index "date" (schema file) ≫= getitem record
              else Ok (VStr "")) as [d|e] eqn:Hd.
    - rewrite bind_Ok.
      destruct (getitem record shares_idx) as [n|e] eqn:Hn.
      + rewrite bind_Ok.
        destruct (getitem record weight_idx) as [w|e] eqn:Hw'.
        * exfalso. destruct Hshort as [Hlen|Hlen].
          -- rewrite getitem_out_of_range in Hn by done. discriminate.
          -- rewrite getitem_out_of_range in Hw' by done. discriminate.
        * by apply getitem_raises in Hw' as ->.
      + by apply getitem_raises in Hn as ->.
    - destruct (contains "date" (schema file)) eqn:Hc; [|discriminate].
      destruct (index_from_found "date" (schema file) 0 Hc) as (i & Hi & _).
      unfold list_index in Hd. rewrite Hi, bind_Ok in Hd.
      by apply getitem_raises in Hd as ->. }
  split; [done|].
  intros env lines h company current Hfetch Hparse Hin Hcur.
  destruct (exit_status (main env file)) as [[]|e] eqn:Hexit.
  - exfalso.
    destruct (main_completed env file lines h Hfetch Hparse Hexit)
      as (si & wi & d' & Hdone).
    destruct (completed_history _ _ _ _ _ _ ticker company current Hdone Hin Hcur)
      as (previous_data & Hok & _).
    congruence.
  - split; [by exists e|]. by apply (main_raise_unchanged env file e).
Qed.

Lemma short_record_index_error_witness :
  latest (sample_state [("MAPS", [[VStr "2026-11-03"; VInt 5]])]) "MAPS" = Raise IndexError /\
  state_file (main (sample_env unchanged_csv None 204)
                (sample_state [("MAPS", [[VStr "2026-11-03"; VInt 5]])]))
  = sample_state [("MAPS", [[VStr "2026-11-03"; VInt 5]])].
Proof.
  destruct (short_record_index_error
              (sample_state [("MAPS", [[VStr "2026-11-03"; VInt 5]])]) "MAPS" 1 2
              [VStr "2026-11-03"; VInt 5])
    as [Hlatest Hrun].
  - reflexivity.
  - reflexivity.
  - reflexivity.
  - right. vm_compute. discriminate.
  - split; [exact Hlatest|].
    refine (proj2 (Hrun (sample_env unchanged_csv None 204) unchanged_csv
                     (<["MAPS" := sample_holding "2026-11-04" 1000000 "1.00%"]> ∅)
                     "WM Technology Inc" (sample_holding "2026-11-04" 1000000 "1.00%")
                     _ _ _ _)).
    + vm_compute. reflexivity.
    + vm_compute. reflexivity.
    + apply list_elem_of_here.
    + apply lookup_insert_eq.
Defined.

(** ** The log of a ticker *)

Lemma log_of_app (t : string) (l1 l2 : list event) :
  log_of t (l1 ++ l2) = log_of t l1 ++ log_of t l2.
Proof. apply List.filter_app. Qed.

Lemma log_of_keep (t : string) (e : event) (l : list event) :
  subject e = Some t -> log_of t (e :: l) = e :: log_of t l.
Proof. intros H. unfold log_of. cbn [List.filter]. by rewrite bool_decide_eq_true_2. Qed.

Lemma log_of_drop (t : string) (e : event) (l : list event) :
  subject e <> Some t -> log_of t (e :: l) = log_of t l.
Proof. intros H. unfold log_of. cbn [List.filter]. by rewrite bool_decide_eq_false_2. Qed.

Lemma log_of_none (t : string) (l : list event) :
  Forall (fun e => subject e <> Some t) l -> log_of t l = [].
Proof. induction 1 as [|e l He _ IH]; [done|]. by rewrite log_of_drop. Qed.

Lemma log_of_elem_of (t : string) (e : event) (l : list event) :
  e ∈ log_of t l <-> e ∈ l /\ subject e = Some t.
Proof.
  unfold log_of. rewrite !list_elem_of_In, filter_In, bool_decide_eq_true. done.
Qed.

Lemma send_discord_alert_log (env : environment) (ticker company : string)
    (current : holding) (previous_data : option previous) :
  match url_of (WEBHOOK_URL env) with
  | None =>
      log_of ticker (trace (send_discord_alert env ticker company current previous_data))
      = [Print (NoWebhookWarning ticker)]
  | Some url =>
      log_of ticker (trace (send_discord_alert env ticker company current previous_data)) = [] \/
      exists payload : alert,
        log_of ticker (trace (send_discord_alert env ticker company current previous_data))
        = [Post url payload] /\ alert_ticker payload = ticker
  end.
Proof.
  destruct (send_discord_alert_cases env ticker company current previous_data)
    as [[Hurl ->]|[[[u Hurl] ->]|(url & payload & Hurl & Htr & Ht & _)]]; rewrite Hurl.
  - by rewrite log_of_keep by reflexivity.
  - by left.
  - right. exists payload. split; [|done].
    destruct Htr as [->|(status & body & ->)].
    + by rewrite log_of_keep by (simpl; congruence).
    + rewrite log_of_keep by (simpl; congruence). by rewrite log_of_drop by discriminate.
Qed.

Lemma process_ticker_log (env : environment) (fs : list string) (shares_idx weight_idx : Z)
    (h : gmap string holding) (d : gmap string (list (list value)))
    (ticker company : string) :
  match h !! ticker with
  | None =>
      log_of ticker
        (trace (process_ticker env fs shares_idx weight_idx h d (ticker, company)))
      = [Print (CouldNotFind ticker)]
  | Some current =>
      match decode_previous fs shares_idx weight_idx (default [] (d !! ticker)) with
      | Raise _ =>
          log_of ticker
            (trace (process_ticker env fs shares_idx weight_idx h d (ticker, company))) = []
      | Ok None =>
          log_of ticker
            (trace (process_ticker env fs shares_idx weight_idx h d (ticker, company)))
          = [Print (FirstTimeTracking ticker)]
      | Ok (Some p) =>
          if py_ne (VInt (shares current)) (previous_shares p) then
            match url_of (WEBHOOK_URL env) with
            | None =>
                log_of ticker
                  (trace (process_ticker env fs shares_idx weight_idx h d (ticker, company)))
                = [Print (DetectedChange ticker (previous_shares p) (shares current));
                   Print (NoWebhookWarning ticker)]
            | Some url =>
                log_of ticker
                  (trace (process_ticker env fs shares_idx weight_idx h d (ticker, company)))
                = [Print (DetectedChange ticker (previous_shares p) (shares current))] \/
                exists payload : alert,
                  log_of ticker
                    (trace (process_ticker env fs shares_idx weight_idx h d (ticker, company)))
                  = [Print (DetectedChange ticker (previous_shares p) (shares current));
                     Post url payload] /\
                  alert_ticker payload = ticker
            end
          else
            log_of ticker
              (trace (process_ticker env fs shares_idx weight_idx h d (ticker, company))) = []
      end
  end.
Proof.
  rewrite process_ticker_trace.
  destruct (h !! ticker) as [current|]; [|by rewrite log_of_keep by reflexivity].
  destruct (decode_previous _ _ _ _) as [[p|]|]; [| |done].
  2: { rewrite announce_trace. by rewrite log_of_keep by reflexivity. }
  rewrite announce_trace. destruct (py_ne _ _); [|done].
  rewrite log_of_keep by done.
  pose proof (send_discord_alert_log env ticker company current (Some p)) as Hlog.
  destruct (url_of (WEBHOOK_URL env)) as [url|].
  - destruct Hlog as [->|(payload & -> & Ht)]; [by left|]. right. by exists payload.
  - by rewrite Hlog.
Qed.

Lemma send_discord_alert_subjects (env : environment) (ticker company : string)
    (current : holding) (previous_data : option previous) :
  Forall (fun e => subject e = Some ticker \/ subject e = None)
    (trace (send_discord_alert env ticker company current previous_data)).
Proof.
  destruct (send_discord_alert_cases env ticker company current previous_data)
    as [[_ ->]|[[_ ->]|(url & payload & _ & Htr & Ht & _)]].
  - apply Forall_cons. split; [by left | apply Forall_nil_2].
  - apply Forall_nil_2.
  - assert (subject (Post url payload) = Some ticker) as Hs by (simpl; by rewrite Ht).
    destruct Htr as [->|(status & body & ->)].
    + apply Forall_cons. split; [by left | apply Forall_nil_2].
    + apply Forall_cons. split; [by left|].
      apply Forall_cons. split; [by right | apply Forall_nil_2].
Qed.

Lemma process_ticker_subjects (env : environment) (fs : list string)
    (shares_idx weight_idx : Z) (h : gmap string holding)
    (d : gmap string (list (list value))) (ticker company : string) :
  Forall (fun e => subject e = Some ticker \/ subject e = None)
    (trace (process_ticker env fs shares_idx weight_idx h d (ticker, company))).
Proof.
  apply process_ticker_Forall; [by left | by left |].
  intros current p _. split; [by left | apply send_discord_alert_subjects].
Qed.

Lemma process_ticker_log_other (env : environment) (fs : list string)
    (shares_idx weight_idx : Z) (h : gmap string holding)
    (d : gmap string (list (list value))) (ticker company other : string) :
  other <> ticker ->
  log_of other (trace (process_ticker env fs shares_idx weight_idx h d (ticker, company))) = [].
Proof.
  intros Hne. apply log_of_none.
  eapply Forall_impl; [apply process_ticker_subjects|].
  intros e [He|He]; rewrite He; congruence.
Qed.

Lemma log_of_steps (env : environment) (fs : list string) (shares_idx weight_idx : Z)
    (h : gmap string holding) (d : gmap string (list (list value)))
    (targets : list (string * string)) (ticker company : string) :
  NoDup (fst <$> targets) ->
  (ticker, company) ∈ targets ->
  log_of ticker
    (concat (map (fun target => trace (process_ticker env fs shares_idx weight_idx h d target))
               targets))
  = log_of ticker (trace (process_ticker env fs shares_idx weight_idx h d (ticker, company))).
Proof.
  assert (forall rest : list (string * string),
            ticker ∉ (fst <$> rest) ->
            log_of ticker
              (concat (map (fun target =>
                              trace (process_ticker env fs shares_idx weight_idx h d target))
                         rest)) = []) as Hrest.
  { induction rest as [|[t c] rest IH]; [done|].
    rewrite fmap_cons. intros Hnot. apply not_elem_of_cons in Hnot as [Hne Hnot].
    cbn [map concat]. rewrite log_of_app, (IH Hnot), app_nil_r.
    by apply process_ticker_log_other. }
  induction targets as [|[t c] targets IH]; intros Hnodup Hin.
  - by apply elem_of_nil in Hin.
  - rewrite fmap_cons in Hnodup. apply NoDup_cons in Hnodup as [Hfresh Hnodup].
    cbn [map concat]. rewrite log_of_app.
    apply elem_of_cons in Hin as [[= <- <-]|Hin].
    + by rewrite (Hrest targets Hfresh), app_nil_r.
    + rewrite (IH Hnodup Hin).
      rewrite process_ticker_log_other; [done|].
      intros ->. apply Hfresh. apply list_elem_of_fmap. by exists (t, company).
Qed.

Lemma completed_log (env : environment) (file : option document)
    (h : gmap string holding) (shares_idx weight_idx : Z)
    (d' : gmap string (list (list value))) (ticker company : string) :
  completed env file h shares_idx weight_idx d' ->
  (ticker, company) ∈ TARGET_TICKERS ->
  log_of ticker (output (main env file)) =
  log_of ticker
    (trace (process_ticker env (schema file) shares_idx weight_idx h
              (default ∅ (data (load_state file))) (ticker, company))).
Proof.
  intros [_ _ _ _ Hout] Hin. rewrite Hout, !log_of_app.
  rewrite (log_of_steps _ _ _ _ _ _ _ ticker company targets_nodup Hin).
  by rewrite app_nil_r.
Qed.

(** X23. A tracked ticker that the feed does not hold is reported and skipped.
    In a run that completes, the line saying that a ticker could not be
    found is printed exactly for the tracked tickers that the parsed table
    lacks; for such a ticker it is the only thing printed or posted about
    it, and its history stays as it was. *)
Theorem missing_ticker_skipped (env : environment) (file : option document)
    (lines : list string) (h : gmap string holding) (ticker company : string) :
  fetch_csv env = Ok lines ->
  parse_csv (clock env) lines = Ok h ->
  exit_status (main env file) = Ok tt ->
  (ticker, company) ∈ TARGET_TICKERS ->
  (Print (CouldNotFind ticker) ∈ output (main env file) <-> h !! ticker = None) /\
  (h !! ticker = None ->
   log_of ticker (output (main env file)) = [Print (CouldNotFind ticker)] /\
   stored_history (state_file (main env file)) ticker = stored_history file ticker).
Proof.
  intros Hfetch Hparse Hexit Hin.
  destruct (main_completed env file lines h Hfetch Hparse Hexit)
    as (shares_idx & weight_idx & d' & Hdone).
  pose proof (completed_log env file h shares_idx weight_idx d' ticker company Hdone Hin)
    as Hlog.
  pose proof (process_ticker_log env (schema file) shares_idx weight_idx h
                (default ∅ (data (load_state file))) ticker company) as Hstep.
  split.
  - split.
    + intros Hprinted.
      assert (Print (CouldNotFind ticker) ∈ log_of ticker (output (main env file))) as Hmem
        by (by apply log_of_elem_of).
      rewrite Hlog in Hmem.
      destruct (h !! ticker) as [current|]; [exfalso|done].
      destruct (decode_previous _ _ _ _) as [[p|]|].
      * destruct (py_ne _ _).
        -- destruct (url_of (WEBHOOK_URL env)) as [url|].
           ++ destruct Hstep as [Heq|(payload & Heq & _)]; rewrite Heq in Hmem;
                repeat (apply elem_of_cons in Hmem as [?|Hmem]; [done|]);
                by apply elem_of_nil in Hmem.
           ++ rewrite Hstep in Hmem.
              repeat (apply elem_of_cons in Hmem as [?|Hmem]; [done|]).
              by apply elem_of_nil in Hmem.
        -- rewrite Hstep in Hmem. by apply elem_of_nil in Hmem.
      * rewrite Hstep in Hmem.
        repeat (apply elem_of_cons in Hmem as [?|Hmem]; [done|]).
        by apply elem_of_nil in Hmem.
      * rewrite Hstep in Hmem. by apply elem_of_nil in Hmem.
    + intros Hnone. rewrite Hnone in Hstep.
      assert (Print (CouldNotFind ticker) ∈ log_of ticker (output (main env file))) as Hmem
        by (rewrite Hlog, Hstep; apply list_elem_of_here).
      by apply log_of_elem_of in Hmem as [? _].
  - intros Hnone. rewrite Hnone in Hstep. split; [by rewrite Hlog|].
    eapply completed_untracked; [done | by right].
Qed.

Lemma missing_ticker_skipped_witness :
  log_of "GRWG" (output (main (sample_env shares_changed_csv sample_webhook 204) sample_file))
  = [Print (CouldNotFind "GRWG")].
Proof.
  refine (proj1 (proj2 (missing_ticker_skipped
                          (sample_env shares_changed_csv sample_webhook 204) sample_file
                          shares_changed_csv
                          (<["MAPS" := sample_holding "2026-11-04" 1200000 "1.20%"]> ∅)
                          "GRWG" "GrowGeneration Corp" _ _ _ _) _)).
  - vm_compute. reflexivity.
  - vm_compute. reflexivity.
  - vm_compute. reflexivity.
  - apply list_elem_of_further, list_elem_of_here.
  - reflexivity.
Defined.

(** X24. What a run that completes prints and posts about a tracked ticker
    that the feed holds. With no stored record: the line about the first
    tracking, and nothing else. With a stored record whose share count
    compares equal to the current one: nothing at all. Otherwise the line
    about the detected change, with the stored and the current share count,
    followed by the local warning when no webhook is configured, and by at
    most one alert, posted to the webhook, when one is. *)
Theorem ticker_log (env : environment) (file : option document)
    (lines : list string) (h : gmap string holding)
    (ticker company : string) (current : holding) :
  fetch_csv env = Ok lines ->
  parse_csv (clock env) lines = Ok h ->
  exit_status (main env file) = Ok tt ->
  (ticker, company) ∈ TARGET_TICKERS ->
  h !! ticker = Some current ->
  exists previous_data : option previous,
    latest file ticker = Ok previous_data /\
    match previous_data with
    | None => log_of ticker (output (main env file)) = [Print (FirstTimeTracking ticker)]
    | Some p =>
        if py_ne (VInt (shares current)) (previous_shares p) then
          match url_of (WEBHOOK_URL env) with
          | None =>
              log_of ticker (output (main env file))
              = [Print (DetectedChange ticker (previous_shares p) (shares current));
                 Print (NoWebhookWarning ticker)]
          | Some url =>
              log_of ticker (output (main env file))
              = [Print (DetectedChange ticker (previous_shares p) (shares current))] \/
              exists payload : alert,
                log_of ticker (output (main env file))
                = [Print (DetectedChange ticker (previous_shares p) (shares current));
                   Post url payload] /\
                alert_ticker payload = ticker
          end
        else log_of ticker (output (main env file)) = []
    end.
Proof.
  intros Hfetch Hparse Hexit Hin Hcur.
  destruct (main_completed env file lines h Hfetch Hparse Hexit)
    as (shares_idx & weight_idx & d' & Hdone).
  destruct (completed_history _ _ _ _ _ _ ticker company current Hdone Hin Hcur)
    as (previous_data & Hlatest & _).
  exists previous_data. split; [done|].
  rewrite (latest_completed _ _ _ _ _ _ ticker Hdone) in Hlatest.
  rewrite (completed_log env file h shares_idx weight_idx d' ticker company Hdone Hin).
  pose proof (process_ticker_log env (schema file) shares_idx weight_idx h
                (default ∅ (data (load_state file))) ticker company) as Hstep.
  rewrite Hcur, Hlatest in Hstep. exact Hstep.
Qed.

Lemma ticker_log_witness :
  log_of "MAPS" (output (main (sample_env shares_changed_csv None 204) sample_file))
  = [Print (DetectedChange "MAPS" (VInt 1000000) 1200000); Print (NoWebhookWarning "MAPS")].
Proof.
  destruct (ticker_log (sample_env shares_changed_csv None 204) sample_file
              shares_changed_csv
              (<["MAPS" := sample_holding "2026-11-04" 1200000 "1.20%"]> ∅)
              "MAPS" "WM Technology Inc" (sample_holding "2026-11-04" 1200000 "1.20%"))
    as (previous_data & Hlatest & Hlog).
  - vm_compute. reflexivity.
  - vm_compute. reflexivity.
  - vm_compute. reflexivity.
  - apply list_elem_of_here.
  - apply lookup_insert_eq.
  - assert (latest sample_file "MAPS" = Ok (Some sample_previous)) as Hl
      by (vm_compute; reflexivity).
    rewrite Hl in Hlatest. injection Hlatest as <-. exact Hlog.
Defined.

(** ** What an alert reports *)

(** X25. The alert about a ticker reports the holding and the stored record.
    In a run that completes, every alert posted about a tracked ticker found
    in the feed carries the company name of the ticker, the date and the
    weighting (times 100) of the current record, and the weighting (times
    100) of the stored record; when the stored share count is an integer,
    the alert says increased, in green, exactly when the current count is
    above it, and decreased, in red, exactly when it is below. *)
Theorem alert_reports_holding (env : environment) (file : option document)
    (lines : list string) (h : gmap string holding)
    (ticker company : string) (current : holding) :
  fetch_csv env = Ok lines ->
  parse_csv (clock env) lines = Ok h ->
  exit_status (main env file) = Ok tt ->
  (ticker, company) ∈ TARGET_TICKERS ->
  h !! ticker = Some current ->
  forall (url : string) (payload : alert),
    Post url payload ∈ output (main env file) ->
    alert_ticker payload = ticker ->
    exists (p : previous) (w : value),
      latest file ticker = Ok (Some p) /\
      alert_company payload = company /\
      alert_date payload = date current /\
      current_weighting payload = fmul (weighting current) f100 /\
      py_mul100 (previous_weighting p) = Ok w /\
      prev_weighting payload = Some w /\
      forall n : Z,
        previous_shares p = VInt n ->
        (n < shares current /\ direction payload = "increased" /\ color payload = 1398564) \/
        (shares current < n /\ direction payload = "decreased" /\ color payload = 7478308).
Proof.
  intros Hfetch Hparse Hexit Hin Hcur url payload Hpost Hticker.
  destruct (main_completed env file lines h Hfetch Hparse Hexit)
    as (shares_idx & weight_idx & d' & Hdone).
  destruct (completed_history _ _ _ _ _ _ ticker company current Hdone Hin Hcur)
    as (previous_data & Hlatest & _).
  assert (notifies ticker (Post url payload)) as Hnot by done.
  apply (completed_event _ _ _ _ _ _ ticker company current previous_data _
           Hdone Hin Hcur Hlatest Hnot) in Hpost.
  rewrite announce_trace in Hpost.
  destruct previous_data as [p|].
  2: { apply elem_of_cons in Hpost as [?|Hpost]; [done | by apply elem_of_nil in Hpost]. }
  destruct (py_ne _ _); [|by apply elem_of_nil in Hpost].
  apply elem_of_cons in Hpost as [?|Hpost]; [done|].
  destruct (send_discord_alert_cases env ticker company current (Some p))
    as [[_ Htr]|[[_ Htr]|(u & pl & _ & Htr & _ & Hc & Hd & _ & Hprev & Hsub & Hzero
                          & Hcw & (w & Hw & Hpw) & Hdir)]].
  { rewrite Htr in Hpost.
    apply elem_of_cons in Hpost as [?|Hpost]; [done | by apply elem_of_nil in Hpost]. }
  { rewrite Htr in Hpost. by apply elem_of_nil in Hpost. }
  assert (payload = pl) as ->.
  { destruct Htr as [Htr|(status & body & Htr)]; rewrite Htr in Hpost.
    - apply elem_of_cons in Hpost as [[= _ ->]|Hpost]; [done | by apply elem_of_nil in Hpost].
    - apply elem_of_cons in Hpost as [[= _ ->]|Hpost]; [done|].
      apply elem_of_cons in Hpost as [?|Hpost]; [done | by apply elem_of_nil in Hpost]. }
  exists p, w. split_and!; try done.
  intros n Hn. rewrite Hprev, Hn in Hsub. cbn [py_sub] in Hsub. injection Hsub as Hdelta.
  rewrite <- Hdelta in Hzero, Hdir. cbn [py_positive] in Hdir.
  unfold py_eq, py_ne in Hzero.
  destruct (Z.eqb_spec (shares current - n) 0) as [?|Hne]; [done|].
  destruct (Z.ltb_spec 0 (shares current - n)) as [Hpos|Hneg];
    injection Hdir as -> ->; [left | right]; split_and!; (done || lia).
Qed.

Lemma alert_reports_holding_witness :
  exists (p : previous) (w : value),
    latest sample_file "MAPS" = Ok (Some p) /\
    py_mul100 (previous_weighting p) = Ok w.
Proof.
  destruct (alert_reports_holding
              (sample_env shares_changed_csv sample_webhook 204) sample_file
              shares_changed_csv
              (<["MAPS" := sample_holding "2026-11-04" 1200000 "1.20%"]> ∅)
              "MAPS" "WM Technology Inc" (sample_holding "2026-11-04" 1200000 "1.20%")
              ltac:(vm_compute; reflexivity) ltac:(vm_compute; reflexivity)
              ltac:(vm_compute; reflexivity) ltac:(apply list_elem_of_here)
              ltac:(apply lookup_insert_eq)
              "https://discord.example/api/webhooks/1"
              {| alert_ticker := "MAPS"; alert_company := "WM Technology Inc";
                 alert_date := "2026-11-04"; current_shares := 1200000;
                 prev_shares := VInt 1000000; delta := VInt 200000;
                 percent_change := VFloat (S754_finite false 7205759403792794 (-55));
                 current_weighting := fmul (weighting_of_field "1.20%") f100;
                 prev_weighting := Some (VFloat (fmul (weighting_of_field "1.00%") f100));
                 direction := "increased"; color := 1398564 |})
    as (p & w & Hlatest & _ & _ & _ & Hw & _).
  - apply list_elem_of_In. vm_compute. tauto.
  - reflexivity.
  - exists p, w. split; [exact Hlatest | exact Hw].
Defined.

(** ** Running twice, again *)

(** X26. Idempotence, where it holds. After a run that completed, a second run
    on the same feed and on the state that the first run saved completes,
    whatever the clock and the webhook then; unless a weighting read from
    the feed is not-a-number, it leaves every history as the first run
    saved it, posts no alert and notifies about no ticker. *)
Theorem idempotent_without_nan (env1 env2 : environment) (file : option document)
    (lines : list string) (h1 : gmap string holding) :
  fetch_csv env1 = Ok lines ->
  fetch_csv env2 = Ok lines ->
  parse_csv (clock env1) lines = Ok h1 ->
  exit_status (main env1 file) = Ok tt ->
  (forall ticker current, h1 !! ticker = Some current -> is_nan (weighting current) = false) ->
  exit_status (main env2 (state_file (main env1 file))) = Ok tt /\
  state_file (main env2 (state_file (main env1 file))) = state_file (main env1 file) /\
  posted (output (main env2 (state_file (main env1 file)))) = [] /\
  forall ticker : string, ~ notified ticker (main env2 (state_file (main env1 file))).
Proof.
  intros Hfetch1 Hfetch2 Hparse1 Hexit1 Hnan.
  destruct (second_run_idle env1 env2 file lines h1 Hfetch1 Hfetch2 Hparse1 Hexit1 Hnan)
    as (Hexit & Hstate & quiet & Hquiet & Hout).
  assert (Forall (fun e => exists m, e = Print m /\ forall t, m <> NoWebhookWarning t)
            (output (main env2 (state_file (main env1 file))))) as Hall.
  { rewrite Hout. apply Forall_app. split; [|apply Forall_app; split].
    - repeat (apply Forall_cons; split; [by eexists|]). apply Forall_nil_2.
    - eapply Forall_impl; [exact Hquiet|].
      intros [[]|] He; try done. by eexists.
    - repeat (apply Forall_cons; split; [by eexists|]). apply Forall_nil_2. }
  split_and!; [done | done | |].
  - revert Hall. generalize (output (main env2 (state_file (main env1 file)))).
    induction 1 as [|e l (m & -> & _) _ IH]; [done | exact IH].
  - intros ticker (e & He & Hnot). rewrite Forall_forall in Hall.
    destruct (Hall e He) as (m & -> & Hm). destruct m; try done.
    by apply (Hm ticker0).
Qed.

Lemma idempotent_without_nan_witness :
  state_file (main (sample_env shares_changed_csv None 204)
                (state_file (main (sample_env shares_changed_csv sample_webhook 204)
                               sample_file)))
  = state_file (main (sample_env shares_changed_csv sample_webhook 204) sample_file).
Proof.
  refine (proj1 (proj2 (idempotent_without_nan
                          (sample_env shares_changed_csv sample_webhook 204)
                          (sample_env shares_changed_csv None 204) sample_file
                          shares_changed_csv
                          (<["MAPS" := sample_holding "2026-11-04" 1200000 "1.20%"]> ∅)
                          _ _ _ _ _))).
  - vm_compute. reflexivity.
  - vm_compute. reflexivity.
  - vm_compute. reflexivity.
  - vm_compute. reflexivity.
  - intros ticker current Hlook.
    destruct (decide (ticker = "MAPS")) as [->|Hne].
    + rewrite lookup_insert_eq in Hlook. injection Hlook as <-. vm_compute. reflexivity.
    + rewrite lookup_insert_ne, lookup_empty in Hlook by done. discriminate.
Defined.
